(** * Compliance reconciliation (fusion3.py, utils.py): a shallow embedding

    The Python sources are embedded as executable Rocq functions.

    - Python [str] values are [string]s.  The embedding covers ASCII text:
      [lower] and [upper] change the letters A-Z / a-z only, as Python does
      on ASCII input.
    - A Python exception is a value of [exn]; a function that can raise
      returns a [result].
    - The attributes that [Fusion3.initialize_main_params] stores on [self]
      are the fields of the record [Fusion3.t].
    - The browser side ([expand_elements_get_titles], [find_docs],
      [get_attribute]) only produces the lists of rows, documents and
      attribute values; these lists are the inputs of the functions below.
    - The later modules ([UtilsTable], [UtilsAttributes]) embed
      [get_headers_idx], [get_titles], [get_attribute] and
      [get_attribute_values] over what the page shows: the titles of the
      header elements and of the cells, the values of the elements.  The
      clicks, key strokes and waits of the browser are not part of the
      embedding. *)

From Stdlib Require Import String Ascii List ZArith Lia Bool Sorted.
Import ListNotations.
Open Scope string_scope.

(** ** Python exceptions and results *)

Inductive exn : Type :=
| ValueError (msg : string)
| OverflowError (msg : string)
| AttributeError (msg : string)
| NameError (name : string).

Inductive result (A : Type) : Type :=
| Ok (a : A)
| Raise (e : exn).

Arguments Ok {A} a.
Arguments Raise {A} e.

Definition bind {A B : Type} (r : result A) (k : A -> result B) : result B :=
  match r with
  | Ok a => k a
  | Raise e => Raise e
  end.

Notation "x <- c ;; k" := (bind c (fun x => k))
  (at level 61, c at next level, right associativity).

Definition is_ok {A : Type} (r : result A) : bool :=
  match r with Ok _ => true | Raise _ => false end.

(** ** Python string and list primitives *)

Module Py.

Definition code (c : ascii) : N := N_of_ascii c.

Definition between (lo hi : N) (c : ascii) : bool :=
  ((lo <=? code c) && (code c <=? hi))%N.

(** [c.isdigit()] for an ASCII character; also the class [\d]. *)
Definition is_digit (c : ascii) : bool := between 48 57 c.

Definition lower_char (c : ascii) : ascii :=
  if between 65 90 c then ascii_of_N (code c + 32) else c.

Definition upper_char (c : ascii) : ascii :=
  if between 97 122 c then ascii_of_N (code c - 32) else c.

(** [s.lower()] *)
Fixpoint lower (s : string) : string :=
  match s with
  | EmptyString => EmptyString
  | String c s' => String (lower_char c) (lower s')
  end.

(** [s.upper()] *)
Fixpoint upper (s : string) : string :=
  match s with
  | EmptyString => EmptyString
  | String c s' => String (upper_char c) (upper s')
  end.

(** [s.startswith(p)] *)
Fixpoint startswith (p s : string) : bool :=
  match p, s with
  | EmptyString, _ => true
  | String _ _, EmptyString => false
  | String a p', String b s' => Ascii.eqb a b && startswith p' s'
  end.

(** [sub in s] *)
Fixpoint str_in (sub s : string) : bool :=
  startswith sub s ||
  match s with
  | EmptyString => false
  | String _ s' => str_in sub s'
  end.

(** [x in l] for a list (or tuple) of strings *)
Definition mem (x : string) (l : list string) : bool :=
  existsb (String.eqb x) l.

(** [l.remove(x)], called only under the guard [x in l]: drops the first
    occurrence. *)
Fixpoint remove (x : string) (l : list string) : list string :=
  match l with
  | [] => []
  | y :: l' => if String.eqb x y then l' else y :: remove x l'
  end.

(** [l[l.index(x)] = y], called only under the guard [x in l]. *)
Fixpoint replace_first (x y : string) (l : list string) : list string :=
  match l with
  | [] => []
  | z :: l' => if String.eqb x z then y :: l' else z :: replace_first x y l'
  end.

(** Characters that [str.strip()] removes: the ASCII characters for which
    [isspace()] holds. *)
Definition is_space (c : ascii) : bool :=
  between 9 13 c || between 28 32 c.

Fixpoint lstrip_by (p : ascii -> bool) (s : string) : string :=
  match s with
  | EmptyString => EmptyString
  | String c s' => if p c then lstrip_by p s' else s
  end.

Fixpoint rstrip_by (p : ascii -> bool) (s : string) : string :=
  match s with
  | EmptyString => EmptyString
  | String c s' =>
      match rstrip_by p s' with
      | EmptyString => if p c then EmptyString else String c EmptyString
      | r => String c r
      end
  end.

(** [s.strip()] *)
Definition strip (s : string) : string := rstrip_by is_space (lstrip_by is_space s).

(** [rev_string acc s] is [s] reversed, followed by [acc]. *)
Fixpoint rev_string (acc s : string) : string :=
  match s with
  | EmptyString => acc
  | String c s' => rev_string (String c acc) s'
  end.

(** [s.split(sep)] for a non-empty separator: [split_go sep skip cur s]
    scans [s] from the left; [cur] holds, reversed, the characters of the
    field being read; [skip] counts the characters of a separator just
    found that are still to be passed over. *)
Fixpoint split_go (sep : string) (skip : nat) (cur : string) (s : string)
  : list string :=
  match s with
  | EmptyString => [rev_string EmptyString cur]
  | String c s' =>
      match skip with
      | S k => split_go sep k cur s'
      | O =>
          if startswith sep s
          then rev_string EmptyString cur
               :: split_go sep (String.length sep - 1) EmptyString s'
          else split_go sep O (String c cur) s'
      end
  end.

Definition split (sep s : string) : list string := split_go sep 0 EmptyString s.

(** [sep.join(l)] *)
Fixpoint join (sep : string) (l : list string) : string :=
  match l with
  | [] => EmptyString
  | [x] => x
  | x :: l' => x ++ sep ++ join sep l'
  end.

End Py.

(** ** Regular expressions ([re.search], [re.findall])

    The patterns of the sources use literals, the class [\d], character
    sets, alternation, concatenation, [+] and [{n}].  [re.search(p, s)]
    finds a match exactly when some substring of [s] belongs to the language
    of [p], and [re.findall(p, s)] is non-empty in the same case.  Matching
    is by Brzozowski derivatives. *)

Module Regex.

Inductive re : Type :=
| Void
| Eps
| Lit (c : ascii)
| Digit
| OneOf (cs : string)
| Cat (r1 r2 : re)
| Alt (r1 r2 : re)
| Star (r : re).

Definition Plus (r : re) : re := Cat r (Star r).

(** [r{n}] *)
Fixpoint Rep (n : nat) (r : re) : re :=
  match n with
  | O => Eps
  | S n' => Cat r (Rep n' r)
  end.

(** The pattern of a literal text. *)
Fixpoint Str (s : string) : re :=
  match s with
  | EmptyString => Eps
  | String c s' => Cat (Lit c) (Str s')
  end.

Fixpoint char_in (c : ascii) (cs : string) : bool :=
  match cs with
  | EmptyString => false
  | String d cs' => Ascii.eqb c d || char_in c cs'
  end.

Fixpoint nullable (r : re) : bool :=
  match r with
  | Void => false
  | Eps => true
  | Lit _ => false
  | Digit => false
  | OneOf _ => false
  | Cat r1 r2 => nullable r1 && nullable r2
  | Alt r1 r2 => nullable r1 || nullable r2
  | Star _ => true
  end.

Fixpoint deriv (c : ascii) (r : re) : re :=
  match r with
  | Void => Void
  | Eps => Void
  | Lit d => if Ascii.eqb c d then Eps else Void
  | Digit => if Py.is_digit c then Eps else Void
  | OneOf cs => if char_in c cs then Eps else Void
  | Cat r1 r2 =>
      if nullable r1
      then Alt (Cat (deriv c r1) r2) (deriv c r2)
      else Cat (deriv c r1) r2
  | Alt r1 r2 => Alt (deriv c r1) (deriv c r2)
  | Star r1 => Cat (deriv c r1) (Star r1)
  end.

(** Some prefix of [s] matches [r]: [re.match(r, s) is not None]. *)
Fixpoint match_prefix (r : re) (s : string) : bool :=
  nullable r ||
  match s with
  | EmptyString => false
  | String c s' => match_prefix (deriv c r) s'
  end.

(** [re.search(r, s) is not None], and [len(re.findall(r, s)) > 0]. *)
Fixpoint search (r : re) (s : string) : bool :=
  match_prefix r s ||
  match s with
  | EmptyString => false
  | String _ s' => search r s'
  end.

(** The language of a pattern. *)
Inductive matches : re -> string -> Prop :=
| m_eps : matches Eps EmptyString
| m_lit c : matches (Lit c) (String c EmptyString)
| m_digit c : Py.is_digit c = true -> matches Digit (String c EmptyString)
| m_oneof c cs : char_in c cs = true -> matches (OneOf cs) (String c EmptyString)
| m_cat r1 r2 s1 s2 :
    matches r1 s1 -> matches r2 s2 -> matches (Cat r1 r2) (s1 ++ s2)
| m_alt_l r1 r2 s : matches r1 s -> matches (Alt r1 r2) s
| m_alt_r r1 r2 s : matches r2 s -> matches (Alt r1 r2) s
| m_star_nil r : matches (Star r) EmptyString
| m_star_cons r s1 s2 :
    matches r s1 -> matches (Star r) s2 -> matches (Star r) (s1 ++ s2).

End Regex.

(** ** [int(float(quantity))]

    [float(s)] skips white space at both ends, accepts an optional sign
    followed by [inf], [infinity], [nan] (in any letter case) or by a
    decimal literal (digits with an optional point and an optional exponent;
    single underscores are allowed between digits), and rounds the literal
    to the nearest binary64 value, ties to even.  [int(x)] truncates toward
    zero and raises on an infinity or a NaN. *)

Module PyFloat.

(** The white space that [float] skips at both ends of an ASCII text:
    tab, line feed, vertical tab, form feed, carriage return, space. *)
Definition is_c_space (c : ascii) : bool :=
  Py.between 9 13 c || Py.between 32 32 c.

Inductive fval : Type :=
| Finite (neg : bool) (m : Z) (e : Z)   (* (-1)^neg * m * 2^e *)
| Inf (neg : bool)
| NaN.

(** Underscores must stand between two digits; they are then dropped. *)
Fixpoint underscores_ok (prev_digit : bool) (s : string) : bool :=
  match s with
  | EmptyString => true
  | String c s' =>
      if Ascii.eqb c "_"
      then prev_digit &&
           match s' with
           | String d _ => Py.is_digit d
           | EmptyString => false
           end &&
           underscores_ok false s'
      else underscores_ok (Py.is_digit c) s'
  end.

Fixpoint drop_underscores (s : string) : string :=
  match s with
  | EmptyString => EmptyString
  | String c s' =>
      if Ascii.eqb c "_" then drop_underscores s' else String c (drop_underscores s')
  end.

Definition digit_val (c : ascii) : Z := Z.of_N (Py.code c) - 48.

(** Reads a run of digits: the value of [acc] followed by the digits, how
    many digits were read, and the rest of the text. *)
Fixpoint read_digits (acc : Z) (n : Z) (s : string) : Z * Z * string :=
  match s with
  | String c s' =>
      if Py.is_digit c
      then read_digits (10 * acc + digit_val c) (n + 1) s'
      else (acc, n, s)
  | EmptyString => (acc, n, s)
  end.

Definition read_sign (s : string) : bool * string :=
  match s with
  | String "-" s' => (true, s')
  | String "+" s' => (false, s')
  | _ => (false, s)
  end.

(** The exponent part; a letter [e] that no digits follow is not part of
    the number, so the text is then refused. *)
Definition read_exponent (s : string) : option Z :=
  match s with
  | EmptyString => Some 0%Z
  | String c s' =>
      if Ascii.eqb c "e" || Ascii.eqb c "E"
      then let (neg, s1) := read_sign s' in
           match read_digits 0 0 s1 with
           | (v, n, EmptyString) =>
               if (0 <? n)%Z then Some (if neg then (- v)%Z else v) else None
           | _ => None
           end
      else None
  end.

(** A decimal literal without sign: its digits as an integer [m] and the
    power of ten [e], the value being [m * 10^e]. *)
Definition read_decimal (s : string) : option (Z * Z) :=
  let '(ip, ni, s1) := read_digits 0 0 s in
  let '(m, nf, s2) :=
    match s1 with
    | String "." s1' => read_digits ip 0 s1'
    | _ => (ip, 0%Z, s1)
    end in
  if (0 <? ni + nf)%Z
  then match read_exponent s2 with
       | Some e => Some (m, (e - nf)%Z)
       | None => None
       end
  else None.

(** Nearest binary64 value of the positive rational [n / d], ties to
    even; an infinity from [2^1024 - 2^970] on. *)
Definition round_binary64 (neg : bool) (n d : Z) : fval :=
  let l := (Z.log2 n - Z.log2 d)%Z in
  let ge := if (0 <=? l)%Z then (d * 2 ^ l <=? n)%Z else (d <=? n * 2 ^ (- l))%Z in
  let e := if ge then l else (l - 1)%Z in
  let p := Z.max (e - 52) (-1074) in
  let num := if (0 <=? p)%Z then n else (n * 2 ^ (- p))%Z in
  let den := if (0 <=? p)%Z then (d * 2 ^ p)%Z else d in
  let q := (num / den)%Z in
  let r := (num mod den)%Z in
  let up := (den <? 2 * r)%Z || ((den =? 2 * r)%Z && Z.odd q) in
  let q' := if up then (q + 1)%Z else q in
  if (p <=? 971)%Z && (q' * 2 ^ (p + 1074) <? 2 ^ (1024 + 1074))%Z
  then Finite neg q' p
  else Inf neg.

Definition float_of_decimal (neg : bool) (m e : Z) : fval :=
  if (m =? 0)%Z then Finite neg 0 0
  else if (0 <=? e)%Z then round_binary64 neg (m * 10 ^ e) 1
       else round_binary64 neg m (10 ^ (- e)).

(** [float(s)] *)
Definition float (s : string) : result fval :=
  let bad := Raise (ValueError "could not convert string to float") in
  let t := Py.rstrip_by is_c_space (Py.lstrip_by is_c_space s) in
  if negb (underscores_ok false t) then bad else
  let (neg, u) := read_sign (drop_underscores t) in
  let lu := Py.lower u in
  if String.eqb lu "inf" || String.eqb lu "infinity" then Ok (Inf neg)
  else if String.eqb lu "nan" then Ok NaN
  else match read_decimal u with
       | Some (m, e) => Ok (float_of_decimal neg m e)
       | None => bad
       end.

(** [int(x)] for a float [x] *)
Definition int (x : fval) : result Z :=
  match x with
  | Finite neg m e =>
      let a := if (0 <=? e)%Z then (m * 2 ^ e)%Z else (m / 2 ^ (- e))%Z in
      Ok (if neg then (- a)%Z else a)
  | Inf _ => Raise (OverflowError "cannot convert float infinity to integer")
  | NaN => Raise (ValueError "cannot convert float NaN to integer")
  end.

(** [int(float(s))] *)
Definition int_float (s : string) : result Z :=
  x <- float s ;; int x.

End PyFloat.

(** ** utils.py *)

Module Utils.

Import Regex.

(** [r"\d+(?:[XRN]|SC)\d+"] *)
Definition part_number_pattern : re :=
  Cat (Plus Digit) (Cat (Alt (OneOf "XRN") (Str "SC")) (Plus Digit)).

(** [letter_patterns], in the order of the dict. *)
Definition letter_patterns : list (string * re) :=
  [("R", Str "R"); ("X", Str "X"); ("N", Str "N"); ("SC", Str "SC")].

(** [next((letter for letter, pattern in letter_patterns.items()
          if re.search(pattern, part_number)), None)] *)
Fixpoint first_letter (pats : list (string * re)) (part_number : string)
  : option string :=
  match pats with
  | [] => None
  | (letter, pattern) :: rest =>
      if search pattern part_number then Some letter
      else first_letter rest part_number
  end.

(** [Utils.validate_part_number]; [None] is Python's [None]. *)
Definition validate_part_number (part_number : string) : option string :=
  let matches := search part_number_pattern part_number in
  let letter_identifier := first_letter letter_patterns part_number in
  if matches then letter_identifier else None.

(** A reference value of the attribute table: a text or a list of
    alternatives. *)
Inductive expected : Type :=
| Text (s : string)
| Alternatives (l : list string).

(** [format_device_code] *)
Definition format_device_code (expected_value : expected) : expected :=
  match expected_value with
  | Alternatives [x] => Text x
  | Alternatives (x :: y :: l) => Text (Py.join " or " (x :: y :: l))
  | _ => expected_value
  end.

(** A row of the attribute table. *)
Record attr_row : Type := {
  Parameters : string;
  Expected_Value : expected;
  Actual_Value : string;
  Should_be_Equal : bool
}.

(** [modify_expected_value] *)
Definition modify_expected_value (row : attr_row) : expected :=
  let parameter := Parameters row in
  if Py.mem parameter ["Number of S/C"; "Number of C/C"]
  then Text "(Digit, Not Blank)"
  else if String.eqb parameter "Application"
  then Text "(Type of Application, Not Blank)"
  else if negb (Should_be_Equal row) then Text "(Not Blank)"
  else Expected_Value row.

(** The two styles of [highlight_row]:
    ["color: red; font-weight: bold"] and
    ["color: black; font-weight: normal"]. *)
Inductive style : Type := Red | Black.

Definition expected_eqb (a : string) (e : expected) : bool :=
  match e with
  | Text s => String.eqb a s
  | Alternatives _ => false   (* a str never equals a list *)
  end.

(** [highlight_row]; [x["Expected Value"].split] raises on a list. *)
Definition highlight_row (x : attr_row) : result style :=
  if negb (String.eqb (Parameters x) "Device Code") then
    if (negb (expected_eqb (Actual_Value x) (Expected_Value x))
        && Should_be_Equal x)
       || (negb (Should_be_Equal x) && String.eqb (Actual_Value x) "")
    then Ok Red else Ok Black
  else
    match Expected_Value x with
    | Text e =>
        if negb (Py.mem (Actual_Value x) (Py.split " or " e))
        then Ok Red else Ok Black
    | Alternatives _ =>
        Raise (AttributeError "'list' object has no attribute 'split'")
    end.

(** The treatment of one row in [get_attribute_values]: the two
    [df.apply] passes over the column of expected values, then the
    style. *)
Definition displayed_row (row : attr_row) : attr_row :=
  let e1 := if String.eqb (Parameters row) "Device Code"
            then format_device_code (Expected_Value row)
            else Expected_Value row in
  let row1 := {| Parameters := Parameters row; Expected_Value := e1;
                 Actual_Value := Actual_Value row;
                 Should_be_Equal := Should_be_Equal row |} in
  {| Parameters := Parameters row;
     Expected_Value := modify_expected_value row1;
     Actual_Value := Actual_Value row;
     Should_be_Equal := Should_be_Equal row |}.

Definition row_style (row : attr_row) : result style :=
  highlight_row (displayed_row row).

(** A row of [equal_fields] for the device code. *)
Definition device_code_row (reference : expected) (observed : string) : attr_row :=
  {| Parameters := "Device Code"; Expected_Value := reference;
     Actual_Value := observed; Should_be_Equal := true |}.

(** The device codes of the attribute table ([Utils.attributes]). *)
Definition catalog_device_codes : list expected :=
  [Alternatives ["21024"; "50017"];
   Alternatives ["4963"; "50013"; "50016"];
   Text "50024";
   Alternatives ["50007"; "50022"]].

End Utils.

(** ** enums.py *)

Inductive DropdownType : Type :=
| FLC_20 | FLR_21 | FLC_25 | FLR_25
| FLR_25_BRACKET | FLC_25_BRACKET | FLC_25_COVER.

Definition DropdownType_eqb (a b : DropdownType) : bool :=
  match a, b with
  | FLC_20, FLC_20 | FLR_21, FLR_21 | FLC_25, FLC_25 | FLR_25, FLR_25
  | FLR_25_BRACKET, FLR_25_BRACKET | FLC_25_BRACKET, FLC_25_BRACKET
  | FLC_25_COVER, FLC_25_COVER => true
  | _, _ => false
  end.

(** [type_dropdown.value in l] *)
Definition type_in (a : DropdownType) (l : list DropdownType) : bool :=
  existsb (DropdownType_eqb a) l.

(** ** fusion3.py *)

Module Fusion3.

Import Regex.
Local Open Scope list_scope.

(** The attributes of a [Fusion3] object after [initialize_main_params].
    [letter_identifier] is the text that the callers pass (["X"], ["R"],
    ["N"], ["SC"], ["B"], ["Cover"]); the check boxes are their
    [.value]. *)
Record t : Type := {
  part_number : string;
  title_id_value : string;
  letter_identifier : string;
  chbx_bracket : bool;
  chbx_resistor : bool;
  type_dropdown : DropdownType;
  radar_in_title : bool;
  camera_in_title : bool;
  bracket_in_title : bool;
  cover_in_title : bool;
  element_name : string;
  is_am_bracket : bool
}.

(** [initialize_main_params]; [is_am] is the value that [is_am_bracket]
    holds on the object. *)
Definition initialize_main_params
    (is_am : bool) (part_number title_id_value letter_identifier : string)
    (chbx_bracket chbx_resistor : bool) (type_dropdown : DropdownType)
  : result t :=
  let radar := Py.str_in "radar" (Py.lower title_id_value) in
  let camera := Py.str_in "camera" (Py.lower title_id_value) in
  let bracket := Py.str_in "bracket assembly" (Py.lower title_id_value) in
  let cover := Py.str_in "cover" (Py.lower title_id_value) in
  let mk name :=
    {| part_number := part_number; title_id_value := title_id_value;
       letter_identifier := letter_identifier;
       chbx_bracket := chbx_bracket; chbx_resistor := chbx_resistor;
       type_dropdown := type_dropdown;
       radar_in_title := radar; camera_in_title := camera;
       bracket_in_title := bracket; cover_in_title := cover;
       element_name := name; is_am_bracket := is_am |} in
  if type_in type_dropdown [FLR_25_BRACKET; FLC_25_BRACKET] then
    if negb bracket
    then Raise (ValueError "No specific required element defined for Bracket Assembly. Expected to have 'Bracket Assembly' in the Title ID Value attribute")
    else Ok (mk "Bracket")
  else if type_in type_dropdown [FLC_25_COVER] then
    if negb cover
    then Raise (ValueError "No specific required element defined for Cover. Expected to have 'Cover' in the Title ID Value attribute")
    else Ok (mk "Cover")
  else
    if negb (radar || camera)
    then Raise (ValueError "No specific required element defined for Camera or Radar.")
    else Ok (mk (if radar then "Radar" else "Camera")).

(** [get_required_elements] *)
Definition get_required_elements (self : t) (element_name : string) : list string :=
  let can := if chbx_resistor self
             then ["with CAN termination"] else ["wo CAN termination"] in
  let elements := [] in
  let elements :=
    if String.eqb element_name "Radar" then
      if String.eqb (letter_identifier self) "X"
      then ["Dataset"; "Software"; "Boot Software"] ++ can
      else if String.eqb (letter_identifier self) "R"
      then ["Dataset"; "Software"; "Boot Software"]
           ++ (if chbx_bracket self then ["Screw"; "Bracket"; "Nut"] else [])
           ++ can
      else if String.eqb (letter_identifier self) "SC"
      then ["Dataset"; "Software"; "Boot Software"] ++ can
      else elements
    else elements in
  let elements :=
    if String.eqb element_name "Camera" then
      if Py.mem (letter_identifier self) ["X"; "SC"]
      then ["Dataset"; "Software"; "Boot Software"; "Camera"]
      else if String.eqb (letter_identifier self) "R"
      then ["Dataset"; "Software"; "Boot Software"; "Camera"]
      else elements
    else elements in
  let elements :=
    if String.eqb element_name "Bracket"
       && DropdownType_eqb (type_dropdown self) FLR_25_BRACKET
    then if is_am_bracket self
         then ["Screw"; "Bracket"; "Nut"] else ["Bracket"; "Nut"]
    else elements in
  let elements :=
    if String.eqb element_name "Bracket"
       && DropdownType_eqb (type_dropdown self) FLC_25_BRACKET
    then ["Bracket"; "Bracket Assembly"; "Worm"; "Tape"]
    else elements in
  let elements :=
    if String.eqb element_name "Cover"
       && DropdownType_eqb (type_dropdown self) FLC_25_COVER
    then ["Cover"]
    else elements in
  elements.

(** A row of the content table: the tuple
    [(title, quantity, description, id)] of [get_titles]. *)
Record bom_row : Type := {
  title : string;
  quantity : string;
  description : string;
  id_ : string
}.

(** The first computation of [missing_elements]. *)
Definition first_pass (required_elements : list string) (titles : list bom_row)
  : list string :=
  filter (fun element =>
            negb (existsb (fun r => Py.str_in element (title r)) titles))
         required_elements.

Definition is_software (r : bom_row) : bool :=
  Py.str_in "software" (Py.lower (title r)).

(** The inference of the dataset, the same text in the radar and the
    camera branch. *)
Definition dataset_inference (titles : list bom_row) (missing_elements : list string)
  : list string :=
  if Py.mem "Dataset" missing_elements then
    let count_software := List.length (filter is_software titles) in
    if (2 <=? count_software)%nat
       && existsb (fun r => Py.str_in "DATASET" (Py.upper (description r))
                            || Py.str_in "DATA SET" (Py.upper (description r)))
                  (filter is_software titles)
    then Py.remove "Dataset" missing_elements
    else missing_elements
  else missing_elements.

(** [boot_software_found] decides between appending and removing. *)
Definition boot_software_check (boot_software_found : bool)
    (missing_elements : list string) : list string :=
  if negb boot_software_found
  then missing_elements ++ ["Boot Software"]
  else if Py.mem "Boot Software" missing_elements
       then Py.remove "Boot Software" missing_elements
       else missing_elements.

Definition no_boot_description (r : bom_row) : bool :=
  negb (Py.str_in "boot software" (Py.lower (description r))).

Definition software_version_check (pattern : re) (titles : list bom_row)
    (missing_elements : list string) : list string :=
  let software_ver_found :=
    existsb (fun r => is_software r && search pattern (description r))
            (filter no_boot_description titles) in
  if negb software_ver_found && negb (Py.mem "Software" missing_elements)
  then missing_elements ++ ["Software"]
  else missing_elements.

(** What both branches on [chbx_resistor] do with [can_termination],
    for the generic name and the qualified entry of the branch. *)
Definition can_termination_check (can_termination : bool)
    (generic qualified : string) (missing_elements : list string) : list string :=
  let removed :=
    if Py.mem generic missing_elements
    then Py.remove generic missing_elements else missing_elements in
  if negb can_termination then removed ++ [qualified] else removed.

(** [r"VER FU\d{6}"] and [r"NA\d{6}"] *)
Definition radar_version_pattern : re := Cat (Str "VER FU") (Rep 6 Digit).
Definition camera_version_pattern : re := Cat (Str "NA") (Rep 6 Digit).

Definition letter_R_SC_X (self : t) : bool :=
  Py.mem (letter_identifier self) ["R"; "SC"; "X"].

(** The block under [if self.radar_in_title]. *)
Definition radar_corrections (self : t) (titles : list bom_row)
    (missing_elements : list string) : list string :=
  if radar_in_title self && letter_R_SC_X self then
    let m := dataset_inference titles missing_elements in
    let boot_software_found :=
      existsb (fun r => is_software r
                        && Py.str_in "boot software" (Py.lower (description r)))
              titles in
    let m := boot_software_check boot_software_found m in
    let m := software_version_check radar_version_pattern titles m in
    if chbx_resistor self then
      let can_termination :=
        existsb (fun r => Py.str_in "radar" (Py.lower (title r))
                          && Py.str_in "with can termination" (Py.lower (description r))
                          && String.eqb (Py.upper (id_ r)) "K218450H002")
                titles in
      can_termination_check can_termination "with CAN termination"
        "Radar with CAN termination (K218450H002)" m
    else
      let can_termination :=
        existsb (fun r => Py.str_in "radar" (Py.lower (title r))
                          && Py.str_in "wo can termination" (Py.lower (description r))
                          && String.eqb (Py.upper (id_ r)) "K188333H002")
                titles in
      can_termination_check can_termination "wo CAN termination"
        "Radar without CAN termination (K188333H002)" m
  else missing_elements.

(** The block under [if self.camera_in_title]. *)
Definition camera_corrections (self : t) (titles : list bom_row)
    (missing_elements : list string) : list string :=
  if camera_in_title self && letter_R_SC_X self then
    let result :=
      existsb (fun r => Py.str_in "camera" (Py.lower (title r))
                        && String.eqb (Py.upper (id_ r)) "K188332H000")
              titles in
    let m :=
      if negb result then
        if Py.mem "Camera" missing_elements
        then Py.replace_first "Camera" "Camera (K188332H000)" missing_elements
        else missing_elements ++ ["Camera (K188332H000)"]
      else missing_elements in
    let m := dataset_inference titles m in
    let boot_software_found :=
      existsb (fun r => is_software r
                        && Py.str_in "boot" (Py.lower (description r)))
              titles in
    let m := boot_software_check boot_software_found m in
    software_version_check camera_version_pattern titles m
  else missing_elements.

(** The block under [if self.bracket_in_title and ... "FLC-25 Bracket"]. *)
Definition bracket_corrections (self : t) (titles : list bom_row)
    (missing_elements : list string) : list string :=
  if bracket_in_title self && DropdownType_eqb (type_dropdown self) FLC_25_BRACKET then
    let bracket_found :=
      existsb (fun r => Py.str_in "bracket" (Py.lower (title r))
                        && negb (Py.str_in "assembly" (Py.lower (title r))))
              titles in
    if negb bracket_found && negb (Py.mem "Bracket" missing_elements)
    then missing_elements ++ ["Bracket"]
    else missing_elements
  else missing_elements.

(** [missing_elements] when the corrections are done. *)
Definition missing_elements (self : t) (titles : list bom_row) : list string :=
  let required_elements := get_required_elements self (element_name self) in
  let m := first_pass required_elements titles in
  let m := radar_corrections self titles m in
  let m := camera_corrections self titles m in
  bracket_corrections self titles m.

(** A row of the data frame [df]. *)
Record data_row : Type := {
  ID : string;
  Title : string;
  Description : string;
  Quantity : Z;
  Expected_value : Z
}.

Definition mk_data (r : bom_row) (qty expected_value : Z) : data_row :=
  {| ID := id_ r; Title := title r; Description := description r;
     Quantity := qty; Expected_value := expected_value |}.

(** The inner loop [for title, quantity, description, _id in titles] for
    one required element; the quantity of every row is converted before
    the row is tested. *)
Fixpoint tabulate_element (self : t) (element : string) (expected_value : Z)
    (titles : list bom_row) : result (list data_row) :=
  match titles with
  | [] => Ok []
  | r :: rest =>
      qty <- PyFloat.int_float (quantity r) ;;
      let keep :=
        if DropdownType_eqb (type_dropdown self) FLC_25_BRACKET
           && String.eqb element "Bracket"
        then Py.str_in (Py.lower element) (Py.lower (title r))
             && negb (Py.str_in "assembly" (Py.lower (title r)))
        else Py.str_in element (title r)
             || (Py.mem element ["wo CAN termination"; "with CAN termination"]
                 && Py.str_in (Py.lower element) (Py.lower (description r))) in
      more <- tabulate_element self element expected_value rest ;;
      Ok (if keep then mk_data r qty expected_value :: more else more)
  end.

(** The loop [for element in required_elements]. *)
Fixpoint tabulate_required (self : t) (required_elements : list string)
    (titles : list bom_row) : result (list data_row) :=
  match required_elements with
  | [] => Ok []
  | element :: rest =>
      let expected_value := if Py.mem element ["Nut"; "Screw"] then 3%Z else 1%Z in
      rows <- tabulate_element self element expected_value titles ;;
      more <- tabulate_required self rest titles ;;
      Ok (rows ++ more)
  end.

(** The loop [for i in titles] that adds the rows of the other CAN
    termination. *)
Fixpoint tabulate_other_can (required_elements : list string)
    (titles : list bom_row) : result (list data_row) :=
  match titles with
  | [] => Ok []
  | i :: rest =>
      if (Py.mem "wo CAN termination" required_elements
          && Py.str_in (Py.lower "with CAN termination") (Py.lower (description i)))
         || (Py.mem "with CAN termination" required_elements
             && Py.str_in (Py.lower "wo CAN termination") (Py.lower (description i)))
      then
        qty <- PyFloat.int_float (quantity i) ;;
        more <- tabulate_other_can required_elements rest ;;
        Ok (mk_data i qty 1 :: more)
      else tabulate_other_can required_elements rest
  end.

(** The loop over [titles] that ends at the first screw. *)
Fixpoint tabulate_first_screw (titles : list bom_row) : result (list data_row) :=
  match titles with
  | [] => Ok []
  | r :: rest =>
      if Py.str_in "screw" (Py.lower (title r))
      then qty <- PyFloat.int_float (quantity r) ;; Ok [mk_data r qty 3]
      else tabulate_first_screw rest
  end.

(** The rows of [data], in the order of the appends. *)
Definition tabulate (self : t) (required_elements : list string)
    (titles : list bom_row) : result (list data_row) :=
  rows1 <- tabulate_required self required_elements titles ;;
  rows2 <- tabulate_other_can required_elements titles ;;
  rows3 <- (if String.eqb (letter_identifier self) "SC"
               && negb (Py.mem "Screw" required_elements)
            then tabulate_first_screw titles else Ok []) ;;
  Ok (rows1 ++ rows2 ++ rows3).

(** [highlight_mismatched_values]: red and bold, or black and normal. *)
Definition highlight_mismatched_values (val : data_row) : Utils.style :=
  if negb (Quantity val =? Expected_value val)%Z then Utils.Red else Utils.Black.

(** The text [msg_pdf] of [get_bom_in_content], by its three forms:
    - [Missing m]: "Missing elements: m for the part number ...";
    - [Successful note req]: the note for Paccar when [note], then
      "SUCCESSFUL: The required elements: req, are present for the part ...";
    - [NoMessage]: the empty text. *)
Inductive bom_msg : Type :=
| Missing (missing : list string)
| Successful (paccar_note : bool) (required : list string)
| NoMessage.

(** The dict [{"msg": msg_pdf, "df": df}] that is returned. *)
Record bom_report : Type := {
  msg : bom_msg;
  df : list data_row
}.

Definition rename (old new : string) (l : list string) : list string :=
  map (fun item => if String.eqb item old then new else item) l.

(** [get_bom_in_content], from the rows that
    [expand_elements_get_titles] returns. *)
Definition get_bom_in_content (self : t) (titles : list bom_row)
  : result bom_report :=
  let required_elements := get_required_elements self (element_name self) in
  let missing := missing_elements self titles in
  data <- tabulate self required_elements titles ;;
  match missing with
  | _ :: _ => Ok {| msg := Missing missing; df := data |}
  | [] =>
      if Py.mem (letter_identifier self) ["R"; "X"; "SC"; "B"; "Cover"] then
        let required_elements :=
          rename "wo CAN termination" "Radar wo CAN termination (K188333H002)"
                 required_elements in
        let required_elements :=
          rename "with CAN termination" "Radar with CAN termination (K218450H002)"
                 required_elements in
        let required_elements :=
          rename "Camera" "Camera (K188332H000)" required_elements in
        Ok {| msg := Successful (String.eqb (letter_identifier self) "SC")
                                required_elements;
              df := data |}
      else Ok {| msg := NoMessage; df := data |}
  end.

(** The verdict of the run as the report states it: the text says
    SUCCESSFUL. *)
Definition reported_successful (r : bom_report) : bool :=
  match msg r with
  | Successful _ _ => true
  | _ => false
  end.

(** *** Documents *)

(** An entry of the dict [documents]: the key (the composite title) and
    the two values that are read.  The list keeps the order of
    insertion. *)
Record document : Type := {
  Document : string;
  document_kind : string;
  lifecycle_state : string
}.

Definition required_states : list string :=
  ["Working"; "Proposed"; "Rejected"; "Approved"; "Released"].

(** The assignments to [required_docs] and [optional_docs]; a name that
    no branch assigns is [None].  The flag tells that the note
    "No documents are required for this part." was written. *)
Definition required_and_optional_docs (self : t)
  : option (list string) * option (list string) * bool :=
  if String.eqb (element_name self) "Radar" then
    if String.eqb (letter_identifier self) "R"
    then (Some ["Assembly Drawing"; "Installation Drawing";
                "Component Drawing"; "Service Data"], None, false)
    else (Some ["Assembly Drawing"; "Component Drawing"; "Service Data"],
          None, false)
  else if String.eqb (element_name self) "Bracket" then
    let '(req, opt, note) :=
      if type_in (type_dropdown self) [FLR_25_BRACKET] then
        let optional_docs :=
          ["Feasibility Agreement (FeA) (DMI)"; "Mechanical TR Document";
           "Electrical TR Document"; "Test Report"] in
        let required_docs :=
          ["Material Specification"; "Supplier PPAP"; "Order Drawing"; "DVP"]
          ++ optional_docs in
        if is_am_bracket self
        then (Some [], Some optional_docs, true)
        else (Some required_docs, Some optional_docs, false)
      else (None, None, false) in
    if type_in (type_dropdown self) [FLC_25_BRACKET] then
      let optional_docs := ["Electrical TR Document"; "Process Data Sheet"] in
      (Some (["Technical Customer Document"; "Assembly Drawing";
              "Installation Drawing"] ++ optional_docs),
       Some optional_docs, note)
    else (req, opt, note)
  else if String.eqb (element_name self) "Cover"
          && type_in (type_dropdown self) [FLC_25_COVER] then
    if is_am_bracket self
    then (Some ["Component Drawing"], None, false)
    else (Some ["Installation Drawing"; "Component Drawing"], None, false)
  else
    if String.eqb (letter_identifier self) "R"
    then (Some ["Assembly Drawing"; "Installation Drawing"; "Service Data"],
          None, false)
    else (Some ["Assembly Drawing"; "Service Data"], None, false).

(** The state of the loop over [required_docs]. *)
Record docs_state : Type := {
  present_docs_list : list document;
  missing_docs : list string;
  us_missing : bool          (* service_data_missing_langs["US"] *)
}.

(** [[lang.strip() for lang in index.split(",")[1:]]] *)
Definition title_langs (index : string) : list string :=
  map Py.strip (tl (Py.split "," index)).

(** The loop [for index, row in required_documents.iterrows()] for one
    [doc_type]; the first component is [doc_exists]. *)
Fixpoint scan_rows (doc_type : string) (rows : list document)
    (doc_exists : bool) (st : docs_state) : bool * docs_state :=
  match rows with
  | [] => (doc_exists, st)
  | row :: rest =>
      if String.eqb (document_kind row) doc_type then
        let us :=
          if String.eqb doc_type "Service Data" then
            let langs := title_langs (Document row) in
            let us := if Py.mem "US" langs then false else us_missing st in
            if Py.mem "EN" langs then false else us
          else us_missing st in
        scan_rows doc_type rest true
          {| present_docs_list := present_docs_list st ++ [row];
             missing_docs := missing_docs st;
             us_missing := us |}
      else scan_rows doc_type rest doc_exists st
  end.

Definition has_schedule (d : document) : bool :=
  Py.str_in "schedule" (Py.lower (Document d)).

(** The body of [for doc_type in required_docs]. *)
Definition check_doc_type (required_documents : list document)
    (st : docs_state) (doc_type : string) : docs_state :=
  let '(doc_exists, st) := scan_rows doc_type required_documents false st in
  let '(doc_exists, missing) :=
    if String.eqb doc_type "Assembly Drawing" then
      let assembly_docs :=
        filter (fun d => String.eqb (document_kind d) doc_type)
               required_documents in
      match assembly_docs with
      | [] =>
          (true, missing_docs st
                 ++ ["Assembly Drawing Schedule"; "Assembly Drawing CAD"])
      | _ :: _ =>
          let m := missing_docs st in
          let m := if negb (existsb has_schedule assembly_docs)
                   then m ++ ["Assembly Drawing Schedule"] else m in
          let m := if forallb has_schedule assembly_docs
                   then m ++ ["Assembly Drawing CAD"] else m in
          (true, m)
      end
    else (doc_exists, missing_docs st) in
  {| present_docs_list := present_docs_list st;
     missing_docs := if negb doc_exists then missing ++ [doc_type] else missing;
     us_missing := us_missing st |}.

(** What the report of the documents says:
    - [NoDocumentsFound]: "No documents were found in ...";
    - [DocsMissing m adv]: the list of the missing documents, then a
      request "Please validate if the '...' document is required." for
      every name of [adv];
    - [DocsSuccessful req]: "SUCCESSFUL: All required documents req are
      present in the part ...". *)
Inductive docs_msg : Type :=
| NoDocumentsFound
| DocsMissing (missing : list string) (advisories : list string)
| DocsSuccessful (required : list string).

(** The returned dict; [docs_df] holds the present documents in the order
    in which they were found (the source then sorts the frame by
    lifecycle state), [no_docs_note] the note for a bracket that needs no
    documents. *)
Record docs_report : Type := {
  no_docs_note : bool;
  docs_msg_of : docs_msg;
  docs_df : list document
}.

Definition name_error {A : Type} (name : string) : result A :=
  Raise (NameError name).

(** [validate_required_docs] *)
Definition validate_required_docs (self : t) (documents : list document)
  : result docs_report :=
  match documents with
  | [] => Ok {| no_docs_note := false; docs_msg_of := NoDocumentsFound;
                docs_df := [] |}
  | _ :: _ =>
      let '(req, opt, note) := required_and_optional_docs self in
      match req with
      | None => name_error "required_docs"
      | Some required_docs =>
          let required_documents :=
            filter (fun d => Py.mem (document_kind d) required_docs
                             && Py.mem (lifecycle_state d) required_states)
                   documents in
          let st :=
            fold_left (check_doc_type required_documents) required_docs
              {| present_docs_list := []; missing_docs := [];
                 us_missing := true |} in
          let families := [FLC_20; FLR_21; FLC_25; FLR_25] in
          let missing := missing_docs st in
          let missing :=
            if type_in (type_dropdown self) families && us_missing st
            then (if Py.mem "Service Data" missing
                  then Py.remove "Service Data" missing else missing)
                 ++ ["Service Data - US"]
            else missing in
          let missing :=
            if type_in (type_dropdown self) [FLC_25_BRACKET]
            then map (fun item => if negb (String.eqb item "Process Data Sheet")
                                  then item else "Process Data Sheet (BWs)")
                     missing
            else missing in
          match missing with
          | [] => Ok {| no_docs_note := note;
                        docs_msg_of := DocsSuccessful required_docs;
                        docs_df := present_docs_list st |}
          | _ :: _ =>
              let adv1 :=
                if type_in (type_dropdown self) families
                   && existsb (Py.str_in "Service Data") missing
                then ["Service Data"] else [] in
              adv2 <-
                (if type_in (type_dropdown self) [FLR_25_BRACKET; FLC_25_BRACKET]
                 then match opt with
                      | None => name_error "optional_docs"
                      | Some optional_docs =>
                          Ok (filter (fun element =>
                                        existsb (Py.str_in element) missing)
                                     optional_docs)
                      end
                 else Ok []) ;;
              Ok {| no_docs_note := note;
                    docs_msg_of := DocsMissing missing (adv1 ++ adv2);
                    docs_df := present_docs_list st |}
          end
      end
  end.

(** The names that a report lists as missing. *)
Definition reported_missing (r : docs_report) : list string :=
  match docs_msg_of r with
  | DocsMissing missing _ => missing
  | _ => []
  end.

End Fusion3.

(** ** The words of the specification *)

Module Spec.

Fixpoint all_digits (s : string) : bool :=
  match s with
  | EmptyString => true
  | String c s' => Py.is_digit c && all_digits s'
  end.

(** A run of digits: one digit at least. *)
Definition digit_run (s : string) : Prop := s <> "" /\ all_digits s = true.

Definition variant_letters : list string := ["X"; "R"; "N"; "SC"].

(** The identifier holds a run of digits, then [letter], then a run of
    digits. *)
Definition letter_in_pattern (letter part_number : string) : Prop :=
  exists pre d1 d2 post,
    part_number = pre ++ d1 ++ letter ++ d2 ++ post /\ digit_run d1 /\ digit_run d2.

(** "A run of digits, then one of the letters X, R, N, SC, then a run of
    digits" occurs in the identifier. *)
Definition has_variant_pattern (part_number : string) : Prop :=
  exists letter, In letter variant_letters /\ letter_in_pattern letter part_number.

Definition occurs (sub s : string) : Prop := exists pre post, s = pre ++ sub ++ post.

(** [l] is the first name of [names] that occurs in [s]. *)
Definition first_occurring (names : list string) (s l : string) : Prop :=
  exists before after,
    names = (before ++ l :: after)%list
    /\ (forall x, In x before -> ~ occurs x s)
    /\ occurs l s.

(** The object is in a state that [initialize_main_params] produces. *)
Definition initialized (self : Fusion3.t) : Prop :=
  exists is_am part_number title letter bracket resistor type_dropdown,
    Fusion3.initialize_main_params is_am part_number title letter
      bracket resistor type_dropdown = Ok self.

(** How often a name stands in a list. *)
Definition count (x : string) (l : list string) : nat := count_occ string_dec l x.

(** Two rows at least have a title that contains "Software", and the
    description of one of them contains "DATASET" or "DATA SET" in any
    letter case. *)
Definition bundled_dataset (titles : list Fusion3.bom_row) : Prop :=
  (2 <= List.length (filter (fun r => Py.str_in "Software" (Fusion3.title r)) titles))%nat
  /\ existsb (fun r => Py.str_in "Software" (Fusion3.title r)
                       && (Py.str_in "DATASET" (Py.upper (Fusion3.description r))
                           || Py.str_in "DATA SET" (Py.upper (Fusion3.description r))))
             titles = true.

(** Every quantity of the rows converts: [int(float(quantity))] returns. *)
Definition quantities_parse (titles : list Fusion3.bom_row) : bool :=
  forallb (fun r => is_ok (PyFloat.int_float (Fusion3.quantity r))) titles.

(** The profile of the object requires the document kind. *)
Definition requires_doc (self : Fusion3.t) (kind : string) : Prop :=
  match Fusion3.required_and_optional_docs self with
  | (Some required_docs, _, _) => In kind required_docs
  | _ => False
  end.

(** The records of a kind in an accepted lifecycle state. *)
Definition accepted_of_kind (kind : string) (documents : list Fusion3.document)
  : list Fusion3.document :=
  filter (fun d => String.eqb (Fusion3.document_kind d) kind
                   && Py.mem (Fusion3.lifecycle_state d) Fusion3.required_states)
         documents.

(** The language tokens of a title name US or EN. *)
Definition names_us_or_en (d : Fusion3.document) : bool :=
  Py.mem "US" (Fusion3.title_langs (Fusion3.Document d))
  || Py.mem "EN" (Fusion3.title_langs (Fusion3.Document d)).

(** The entries that one pass of the loop over [required_docs] adds to
    [missing_docs], from the filtered frame [rd]. *)
Definition contribution (rd : list Fusion3.document) (doc_type : string) : list string :=
  if String.eqb doc_type "Assembly Drawing" then
    match filter (fun d => String.eqb (Fusion3.document_kind d) doc_type) rd with
    | [] => ["Assembly Drawing Schedule"; "Assembly Drawing CAD"]
    | a :: l =>
        ((if negb (existsb Fusion3.has_schedule (a :: l))
          then ["Assembly Drawing Schedule"] else [])
         ++ (if forallb Fusion3.has_schedule (a :: l)
             then ["Assembly Drawing CAD"] else []))%list
    end
  else if existsb (fun d => String.eqb (Fusion3.document_kind d) doc_type) rd
       then [] else [doc_type].

(** A record of the frame [rd] covers the language for [doc_type]. *)
Definition covers (rd : list Fusion3.document) (doc_type : string) : bool :=
  String.eqb doc_type "Service Data"
  && existsb (fun d => String.eqb (Fusion3.document_kind d) doc_type && names_us_or_en d) rd.

(** The list of missing documents of a report, from the profile
    [required_docs] and the dict [documents]. *)
Definition final_missing (self : Fusion3.t) (required_docs : list string)
    (documents : list Fusion3.document) : list string :=
  let rd := filter (fun d => Py.mem (Fusion3.document_kind d) required_docs
                             && Py.mem (Fusion3.lifecycle_state d) Fusion3.required_states)
                   documents in
  let m := flat_map (contribution rd) required_docs in
  let m :=
    if type_in (Fusion3.type_dropdown self) [FLC_20; FLR_21; FLC_25; FLR_25]
       && negb (existsb (covers rd) required_docs)
    then ((if Py.mem "Service Data" m then Py.remove "Service Data" m else m)
          ++ ["Service Data - US"])%list
    else m in
  if type_in (Fusion3.type_dropdown self) [FLC_25_BRACKET]
  then map (fun item => if negb (String.eqb item "Process Data Sheet")
                        then item else "Process Data Sheet (BWs)") m
  else m.

(** A text without a space character, as a device code is. *)
Definition no_space (s : string) : bool :=
  negb (Regex.char_in " " s).

(** The pattern of one letter between two runs of digits. *)
Definition letter_pattern (letter : string) : Regex.re :=
  Regex.Cat (Regex.Plus Regex.Digit)
            (Regex.Cat (Regex.Str letter) (Regex.Plus Regex.Digit)).

End Spec.

(** ** Concrete runs *)

Module Samples.

Import Fusion3.

Definition mk_self (is_am : bool) (pn ti letter : string) (b r : bool)
    (ty : DropdownType) (name : string) : t :=
  {| part_number := pn; title_id_value := ti; letter_identifier := letter;
     chbx_bracket := b; chbx_resistor := r; type_dropdown := ty;
     radar_in_title := Py.str_in "radar" (Py.lower ti);
     camera_in_title := Py.str_in "camera" (Py.lower ti);
     bracket_in_title := Py.str_in "bracket assembly" (Py.lower ti);
     cover_in_title := Py.str_in "cover" (Py.lower ti);
     element_name := name; is_am_bracket := is_am |}.

(** A radar of the family FLR-25 with the letter X, no resistor. *)
Definition radar_x : t :=
  mk_self false "K015123X000" "Radar Sensor" "X" false false FLR_25 "Radar".

Definition row (ti qty de id : string) : bom_row :=
  {| title := ti; quantity := qty; description := de; id_ := id |}.

Definition r_dataset : bom_row := row "Dataset" "1" "Dataset FLR-25" "K030001D000".
Definition r_software (qty : string) : bom_row :=
  row "Software" qty "Application VER FU123456" "K030002S000".
Definition r_boot : bom_row := row "Software" "1" "Boot Software 1.2" "K030003S000".
Definition r_radar : bom_row :=
  row "Radar" "1" "Radar wo CAN termination" "K188333H002".

(** Every required element is there; the software row has quantity 2. *)
Definition bom_quantity_2 : list bom_row :=
  [r_dataset; r_software "2"; r_boot; r_radar].

(** The boot software is absent. *)
Definition bom_no_boot : list bom_row :=
  [r_dataset; r_software "1"; r_radar].

(** The quantity of the software row is not a number. *)
Definition bom_bad_quantity : list bom_row :=
  [r_dataset; r_software "n/a"; r_boot; r_radar].

(** Two software rows, one of them bundles the data set; no dataset row. *)
Definition bom_bundled : list bom_row :=
  [row "Software A" "1" "Application VER FU123456 with data set" "K030004S000";
   row "Software B" "1" "Boot Software 1.2" "K030003S000";
   r_radar].

Definition doc (ti kind state : string) : document :=
  {| Document := ti; document_kind := kind; lifecycle_state := state |}.

(** One record of the assembly drawing, a schedule. *)
Definition docs_schedule : list document :=
  [doc "Z068947-SCHEDULE, US, American English, 008" "Assembly Drawing" "Released"].

(** The service data in French only. *)
Definition docs_french : list document :=
  [doc "DocX, FR" "Service Data" "Released"].

End Samples.

(** ** utils.py: further checks of the part number *)

Module UtilsMore.

Import Regex.

(** [r"K\d+"] *)
Definition bracket_cover_pattern : re := Cat (Str "K") (Plus Digit).

(** [Utils.validate_bracket_cover_number] *)
Definition validate_bracket_cover_number (part_number : string) : bool :=
  search bracket_cover_pattern part_number.

(** [r"\d+X\d+"] *)
Definition partX_pattern : re := Cat (Plus Digit) (Cat (Str "X") (Plus Digit)).

(** [Utils.validate_partX_number] *)
Definition validate_partX_number (part_number : string) : option string :=
  if search partX_pattern part_number then Some part_number else None.


End UtilsMore.

(** ** _web_automation.py: the check before a run *)

Module WebAutomation.

(** [is_valid_part_number]: the result, and the value of
    [self.letter_identifier] after the call. *)
Definition is_valid_part_number (selected_type : DropdownType) (part_number : string)
    (letter_identifier : option string) : bool * option string :=
  let falsy (l : option string) :=
    match l with
    | None => true
    | Some s => String.eqb s ""
    end in
  if type_in selected_type [FLC_25; FLR_25] then
    let l := Utils.validate_part_number part_number in
    if falsy l then (false, l)
    else if match l with Some s => String.eqb s "N" | None => false end
         then (false, l)
         else (true, l)
  else if type_in selected_type [FLC_20; FLR_21] then
    let l := Utils.validate_part_number part_number in
    if falsy l then (false, l) else (true, l)
  else if type_in selected_type [FLR_25_BRACKET; FLC_25_BRACKET; FLC_25_COVER] then
    if negb (UtilsMore.validate_bracket_cover_number part_number)
    then (false, letter_identifier)
    else (true, letter_identifier)
  else (false, letter_identifier).

End WebAutomation.

(** ** fusion3.py: the aftermarket product *)

Module Fusion3More.

Import Fusion3.

(** [is_AM_bracket], from the text that [select_product_info] reads from
    the page: the value that is stored in [self.is_am_bracket] and
    returned. *)
Definition is_AM_bracket (sales_chann_limit : string) : bool :=
  String.eqb (Py.strip (Py.lower sales_chann_limit)) "am only".

(** An entry of the dict that [documents_aftermarket_product] returns. *)
Record am_document : Type := {
  am_Document : string;
  Title_ID_value : string;
  Lifecycle_State : string
}.

(** The returned dict.  [am_missing] holds the names that the message
    lists after "The following required documents in Aftermarket Product
    are missing:" (no such text when it is empty), [am_results] tells that
    the message ends with "Results for AfterMarket Product in part ...",
    [am_df] holds the rows of the frame before the sort by lifecycle
    state. *)
Record am_report : Type := {
  am_missing : list string;
  am_results : bool;
  am_df : list am_document
}.

(** The two filters on the frame and the list comprehension of the
    missing elements.  The pattern of [str.contains] is the element name,
    a word of letters. *)
Definition aftermarket_frame (required_doc_aftermarket : list string)
    (docs : list am_document) : list am_document * list string :=
  match docs with
  | [] => ([], required_doc_aftermarket)
  | _ :: _ =>
      let aftermarket_df :=
        filter (fun d =>
                  Py.mem (Lifecycle_State d) required_states
                  && existsb (fun e => Regex.search (Regex.Str e) (Title_ID_value d))
                             required_doc_aftermarket)
               docs in
      (aftermarket_df,
       filter (fun elem =>
                 negb (existsb (fun d => Py.str_in (Py.lower elem)
                                           (Py.lower (Title_ID_value d)))
                               aftermarket_df))
              required_doc_aftermarket)
  end.

(** [validate_aftermarket_product]; [docs_aftermarket] and
    [docs_aftermarket_for] are what the two readers of the page return
    when they are called.  The name [docs_aftermarket_for] is bound only
    in the branch of the brackets and covers. *)
Definition validate_aftermarket_product (self : t)
    (docs_aftermarket docs_aftermarket_for : list am_document) : result am_report :=
  let bracket_or_cover :=
    type_in (type_dropdown self) [FLC_25_BRACKET; FLR_25_BRACKET; FLC_25_COVER] in
  let required_doc_aftermarket := [element_name self] in
  frame <-
    (if negb (is_am_bracket self)
     then Ok (aftermarket_frame required_doc_aftermarket docs_aftermarket)
     else if bracket_or_cover
          then Ok (aftermarket_frame required_doc_aftermarket docs_aftermarket_for)
          else name_error "docs_aftermarket_for") ;;
  let '(aftermarket_df, missing_aftermarket_elements) := frame in
  Ok {| am_missing := missing_aftermarket_elements;
        am_results := match aftermarket_df with [] => false | _ :: _ => true end;
        am_df := aftermarket_df |}.

End Fusion3More.

(** ** utils.py: the headers and the rows of the content table *)

Module UtilsTable.

Import Fusion3.

(** A dict with text keys, in the order of insertion. *)
Fixpoint dict_get {V : Type} (k : string) (d : list (string * V)) : option V :=
  match d with
  | [] => None
  | (k', v) :: d' => if String.eqb k k' then Some v else dict_get k d'
  end.

(** [d[k] = v]: the entry of an old key keeps its place. *)
Fixpoint dict_set {V : Type} (k : string) (v : V) (d : list (string * V))
  : list (string * V) :=
  match d with
  | [] => [(k, v)]
  | (k', v') :: d' =>
      if String.eqb k k' then (k, v) :: d' else (k', v') :: dict_set k v d'
  end.

(** The loop of [get_headers_idx] over the titles of the header elements,
    from the index [idx] on; [headers] is the list that the loop
    shortens. *)
Fixpoint headers_loop (idx : nat) (element_headers : list string)
    (headers : list string) (headers_idx : list (string * nat))
  : list (string * nat) :=
  match element_headers with
  | [] => headers_idx
  | header :: rest =>
      let '(headers_idx, headers) :=
        if Py.mem header headers
        then (dict_set header idx headers_idx, Py.remove header headers)
        else (headers_idx, headers) in
      match headers with
      | [] => headers_idx
      | _ :: _ => headers_loop (S idx) rest headers headers_idx
      end
  end.

(** [sorted(items, key=lambda x: x[1])]: the sort is stable. *)
Fixpoint insert_item (x : string * nat) (l : list (string * nat))
  : list (string * nat) :=
  match l with
  | [] => [x]
  | y :: l' => if (snd x <=? snd y)%nat then x :: y :: l' else y :: insert_item x l'
  end.

Definition sorted_items (l : list (string * nat)) : list (string * nat) :=
  fold_right insert_item [] l.

(** [get_headers_idx], from the titles of the header elements of the
    page; the items of a dict have distinct keys, so [dict(...)] of the
    sorted items is the list of the items. *)
Definition get_headers_idx (element_headers : list string) (headers : list string)
  : list (string * nat) :=
  sorted_items (headers_loop 0 element_headers headers []).

(** What [create_title_tuples] can raise. *)
Inductive lookup_error : Type :=
| StopIteration
| KeyError (key : string)
| IndexError.

(** [values[header][i]] *)
Definition cell_at (values : list (string * list string)) (header : string) (i : nat)
  : lookup_error + string :=
  match dict_get header values with
  | None => inl (KeyError header)
  | Some column =>
      match nth_error column i with
      | None => inl IndexError
      | Some x => inr x
      end
  end.

(** [tuple(values[header][i] for header in desired_order)] *)
Definition title_tuple (values : list (string * list string)) (i : nat)
  : lookup_error + bom_row :=
  match cell_at values "Title ID Value" i with
  | inl e => inl e
  | inr t =>
      match cell_at values "Quantity" i with
      | inl e => inl e
      | inr q =>
          match cell_at values "Description" i with
          | inl e => inl e
          | inr d =>
              match cell_at values "ID" i with
              | inl e => inl e
              | inr id => inr {| title := t; quantity := q; description := d; id_ := id |}
              end
          end
      end
  end.

(** The loop [for i in range(num_rows)]. *)
Fixpoint title_tuples (values : list (string * list string)) (rows : list nat)
  : lookup_error + list bom_row :=
  match rows with
  | [] => inr []
  | i :: rest =>
      match title_tuple values i with
      | inl e => inl e
      | inr r =>
          match title_tuples values rest with
          | inl e => inl e
          | inr l => inr (r :: l)
          end
      end
  end.

(** [create_title_tuples]; the number of rows is the length of the first
    column of the dict. *)
Definition create_title_tuples (values : list (string * list string))
  : lookup_error + list bom_row :=
  match values with
  | [] => inl StopIteration
  | (_, first) :: _ => title_tuples values (seq 0 (List.length first))
  end.

(** [get_titles], from what the page shows: the titles of the header
    elements and, for a row index and a column index, the title of the
    cell; [num_div] is the number of [div_elements].  The clicks and the
    key strokes between the reads are not part of the model. *)
Definition get_titles (element_headers : list string) (cell : nat -> nat -> string)
    (num_div init_idx : nat) : lookup_error + list bom_row :=
  match num_div with
  | O => inr []
  | S _ =>
      let headers_idx :=
        get_headers_idx element_headers
          ["Title ID Value"; "Quantity"; "Description"; "ID"] in
      let values :=
        map (fun kv : string * nat =>
               (fst kv,
                map (fun i => Py.strip (cell (i + 1)%nat (snd kv + 2)%nat))
                    (seq init_idx num_div)))
            headers_idx in
      create_title_tuples values
  end.

End UtilsTable.

(** ** utils.py: the table of the attributes *)

Module UtilsAttributes.

Import Utils.

(** What the attributes page shows: for a field with a data locator,
    whether the element exists ([None]: [find_element] raises
    NoSuchElementException) and its attribute [value], which may be
    [None]; for another field, the texts of its list items. *)
Record page : Type := {
  locator_value : string -> option (option string);
  list_items : string -> list string
}.

Definition data_locator_fields : list string :=
  ["Article Type Value"; "Saleable Item Type Value"; "Title ID Value";
   "Use Status"; "Type Number"; "Product Group"; "Product Group Disp";
   "Product Group Frozen"; "Device Code"; "Sales Channel Limitation";
   "Price Book"; "Basic Part Number"; "Number of S/C"; "Number of C/C"].

(** [get_attribute]; [None] stands for NoSuchElementException. *)
Definition get_attribute (p : page) (attr : string) : option string :=
  if Py.mem attr data_locator_fields then
    match locator_value p attr with
    | None => None
    | Some None => Some ""
    | Some (Some element_value) => Some element_value
    end
  else
    Some (match list_items p attr with
          | [] => ""
          | li_elements => Py.join ", " li_elements
          end).

(** A section of the dict that [attributes] returns. *)
Record section : Type := {
  equal_fields : list (string * expected);
  no_empty_fields : list string
}.

(** The loop over [equal_fields]: the rows that it appends, and the value
    of the variable [expected_value] after it ([None]: not bound). *)
Fixpoint equal_loop (p : page) (fields : list (string * expected))
    (expected_value : option expected) : list attr_row * option expected :=
  match fields with
  | [] => ([], expected_value)
  | (attr, e) :: rest =>
      let row :=
        match get_attribute p attr with
        | Some element =>
            {| Parameters := attr; Expected_Value := e;
               Actual_Value := element; Should_be_Equal := true |}
        | None =>
            {| Parameters := attr; Expected_Value := e;
               Actual_Value := ""; Should_be_Equal := true |}
        end in
      let '(rows, expected_value) := equal_loop p rest (Some e) in
      (row :: rows, expected_value)
  end.

(** The loop over [no_empty_fields]; its [except] branch reads the
    variable [expected_value] of the loop before. *)
Fixpoint no_empty_loop (p : page) (fields : list string)
    (expected_value : option expected) : result (list attr_row) :=
  match fields with
  | [] => Ok []
  | attr :: rest =>
      row <-
        match get_attribute p attr with
        | Some element =>
            Ok {| Parameters := attr; Expected_Value := Text "";
                  Actual_Value := element; Should_be_Equal := false |}
        | None =>
            match expected_value with
            | Some e =>
                Ok {| Parameters := attr; Expected_Value := e;
                      Actual_Value := ""; Should_be_Equal := false |}
            | None => Fusion3.name_error "expected_value"
            end
        end ;;
      rows <- no_empty_loop p rest expected_value ;;
      Ok (row :: rows)
  end.

(** The loop [for section in attrs]. *)
Fixpoint sections_loop (p : page) (attrs : list section)
    (expected_value : option expected) : result (list attr_row) :=
  match attrs with
  | [] => Ok []
  | s :: rest =>
      let '(rows1, expected_value) := equal_loop p (equal_fields s) expected_value in
      rows2 <- no_empty_loop p (no_empty_fields s) expected_value ;;
      rows3 <- sections_loop p rest expected_value ;;
      Ok (rows1 ++ rows2 ++ rows3)%list
  end.

Fixpoint styles (rows : list attr_row) : result (list style) :=
  match rows with
  | [] => Ok []
  | x :: rest =>
      s <- highlight_row x ;;
      l <- styles rest ;;
      Ok (s :: l)
  end.

(** [get_attribute_values], from the dict [attrs] and the page: the frame
    [df] that is returned, and what the rendering of [styled_df] computes
    as the styles of its rows.  The styler applies [highlight_row] only
    when [display] renders it, and an exception of the rendering does not
    leave [display]: the frame is returned also when [highlight_row]
    raises, so the second component is itself a [result].  The model is
    for a dict with one field at least: what [df.apply] does on a frame
    without rows is not part of it. *)
Definition get_attribute_values (p : page) (attrs : list section)
  : result (list attr_row * result (list style)) :=
  rows <- sections_loop p attrs None ;;
  let df := map displayed_row rows in
  Ok (df, styles df).

End UtilsAttributes.

(** ** utils.py: the dict of the required attributes *)

Module UtilsCatalog.

Import Utils UtilsAttributes.

(** The values of the enumeration [DropdownType]. *)
Definition DropdownType_value (t : DropdownType) : string :=
  match t with
  | FLC_20 => "FLC-20"
  | FLR_21 => "FLR-21"
  | FLC_25 => "FLC-25"
  | FLR_25 => "FLR-25"
  | FLR_25_BRACKET => "FLR-25 Bracket"
  | FLC_25_BRACKET => "FLC-25 Bracket"
  | FLC_25_COVER => "FLC-25 Cover"
  end.

Fixpoint leading_digits (s : string) : string :=
  match s with
  | String c s' => if Py.is_digit c then String c (leading_digits s') else EmptyString
  | EmptyString => EmptyString
  end.

(** [re.match(r"K\d+", part_number)] and [match.group(0)]: the letter K
    at the start and the digits that follow it, one at least. *)
Definition basic_part_number (part_number : string) : option string :=
  match part_number with
  | String "K" rest =>
      match leading_digits rest with
      | EmptyString => None
      | digits => Some (String "K" digits)
      end
  | _ => None
  end.

(** The dict [required_attributes], by type, letter and section, when
    [part] is the basic part number that [re.match] found; [type_value]
    is [type_dropdown.value]. *)
Definition required_attributes (part type_value : string)
  : list (string * list (string * list (string * section))) :=
  [
   ("FLC-20",
   [
    ("R",
     [
      ("Main Info",
       {| equal_fields := [
              ("Article Type Value", Text "AF; Finished Part");
              ("Saleable Item Type Value", Text "IP; Product");
              ("Title ID Value", Text "Camera; 2687");
              ("Use Status", Text "Series");
              ("Type Number", Text type_value)];
          no_empty_fields := [] |});
      ("Product",
       {| equal_fields := [
              ("Product Group", Text "29LL");
              ("Product Group Disp", Text "Forward Looking Camera");
              ("Device Code", Alternatives ["21024"; "50017"]);
              ("Sales Channel Limitation", Text "OEM only");
              ("Price Book", Text "BXA (air products)");
              ("Basic Part Number", Text part)];
          no_empty_fields := [
              "Saleable only to Customer(s)"] |});
      ("Special Characteristics",
       {| equal_fields := [];
          no_empty_fields := [
              "Number of S/C";
              "Number of C/C"] |});
      ("Classification",
       {| equal_fields := [];
          no_empty_fields := [
              "Application";
              "ECU Type";
              "CAN Baud Rate";
              "Camera Angle";
              "Vehicle Connector";
              "Video Connector";
              "Camera Cable Length";
              "Software Version"] |})]);
    ("X",
     [
      ("Main Info",
       {| equal_fields := [
              ("Article Type Value", Text "AF; Finished Part");
              ("Saleable Item Type Value", Text "N; Not for external sale");
              ("Title ID Value", Text "Camera; 2687");
              ("Use Status", Text "Series");
              ("Type Number", Text type_value)];
          no_empty_fields := [] |});
      ("Product",
       {| equal_fields := [
              ("Product Group", Text "29LL");
              ("Product Group Disp", Text "Forward Looking Camera");
              ("Device Code", Alternatives ["21024"; "50017"]);
              ("Sales Channel Limitation", Text "Inter company only");
              ("Price Book", Text "BXA (air products)");
              ("Basic Part Number", Text part)];
          no_empty_fields := [] |});
      ("Special Characteristics",
       {| equal_fields := [];
          no_empty_fields := [
              "Number of S/C";
              "Number of C/C"] |});
      ("Classification",
       {| equal_fields := [];
          no_empty_fields := [
              "Application";
              "ECU Type";
              "CAN Baud Rate";
              "Camera Angle";
              "Vehicle Connector";
              "Video Connector";
              "Camera Cable Length";
              "Software Version"] |})]);
    ("N",
     [
      ("Main Info",
       {| equal_fields := [
              ("Article Type Value", Text "AF; Finished Part");
              ("Saleable Item Type Value", Text "IE; Exchange Product");
              ("Title ID Value", Text "Camera; 2687");
              ("Use Status", Text "Series");
              ("Type Number", Text type_value)];
          no_empty_fields := [] |});
      ("Product",
       {| equal_fields := [
              ("Product Group", Text "29LL");
              ("Product Group Disp", Text "Forward Looking Camera");
              ("Device Code", Alternatives ["21024"; "50017"]);
              ("Saleable only to Customer(s)", Text "");
              ("Sales Channel Limitation", Text "AM only");
              ("Price Book", Text "BXA (air products)");
              ("Basic Part Number", Text part)];
          no_empty_fields := [] |});
      ("Special Characteristics",
       {| equal_fields := [];
          no_empty_fields := [
              "Number of S/C";
              "Number of C/C"] |});
      ("Classification",
       {| equal_fields := [];
          no_empty_fields := [
              "Application";
              "ECU Type";
              "CAN Baud Rate";
              "Camera Angle";
              "Vehicle Connector";
              "Video Connector";
              "Camera Cable Length";
              "Software Version"] |})]);
    ("SC",
     [
      ("Main Info",
       {| equal_fields := [
              ("Article Type Value", Text "AF; Finished Part");
              ("Saleable Item Type Value", Text "IP; Product");
              ("Title ID Value", Text "Camera; 2687");
              ("Use Status", Text "Series");
              ("Type Number", Text type_value)];
          no_empty_fields := [] |});
      ("Product",
       {| equal_fields := [
              ("Product Group", Text "29LL");
              ("Product Group Disp", Text "Forward Looking Camera");
              ("Device Code", Alternatives ["21024"; "50017"]);
              ("Saleable only to Customer(s)", Text "All Customers");
              ("Sales Channel Limitation", Text "AM only");
              ("Price Book", Text "BXA (air products)");
              ("Basic Part Number", Text part)];
          no_empty_fields := [] |});
      ("Special Characteristics",
       {| equal_fields := [];
          no_empty_fields := [
              "Number of S/C";
              "Number of C/C"] |});
      ("Classification",
       {| equal_fields := [];
          no_empty_fields := [
              "Application";
              "ECU Type";
              "CAN Baud Rate";
              "Camera Angle";
              "Vehicle Connector";
              "Video Connector";
              "Camera Cable Length";
              "Software Version"] |})])]);
   ("FLR-21",
   [
    ("R",
     [
      ("Main Info",
       {| equal_fields := [
              ("Article Type Value", Text "AF; Finished Part");
              ("Saleable Item Type Value", Text "IP; Product");
              ("Title ID Value", Text "Front Radar Assembly; 3753");
              ("Use Status", Text "Series");
              ("Type Number", Text type_value)];
          no_empty_fields := [] |});
      ("Product",
       {| equal_fields := [
              ("Product Group", Text "29LA");
              ("Product Group Disp", Text "Forward Looking Radar");
              ("Device Code", Alternatives ["4963"; "50013"; "50016"]);
              ("Sales Channel Limitation", Text "OEM only");
              ("Price Book", Text "BXA (air products)");
              ("Basic Part Number", Text part)];
          no_empty_fields := [
              "Saleable only to Customer(s)"] |});
      ("Special Characteristics",
       {| equal_fields := [];
          no_empty_fields := [
              "Number of S/C";
              "Number of C/C"] |});
      ("Classification",
       {| equal_fields := [];
          no_empty_fields := [
              "Application";
              "Product Type";
              "CAN Baud Rate";
              "Connector";
              "Connector 2";
              "Software Version";
              "Maximum Operating Temperature";
              "Minimum Operating Temperature"] |})]);
    ("X",
     [
      ("Main Info",
       {| equal_fields := [
              ("Article Type Value", Text "AF; Finished Part");
              ("Saleable Item Type Value", Text "N; Not for external sale");
              ("Title ID Value", Text "Front Radar Assembly; 3753");
              ("Use Status", Text "Series");
              ("Type Number", Text type_value)];
          no_empty_fields := [] |});
      ("Product",
       {| equal_fields := [
              ("Product Group", Text "29LA");
              ("Product Group Disp", Text "Forward Looking Radar");
              ("Device Code", Alternatives ["4963"; "50013"; "50016"]);
              ("Sales Channel Limitation", Text "Inter company only");
              ("Price Book", Text "BXA (air products)");
              ("Basic Part Number", Text part)];
          no_empty_fields := [] |});
      ("Special Characteristics",
       {| equal_fields := [];
          no_empty_fields := [
              "Number of S/C";
              "Number of C/C"] |});
      ("Classification",
       {| equal_fields := [];
          no_empty_fields := [
              "Application";
              "Product Type";
              "CAN Baud Rate";
              "Connector";
              "Connector 2";
              "Software Version";
              "Maximum Operating Temperature";
              "Minimum Operating Temperature"] |})]);
    ("N",
     [
      ("Main Info",
       {| equal_fields := [
              ("Article Type Value", Text "AF; Finished Part");
              ("Saleable Item Type Value", Text "IE; Exchange Product");
              ("Title ID Value", Text "Front Radar Assembly; 3753");
              ("Use Status", Text "Series");
              ("Type Number", Text type_value)];
          no_empty_fields := [] |});
      ("Product",
       {| equal_fields := [
              ("Product Group", Text "29LA");
              ("Product Group Disp", Text "Forward Looking Radar");
              ("Device Code", Alternatives ["4963"; "50013"; "50016"]);
              ("Saleable only to Customer(s)", Text "");
              ("Sales Channel Limitation", Text "AM only");
              ("Price Book", Text "BXA (air products)");
              ("Basic Part Number", Text part)];
          no_empty_fields := [] |});
      ("Special Characteristics",
       {| equal_fields := [];
          no_empty_fields := [
              "Number of S/C";
              "Number of C/C"] |});
      ("Classification",
       {| equal_fields := [];
          no_empty_fields := [
              "Application";
              "Product Type";
              "CAN Baud Rate";
              "Connector";
              "Connector 2";
              "Software Version";
              "Maximum Operating Temperature";
              "Minimum Operating Temperature"] |})]);
    ("SC",
     [
      ("Main Info",
       {| equal_fields := [
              ("Article Type Value", Text "AF; Finished Part");
              ("Saleable Item Type Value", Text "IP; Product");
              ("Title ID Value", Text "Front Radar Assembly; 3753");
              ("Use Status", Text "Series");
              ("Type Number", Text type_value)];
          no_empty_fields := [] |});
      ("Product",
       {| equal_fields := [
              ("Product Group", Text "29LA");
              ("Product Group Disp", Text "Forward Looking Radar");
              ("Device Code", Alternatives ["4963"; "50013"; "50016"]);
              ("Saleable only to Customer(s)", Text "All Customers");
              ("Sales Channel Limitation", Text "AM only");
              ("Price Book", Text "BXA (air products)");
              ("Basic Part Number", Text part)];
          no_empty_fields := [] |});
      ("Special Characteristics",
       {| equal_fields := [];
          no_empty_fields := [
              "Number of S/C";
              "Number of C/C"] |});
      ("Classification",
       {| equal_fields := [];
          no_empty_fields := [
              "Application";
              "Product Type";
              "CAN Baud Rate";
              "Connector";
              "Connector 2";
              "Software Version";
              "Maximum Operating Temperature";
              "Minimum Operating Temperature"] |})])]);
   ("FLC-25",
   [
    ("R",
     [
      ("Main Info",
       {| equal_fields := [
              ("Article Type Value", Text "AF; Finished Part");
              ("Saleable Item Type Value", Text "IP; Product");
              ("Title ID Value", Text "Camera; 2687");
              ("Use Status", Text "Series");
              ("Type Number", Text type_value)];
          no_empty_fields := [] |});
      ("Product",
       {| equal_fields := [
              ("Product Group", Text "29LL");
              ("Product Group Disp", Text "Forward Looking Camera");
              ("Device Code", Text "50024");
              ("Sales Channel Limitation", Text "OEM only");
              ("Price Book", Text "BXA (air products)");
              ("Basic Part Number", Text part)];
          no_empty_fields := [
              "Saleable only to Customer(s)"] |});
      ("Special Characteristics",
       {| equal_fields := [];
          no_empty_fields := [
              "Number of S/C";
              "Number of C/C"] |});
      ("Classification",
       {| equal_fields := [];
          no_empty_fields := [
              "Application";
              "ECU Type";
              "CAN Baud Rate";
              "Camera Angle";
              "Vehicle Connector";
              "Video Connector";
              "Camera Cable Length";
              "Software Version"] |})]);
    ("X",
     [
      ("Main Info",
       {| equal_fields := [
              ("Article Type Value", Text "AF; Finished Part");
              ("Saleable Item Type Value", Text "N; Not for external sale");
              ("Title ID Value", Text "Camera; 2687");
              ("Use Status", Text "Series");
              ("Type Number", Text type_value)];
          no_empty_fields := [] |});
      ("Product",
       {| equal_fields := [
              ("Product Group", Text "29LL");
              ("Product Group Disp", Text "Forward Looking Camera");
              ("Device Code", Text "50024");
              ("Sales Channel Limitation", Text "Inter company only");
              ("Price Book", Text "BXA (air products)");
              ("Basic Part Number", Text part)];
          no_empty_fields := [] |});
      ("Special Characteristics",
       {| equal_fields := [];
          no_empty_fields := [
              "Number of S/C";
              "Number of C/C"] |});
      ("Classification",
       {| equal_fields := [];
          no_empty_fields := [
              "Application";
              "ECU Type";
              "CAN Baud Rate";
              "Camera Angle";
              "Vehicle Connector";
              "Video Connector";
              "Camera Cable Length";
              "Software Version"] |})]);
    ("SC",
     [
      ("Main Info",
       {| equal_fields := [
              ("Article Type Value", Text "AF; Finished Part");
              ("Saleable Item Type Value", Text "IP; Product");
              ("Title ID Value", Text "Camera; 2687");
              ("Use Status", Text "Series");
              ("Type Number", Text type_value)];
          no_empty_fields := [] |});
      ("Product",
       {| equal_fields := [
              ("Product Group", Text "29LL");
              ("Product Group Disp", Text "Forward Looking Camera");
              ("Device Code", Text "50024");
              ("Sales Channel Limitation", Text "AM only");
              ("Price Book", Text "BXA (air products)");
              ("Basic Part Number", Text part)];
          no_empty_fields := [
              "Saleable only to Customer(s)"] |});
      ("Special Characteristics",
       {| equal_fields := [];
          no_empty_fields := [
              "Number of S/C";
              "Number of C/C"] |});
      ("Classification",
       {| equal_fields := [];
          no_empty_fields := [
              "Application";
              "ECU Type";
              "CAN Baud Rate";
              "Camera Angle";
              "Vehicle Connector";
              "Video Connector";
              "Camera Cable Length";
              "Software Version"] |})])]);
   ("FLR-25",
   [
    ("R",
     [
      ("Main Info",
       {| equal_fields := [
              ("Article Type Value", Text "AF; Finished Part");
              ("Saleable Item Type Value", Text "IP; Product");
              ("Title ID Value", Text "Front Radar Assembly; 3753");
              ("Use Status", Text "Series");
              ("Type Number", Text type_value)];
          no_empty_fields := [] |});
      ("Product",
       {| equal_fields := [
              ("Product Group", Text "29LA");
              ("Product Group Disp", Text "Forward Looking Radar");
              ("Device Code", Alternatives ["50007"; "50022"]);
              ("Sales Channel Limitation", Text "OEM only");
              ("Price Book", Text "BXA (air products)");
              ("Basic Part Number", Text part)];
          no_empty_fields := [
              "Saleable only to Customer(s)"] |});
      ("Special Characteristics",
       {| equal_fields := [];
          no_empty_fields := [
              "Number of S/C";
              "Number of C/C"] |});
      ("Classification",
       {| equal_fields := [];
          no_empty_fields := [
              "Application";
              "Product Type";
              "CAN Baud Rate";
              "Connector";
              "Connector 2";
              "Software Version";
              "Maximum Operating Temperature";
              "Minimum Operating Temperature"] |})]);
    ("X",
     [
      ("Main Info",
       {| equal_fields := [
              ("Article Type Value", Text "AF; Finished Part");
              ("Saleable Item Type Value", Text "N; Not for external sale");
              ("Title ID Value", Text "Front Radar Assembly; 3753");
              ("Use Status", Text "Series");
              ("Type Number", Text type_value)];
          no_empty_fields := [] |});
      ("Product",
       {| equal_fields := [
              ("Product Group", Text "29LA");
              ("Product Group Disp", Text "Forward Looking Radar");
              ("Device Code", Alternatives ["50007"; "50022"]);
              ("Sales Channel Limitation", Text "Inter company only");
              ("Price Book", Text "BXA (air products)");
              ("Basic Part Number", Text part)];
          no_empty_fields := [] |});
      ("Special Characteristics",
       {| equal_fields := [];
          no_empty_fields := [
              "Number of S/C";
              "Number of C/C"] |});
      ("Classification",
       {| equal_fields := [];
          no_empty_fields := [
              "Application";
              "Product Type";
              "CAN Baud Rate";
              "Connector";
              "Connector 2";
              "Software Version";
              "Maximum Operating Temperature";
              "Minimum Operating Temperature"] |})]);
    ("SC",
     [
      ("Main Info",
       {| equal_fields := [
              ("Article Type Value", Text "AF; Finished Part");
              ("Saleable Item Type Value", Text "IP; Product");
              ("Title ID Value", Text "Front Radar Assembly; 3753");
              ("Use Status", Text "Series");
              ("Type Number", Text type_value)];
          no_empty_fields := [] |});
      ("Product",
       {| equal_fields := [
              ("Product Group", Text "29LA");
              ("Product Group Disp", Text "Forward Looking Radar");
              ("Device Code", Alternatives ["50007"; "50022"]);
              ("Sales Channel Limitation", Text "AM only");
              ("Price Book", Text "BXA (air products)");
              ("Basic Part Number", Text part)];
          no_empty_fields := [
              "Saleable only to Customer(s)"] |});
      ("Special Characteristics",
       {| equal_fields := [];
          no_empty_fields := [
              "Number of S/C";
              "Number of C/C"] |});
      ("Classification",
       {| equal_fields := [];
          no_empty_fields := [
              "Application";
              "Product Type";
              "CAN Baud Rate";
              "Connector";
              "Connector 2";
              "Software Version";
              "Maximum Operating Temperature";
              "Minimum Operating Temperature"] |})])])].

(** [attributes]: the sections of the profile in the order of the dict,
    and no section when the type or the letter is not a key. *)
Definition attributes (part : string) (type_dropdown : DropdownType)
    (letter_identifier : string) : list (string * section) :=
  let type_value := DropdownType_value type_dropdown in
  match UtilsTable.dict_get type_value (required_attributes part type_value) with
  | None => []
  | Some letters =>
      match UtilsTable.dict_get letter_identifier letters with
      | None => []
      | Some sections => sections
      end
  end.

End UtilsCatalog.

(** ** Further words for the properties of the code *)

Module SpecMore.

(** The text holds [prefix] followed by six digits. *)
Definition version_text (prefix s : string) : Prop :=
  exists pre d post,
    s = pre ++ prefix ++ d ++ post
    /\ String.length d = 6%nat /\ Spec.all_digits d = true.

(** No name other than "Boot Software" stands twice in the list. *)
Definition once_but_boot (m : list string) : Prop :=
  forall x, x <> "Boot Software" -> (Spec.count x m <= 1)%nat.

(** What a row of the table is: the identifier, title and description of
    an observed row, its converted quantity, and 1 or 3 as the expected
    value, 3 only beside a nut or a screw. *)
Definition from_rows (titles : list Fusion3.bom_row) (d : Fusion3.data_row) : Prop :=
  exists r,
    In r titles
    /\ Fusion3.ID d = Fusion3.id_ r
    /\ Fusion3.Title d = Fusion3.title r
    /\ Fusion3.Description d = Fusion3.description r
    /\ PyFloat.int_float (Fusion3.quantity r) = Ok (Fusion3.Quantity d)
    /\ (Fusion3.Expected_value d = 1%Z
        \/ (Fusion3.Expected_value d = 3%Z
            /\ Py.str_in "nut" (Py.lower (Fusion3.title r))
               || Py.str_in "screw" (Py.lower (Fusion3.title r)) = true)).

(** Some row has a title that contains [e], in the letter case of [e]. *)
Definition titled (e : string) (titles : list Fusion3.bom_row) : Prop :=
  exists r, In r titles /\ Py.str_in e (Fusion3.title r) = true.

(** Two rows at least are software rows (the title contains "software" in
    any letter case), and the description of one of them contains
    "DATASET" or "DATA SET" in any letter case. *)
Definition dataset_bundled (titles : list Fusion3.bom_row) : Prop :=
  (2 <= List.length (filter Fusion3.is_software titles))%nat
  /\ exists r, In r titles /\ Fusion3.is_software r = true
               /\ (Py.str_in "DATASET" (Py.upper (Fusion3.description r)) = true
                   \/ Py.str_in "DATA SET" (Py.upper (Fusion3.description r)) = true).

(** A software row whose description contains [kw] in any letter case. *)
Definition boot_row (kw : string) (titles : list Fusion3.bom_row) : Prop :=
  exists r, In r titles /\ Fusion3.is_software r = true
            /\ Py.str_in kw (Py.lower (Fusion3.description r)) = true.

(** A software row whose description does not contain "boot software" and
    holds [prefix] followed by six digits. *)
Definition version_row (prefix : string) (titles : list Fusion3.bom_row) : Prop :=
  exists r, In r titles /\ Fusion3.is_software r = true
            /\ Py.str_in "boot software" (Py.lower (Fusion3.description r)) = false
            /\ version_text prefix (Fusion3.description r).

(** A row of the radar with the keyword of the CAN termination in the
    description and the identifier [id]. *)
Definition can_row (kw id : string) (titles : list Fusion3.bom_row) : Prop :=
  exists r, In r titles
            /\ Py.str_in "radar" (Py.lower (Fusion3.title r)) = true
            /\ Py.str_in kw (Py.lower (Fusion3.description r)) = true
            /\ Py.upper (Fusion3.id_ r) = id.

(** A row of the camera with the identifier K188332H000. *)
Definition camera_row (titles : list Fusion3.bom_row) : Prop :=
  exists r, In r titles
            /\ Py.str_in "camera" (Py.lower (Fusion3.title r)) = true
            /\ Py.upper (Fusion3.id_ r) = "K188332H000".

(** The list [required_docs] of the profile, empty when no branch assigns
    it. *)
Definition required_docs_of (self : Fusion3.t) : list string :=
  match Fusion3.required_and_optional_docs self with
  | (Some required_docs, _, _) => required_docs
  | _ => []
  end.

(** When a report names [x] as a missing document:
    - a required kind other than the assembly drawing, the service data
      and the process data sheet, without accepted record;
    - the schedule of a required assembly drawing, when no accepted record
      of the kind has "schedule" in its title;
    - the CAD of a required assembly drawing, when every accepted record of
      the kind has;
    - the service data for US, in the four families with the language
      rule, when no accepted record of the service data names US or EN;
    - the process data sheet (BWs), when the process data sheet is required
      and has no accepted record. *)
Definition missing_rule (self : Fusion3.t) (documents : list Fusion3.document)
    (x : string) : Prop :=
  (Spec.requires_doc self x /\ x <> "Assembly Drawing" /\ x <> "Service Data"
   /\ x <> "Process Data Sheet" /\ Spec.accepted_of_kind x documents = [])
  \/ (x = "Assembly Drawing Schedule" /\ Spec.requires_doc self "Assembly Drawing"
      /\ existsb Fusion3.has_schedule
           (Spec.accepted_of_kind "Assembly Drawing" documents) = false)
  \/ (x = "Assembly Drawing CAD" /\ Spec.requires_doc self "Assembly Drawing"
      /\ forallb Fusion3.has_schedule
           (Spec.accepted_of_kind "Assembly Drawing" documents) = true)
  \/ (x = "Service Data - US"
      /\ type_in (Fusion3.type_dropdown self) [FLC_20; FLR_21; FLC_25; FLR_25] = true
      /\ existsb Spec.names_us_or_en
           (Spec.accepted_of_kind "Service Data" documents) = false)
  \/ (x = "Process Data Sheet (BWs)" /\ Spec.requires_doc self "Process Data Sheet"
      /\ Spec.accepted_of_kind "Process Data Sheet" documents = []).

(** The list [optional_docs] of the profile, empty when no branch assigns
    it. *)
Definition optional_docs_of (self : Fusion3.t) : list string :=
  match Fusion3.required_and_optional_docs self with
  | (_, Some optional_docs, _) => optional_docs
  | _ => []
  end.

(** When the report asks to validate whether the document [e] is
    required: [e] is the service data and "Service Data - US" is missing,
    or [e] is an optional document of a bracket that is missing, the
    process data sheet under the name with "(BWs)". *)
Definition advisory_rule (self : Fusion3.t) (documents : list Fusion3.document)
    (e : string) : Prop :=
  (e = "Service Data" /\ missing_rule self documents "Service Data - US")
  \/ (type_in (Fusion3.type_dropdown self) [FLR_25_BRACKET; FLC_25_BRACKET] = true
      /\ In e (optional_docs_of self)
      /\ (missing_rule self documents e
          \/ (e = "Process Data Sheet"
              /\ missing_rule self documents "Process Data Sheet (BWs)"))).

(** No name of [es] is a part of another name of [names], but for the
    process data sheet in its name with "(BWs)" and the service data in
    "Service Data - US". *)
Definition names_apart (es names : list string) : bool :=
  forallb (fun e =>
             forallb (fun doc =>
                        implb (Py.str_in e doc)
                              (String.eqb doc e
                               || (String.eqb e "Process Data Sheet"
                                   && String.eqb doc "Process Data Sheet (BWs)")
                               || (String.eqb e "Service Data"
                                   && String.eqb doc "Service Data - US")))
                     names)
          es.

(** The index of the first element of [l] that is [h]. *)
Fixpoint first_index (h : string) (l : list string) : option nat :=
  match l with
  | [] => None
  | x :: l' => if String.eqb h x then Some O else option_map S (first_index h l')
  end.

(** The text that a row shows for a field: the value that the page
    gives, empty when the element is not there. *)
Definition actual (p : UtilsAttributes.page) (attr : string) : string :=
  match UtilsAttributes.get_attribute p attr with
  | Some element => element
  | None => ""
  end.

(** The fields of the table in the order of the loops: the name of the
    field, and its expected value when it is a field of [equal_fields]. *)
Definition fields (attrs : list UtilsAttributes.section)
  : list (string * option Utils.expected) :=
  flat_map (fun s =>
              map (fun ae => (fst ae, Some (snd ae))) (UtilsAttributes.equal_fields s)
              ++ map (fun a => (a, None)) (UtilsAttributes.no_empty_fields s))%list
           attrs.

(** A row as the loops append it for the field [f]. *)
Definition raw_rule (p : UtilsAttributes.page) (f : string * option Utils.expected)
    (row : Utils.attr_row) : Prop :=
  Utils.Parameters row = fst f
  /\ Utils.Actual_Value row = actual p (fst f)
  /\ match snd f with
     | Some e => Utils.Should_be_Equal row = true /\ Utils.Expected_Value row = e
     | None => Utils.Should_be_Equal row = false
     end.

(** The colour of a row of the frame.  The row shows the value of the
    page.  A field that must not be blank shows one of the three texts
    with "Not Blank" as its expected value and is red exactly when the
    value of the page is empty; a field with an expected value (other
    than the device code and the three fields whose expected text is
    replaced) shows the expected value of the table and is red exactly
    when the value of the page differs from it. *)
Definition colour_rule (p : UtilsAttributes.page) (attrs : list UtilsAttributes.section)
    (row : Utils.attr_row) (s : Utils.style) : Prop :=
  Utils.Actual_Value row = actual p (Utils.Parameters row)
  /\ (Utils.Should_be_Equal row = false ->
      Utils.Parameters row <> "Device Code" ->
      In (Utils.Expected_Value row)
         [Utils.Text "(Digit, Not Blank)";
          Utils.Text "(Type of Application, Not Blank)";
          Utils.Text "(Not Blank)"]
      /\ (s = Utils.Red <-> Utils.Actual_Value row = ""))
  /\ (Utils.Should_be_Equal row = true ->
      ~ In (Utils.Parameters row)
           ["Device Code"; "Number of S/C"; "Number of C/C"; "Application"] ->
      In (Utils.Parameters row, Utils.Expected_Value row)
         (flat_map UtilsAttributes.equal_fields attrs)
      /\ (s = Utils.Red
          <-> Utils.expected_eqb (Utils.Actual_Value row) (Utils.Expected_Value row)
              = false)).

(** The number that a run of decimal digits writes, after the digits
    whose value is [acc]. *)
Fixpoint decimal_from (acc : Z) (s : string) : Z :=
  match s with
  | EmptyString => acc
  | String c s' => decimal_from (10 * acc + PyFloat.digit_val c) s'
  end.

Definition decimal_value (s : string) : Z := decimal_from 0 s.

Definition expected_beq (a b : Utils.expected) : bool :=
  match a, b with
  | Utils.Text x, Utils.Text y => String.eqb x y
  | Utils.Alternatives l, Utils.Alternatives l' =>
      if list_eq_dec string_dec l l' then true else false
  | _, _ => false
  end.

(** The expected value is one of the device codes of the table. *)
Definition expected_in_catalog (e : Utils.expected) : bool :=
  existsb (expected_beq e) Utils.catalog_device_codes.

(** The shape of a profile of the dict: its first section has a field
    with an expected value; the expected value of every field "Device
    Code" is a device code of the table; no field that must not be blank
    has that name. *)
Definition profile_ok (sections : list (string * UtilsAttributes.section)) : bool :=
  match sections with
  | (_, s) :: _ =>
      match UtilsAttributes.equal_fields s with
      | [] => false
      | _ :: _ => true
      end
  | [] => false
  end
  && forallb (fun ns =>
                forallb (fun ae => negb (String.eqb (fst ae) "Device Code")
                                   || expected_in_catalog (snd ae))
                        (UtilsAttributes.equal_fields (snd ns))
                && forallb (fun a => negb (String.eqb a "Device Code"))
                           (UtilsAttributes.no_empty_fields (snd ns)))
             sections.

(** The codes that an expected value of the device code admits. *)
Definition device_codes (e : Utils.expected) : list string :=
  match e with
  | Utils.Text s => [s]
  | Utils.Alternatives l => l
  end.

(** The colour of the row of the device code: red exactly when the value
    of the page is none of the codes that the table admits. *)
Definition device_code_rule (attrs : list UtilsAttributes.section)
    (row : Utils.attr_row) (s : Utils.style) : Prop :=
  Utils.Parameters row = "Device Code" ->
  exists e,
    In ("Device Code", e) (flat_map UtilsAttributes.equal_fields attrs)
    /\ (s = Utils.Red <-> ~ In (Utils.Actual_Value row) (device_codes e)).

(** The expected value that the frame shows for a field: the text with
    "Not Blank" of the field's name or, for another name, "(Not Blank)"
    when the field must not be blank and the expected value of the table
    otherwise, the list of a device code joined with " or ". *)
Definition shown_expected (f : string * option Utils.expected) : Utils.expected :=
  if Py.mem (fst f) ["Number of S/C"; "Number of C/C"]
  then Utils.Text "(Digit, Not Blank)"
  else if String.eqb (fst f) "Application"
  then Utils.Text "(Type of Application, Not Blank)"
  else match snd f with
       | None => Utils.Text "(Not Blank)"
       | Some e =>
           if String.eqb (fst f) "Device Code" then Utils.format_device_code e else e
       end.

(** The row of the frame for a field. *)
Definition frame_row (p : UtilsAttributes.page) (f : string * option Utils.expected)
  : Utils.attr_row :=
  {| Utils.Parameters := fst f;
     Utils.Expected_Value := shown_expected f;
     Utils.Actual_Value := actual p (fst f);
     Utils.Should_be_Equal := match snd f with Some _ => true | None => false end |}.

(** The colour of the row of a field, [st] being what [highlight_row]
    gives for it.  A field named "Device Code" is red exactly when the
    value of the page is none of the parts of the shown text, split at
    " or "; when the shown expected value is still a list (the empty
    list), [highlight_row] raises an AttributeError.  Another field is red
    exactly when it has an expected value and the value of the page is
    not the shown text, or it must not be blank and the value of the page
    is empty. *)
Definition field_colour (p : UtilsAttributes.page) (f : string * option Utils.expected)
    (st : result Utils.style) : Prop :=
  let value := actual p (fst f) in
  if String.eqb (fst f) "Device Code" then
    match shown_expected f with
    | Utils.Text t =>
        exists s, st = Ok s /\ (s = Utils.Red <-> ~ In value (Py.split " or " t))
    | Utils.Alternatives _ => exists m, st = Raise (AttributeError m)
    end
  else
    exists s,
      st = Ok s
      /\ (s = Utils.Red
          <-> match snd f with
              | Some _ => Utils.expected_eqb value (shown_expected f) = false
              | None => value = ""
              end).

End SpecMore.

(** ** Further sample inputs *)

Module SamplesMore.

Import Fusion3.

(** A radar of the family FLR-25 with the letter N. *)
Definition radar_n : t :=
  Samples.mk_self false "K015123N000" "Radar Sensor" "N" false false FLR_25 "Radar".

(** A camera of the family FLC-25 with the letter X. *)
Definition camera_x : t :=
  Samples.mk_self false "K015123X000" "Camera Module" "X" false false FLC_25 "Camera".

(** Every required row of a camera. *)
Definition bom_camera : list bom_row :=
  [Samples.r_dataset;
   Samples.row "Software" "1" "Application NA123456" "K030002S000";
   Samples.r_boot;
   Samples.row "Camera" "1" "Camera module" "K188332H000"].

(** An aftermarket bracket of the family FLR-25. *)
Definition bracket_am : t :=
  Samples.mk_self true "K123456" "Bracket Assembly" "B" false false FLR_25_BRACKET
    "Bracket".

(** The documents of the aftermarket product: one released, one obsolete. *)
Definition docs_am : list Fusion3More.am_document :=
  [{| Fusion3More.am_Document := "Z070001";
      Fusion3More.Title_ID_value := "Bracket Assembly AM";
      Fusion3More.Lifecycle_State := "Released" |};
   {| Fusion3More.am_Document := "Z070002";
      Fusion3More.Title_ID_value := "Bracket Assembly AM";
      Fusion3More.Lifecycle_State := "Obsolete" |}].

(** The titles of the header elements of a content table. *)
Definition page_headers : list string :=
  ["Element"; "ID"; "Title ID Value"; "Revision"; "Quantity"; "ID"; "Description"].

(** The dict of the columns of a content table with two rows; the page
    shows the column of the identifiers first. *)
Definition values_table : list (string * list string) :=
  [("ID", ["K030001D000"; "K030002S000"]);
   ("Title ID Value", ["Dataset"; "Software"]);
   ("Quantity", ["1"; "2"]);
   ("Description", ["Dataset FLR-25"; "Application VER FU123456"])].

(** A page of attributes: the product group is shown, the other elements
    with a data locator are not there, and no field has list items. *)
Definition page_attributes : UtilsAttributes.page :=
  {| UtilsAttributes.locator_value :=
       fun attr => if String.eqb attr "Product Group" then Some (Some "29LL") else None;
     UtilsAttributes.list_items := fun _ => [] |}.

(** Two sections in the manner of the table of [attributes]. *)
Definition section_product : UtilsAttributes.section :=
  {| UtilsAttributes.equal_fields :=
       [("Product Group", Utils.Text "29LL");
        ("Device Code", Utils.Alternatives ["21024"; "50017"])];
     UtilsAttributes.no_empty_fields := ["Saleable only to Customer(s)"] |}.

Definition section_special : UtilsAttributes.section :=
  {| UtilsAttributes.equal_fields := [];
     UtilsAttributes.no_empty_fields := ["Number of S/C"; "Number of C/C"] |}.

End SamplesMore.

(** * Properties *)

(** ** Checks on concrete inputs *)

Example split_lang : Py.split "," "DocX, FR,US" = ["DocX"; " FR"; "US"].
Proof. reflexivity. Qed.

Example split_or : Py.split " or " "21024 or 50017" = ["21024"; "50017"].
Proof. reflexivity. Qed.

Example strip_ex : Py.strip "  FR " = "FR".
Proof. reflexivity. Qed.

Example int_float_1 : PyFloat.int_float "1.0" = Ok 1%Z. Proof. reflexivity. Qed.

Example int_float_3 : PyFloat.int_float " 3 " = Ok 3%Z. Proof. reflexivity. Qed.

Example int_float_neg : PyFloat.int_float "-2.75" = Ok (-2)%Z. Proof. reflexivity. Qed.

Example int_float_exp : PyFloat.int_float "1_0e-1" = Ok 1%Z. Proof. reflexivity. Qed.

Example int_float_near1 : PyFloat.int_float "0.99999999999999999999" = Ok 1%Z.
Proof. vm_compute. reflexivity. Qed.

Example int_float_pt : PyFloat.int_float ".5" = Ok 0%Z. Proof. vm_compute. reflexivity. Qed.

Example int_float_big : PyFloat.int_float "12345678901234567890" = Ok 12345678901234567168%Z.
Proof. vm_compute. reflexivity. Qed.

Example int_float_empty : is_ok (PyFloat.int_float "") = false. Proof. reflexivity. Qed.

Example int_float_abc : is_ok (PyFloat.int_float "abc") = false. Proof. reflexivity. Qed.

Example int_float_dot : is_ok (PyFloat.int_float ".") = false. Proof. reflexivity. Qed.

Example int_float_e : is_ok (PyFloat.int_float "1e") = false. Proof. reflexivity. Qed.

Example int_float_us : is_ok (PyFloat.int_float "1__0") = false. Proof. reflexivity. Qed.

Example int_float_inf : is_ok (PyFloat.int_float "-Infinity") = false. Proof. reflexivity. Qed.

Example int_float_huge : is_ok (PyFloat.int_float "1e400") = false. Proof. vm_compute. reflexivity. Qed.

Example int_float_max : is_ok (PyFloat.int_float "1.7976931348623157e308") = true.
Proof. vm_compute. reflexivity. Qed.

Example int_float_over : is_ok (PyFloat.int_float "1.7976931348623159e308") = false.
Proof. vm_compute. reflexivity. Qed.

Example int_float_tiny : PyFloat.int_float "4.9e-324" = Ok 0%Z.
Proof. vm_compute. reflexivity. Qed.

Example vpn_x : Utils.validate_part_number "K123456X001" = Some "X".
Proof. reflexivity. Qed.

Example vpn_sc : Utils.validate_part_number "K1SC2" = Some "SC".
Proof. reflexivity. Qed.

Example vpn_none : Utils.validate_part_number "K123456" = None.
Proof. reflexivity. Qed.

Example vpn_rx : Utils.validate_part_number "R1X2" = Some "R".
Proof. reflexivity. Qed.

Example device_code_ok :
  Utils.row_style (Utils.device_code_row (Utils.Alternatives ["21024"; "50017"]) "50017")
  = Ok Utils.Black.
Proof. reflexivity. Qed.


(** ** Strings *)

Section StringFacts.

Lemma append_nil_r (s : string) : s ++ "" = s.
Proof. induction s as [|c s IH]; simpl; [reflexivity | now rewrite IH]. Qed.

Lemma append_assoc (a b c : string) : (a ++ b) ++ c = a ++ (b ++ c).
Proof. induction a as [|x a IH]; simpl; [reflexivity | now rewrite IH]. Qed.

Lemma append_eq_nil (a b : string) : a ++ b = "" -> a = "" /\ b = "".
Proof. destruct a; simpl; [auto | discriminate]. Qed.

Lemma startswith_spec (p s : string) :
  Py.startswith p s = true <-> exists rest, s = p ++ rest.
Proof.
  revert s; induction p as [|a p IH]; intros s; simpl.
  - split; [intros _; now exists s | reflexivity].
  - destruct s as [|b s].
    + split; [discriminate | intros [rest H]; discriminate].
    + rewrite andb_true_iff, Ascii.eqb_eq, IH. split.
      * intros [-> [rest ->]]. now exists rest.
      * intros [rest H]. injection H as -> ->. split; [reflexivity | now exists rest].
Qed.

(** [sub in s] holds exactly when [s] is some text, then [sub], then some
    text. *)
Lemma str_in_spec (sub s : string) :
  Py.str_in sub s = true <-> exists pre post, s = pre ++ sub ++ post.
Proof.
  induction s as [|c s IH]; simpl.
  - rewrite orb_false_r, startswith_spec. split.
    + intros [rest H]. now exists "", rest.
    + intros [pre [post H]]. symmetry in H.
      apply append_eq_nil in H as [-> H]. now exists post.
  - rewrite orb_true_iff, startswith_spec, IH. split.
    + intros [[rest H] | [pre [post H]]].
      * now exists "", rest.
      * exists (String c pre), post. simpl. now rewrite H.
    + intros [[|x pre] [post H]]; simpl in H.
      * left. now exists post.
      * right. injection H as _ H. now exists pre, post.
Qed.

Lemma lower_append (a b : string) : Py.lower (a ++ b) = Py.lower a ++ Py.lower b.
Proof. induction a as [|x a IH]; simpl; [reflexivity | now rewrite IH]. Qed.

Lemma upper_append (a b : string) : Py.upper (a ++ b) = Py.upper a ++ Py.upper b.
Proof. induction a as [|x a IH]; simpl; [reflexivity | now rewrite IH]. Qed.

(** A text that occurs in [s] occurs, in lower case, in [s.lower()]. *)
Lemma str_in_lower (sub s : string) :
  Py.str_in sub s = true -> Py.str_in (Py.lower sub) (Py.lower s) = true.
Proof.
  rewrite !str_in_spec. intros [pre [post ->]].
  exists (Py.lower pre), (Py.lower post). now rewrite !lower_append.
Qed.

End StringFacts.

(** ** Lists of names *)

Section ListFacts.

Lemma mem_In (x : string) (l : list string) : Py.mem x l = true <-> In x l.
Proof.
  unfold Py.mem. rewrite existsb_exists. split.
  - intros [y [Hy E]]. apply String.eqb_eq in E. now subst.
  - intros H. exists x. split; [assumption | apply String.eqb_refl].
Qed.

Lemma mem_false (x : string) (l : list string) : Py.mem x l = false <-> ~ In x l.
Proof.
  rewrite <- mem_In. destruct (Py.mem x l); split; intros; congruence.
Qed.

Lemma In_remove (x y : string) (l : list string) :
  In x (Py.remove y l) -> In x l.
Proof.
  induction l as [|z l IH]; simpl; [auto|].
  destruct (String.eqb y z); simpl; intuition.
Qed.

Lemma In_remove_other (x y : string) (l : list string) :
  x <> y -> In x l -> In x (Py.remove y l).
Proof.
  intros Hxy. induction l as [|z l IH]; simpl; [auto|].
  destruct (String.eqb_spec y z) as [->|Hyz]; simpl.
  - intros [E|H]; [congruence | assumption].
  - intros [E|H]; [now left | right; auto].
Qed.

(** One [remove] clears a name that occurs once. *)
Lemma remove_NoDup (x : string) (l : list string) :
  NoDup l -> ~ In x (Py.remove x l).
Proof.
  induction 1 as [|z l Hz Hl IH]; simpl; [auto|].
  destruct (String.eqb_spec x z) as [->|Hxz]; simpl.
  - assumption.
  - intros [E|H]; [congruence | auto].
Qed.

Lemma NoDup_remove (x : string) (l : list string) :
  NoDup l -> NoDup (Py.remove x l).
Proof.
  induction 1 as [|z l Hz Hl IH]; simpl; [constructor|].
  destruct (String.eqb x z); [assumption|].
  constructor; [|assumption]. intros H. apply Hz. eapply In_remove; eauto.
Qed.

Lemma In_replace_first (x a b : string) (l : list string) :
  In x (Py.replace_first a b l) -> In x l \/ x = b.
Proof.
  induction l as [|z l IH]; simpl; [auto|].
  destruct (String.eqb a z); simpl; intuition.
Qed.

Lemma existsb_ext {A : Type} (f g : A -> bool) (l : list A) :
  (forall a, f a = g a) -> existsb f l = existsb g l.
Proof. intros H. induction l as [|a l IH]; simpl; [reflexivity | now rewrite H, IH]. Qed.

Lemma In_snoc (x y : string) (l : list string) :
  In x (l ++ [y]) <-> In x l \/ x = y.
Proof. rewrite in_app_iff. simpl. intuition. Qed.

Lemma NoDup_filter {A : Type} (f : A -> bool) (l : list A) :
  NoDup l -> NoDup (filter f l).
Proof.
  induction 1 as [|z l Hz Hl IH]; simpl; [constructor|].
  destruct (f z); [|assumption].
  constructor; [|assumption]. rewrite filter_In. tauto.
Qed.

End ListFacts.

(** ** Regular expressions: the matcher decides the language *)

Section RegexFacts.

Import Regex.

Lemma cat_inv (r1 r2 : re) (s : string) :
  matches (Cat r1 r2) s ->
  exists s1 s2, s = s1 ++ s2 /\ matches r1 s1 /\ matches r2 s2.
Proof. inversion 1; subst; eauto. Qed.

Lemma alt_inv (r1 r2 : re) (s : string) :
  matches (Alt r1 r2) s -> matches r1 s \/ matches r2 s.
Proof. inversion 1; subst; auto. Qed.

Lemma digit_inv (s : string) :
  matches Digit s -> exists c, s = String c "" /\ Py.is_digit c = true.
Proof. inversion 1; subst; eauto. Qed.

Lemma oneof_inv (cs s : string) :
  matches (OneOf cs) s -> exists c, s = String c "" /\ char_in c cs = true.
Proof. inversion 1; subst; eauto. Qed.

Lemma nullable_spec (r : re) : nullable r = true <-> matches r "".
Proof.
  induction r; simpl.
  - split; [discriminate | inversion 1].
  - split; [constructor | reflexivity].
  - split; [discriminate | inversion 1].
  - split; [discriminate | inversion 1].
  - split; [discriminate | inversion 1].
  - rewrite andb_true_iff, IHr1, IHr2. split.
    + intros [H1 H2]. change "" with ("" ++ ""). now constructor.
    + intros H. apply cat_inv in H as [s1 [s2 [E [H1 H2]]]].
      symmetry in E. apply append_eq_nil in E as [-> ->]. tauto.
  - rewrite orb_true_iff, IHr1, IHr2. split.
    + intros [H|H]; [now apply m_alt_l | now apply m_alt_r].
    + apply alt_inv.
  - split; [constructor | reflexivity].
Qed.

(** A match of [Star r] that starts with [c] begins with a match of [r]
    that starts with [c]. *)
Lemma star_cons_inv (r : re) (s : string) :
  matches (Star r) s ->
  forall c s', s = String c s' ->
  exists s1 s2, s' = s1 ++ s2 /\ matches r (String c s1) /\ matches (Star r) s2.
Proof.
  intros H. remember (Star r) as q eqn:Eq. revert r Eq.
  induction H as [| | | | | | | r0 | r0 s1 s2 H1 IH1 H2 IH2];
    intros r Eq; try discriminate Eq; injection Eq as ->; intros c s' E.
  - discriminate E.
  - destruct s1 as [|d s1]; simpl in E.
    + eapply IH2; eauto.
    + injection E as -> <-. exists s1, s2. auto.
Qed.

Lemma deriv_spec (r : re) : forall c s,
  matches (deriv c r) s <-> matches r (String c s).
Proof.
  induction r; intros c0 s; simpl.
  - split; inversion 1.
  - split; inversion 1.
  - destruct (Ascii.eqb_spec c0 c) as [->|Hne]; split; inversion 1; subst;
      try constructor; congruence.
  - destruct (Py.is_digit c0) eqn:E; split; inversion 1; subst;
      try (constructor; assumption); congruence.
  - destruct (char_in c0 cs) eqn:E; split; inversion 1; subst;
      try (constructor; assumption); congruence.
  - assert (Hcat : matches (Cat (deriv c0 r1) r2) s ->
                   matches (Cat r1 r2) (String c0 s)).
    { intros H. apply cat_inv in H as [s1 [s2 [-> [H1 H2]]]].
      apply IHr1 in H1. change (String c0 (s1 ++ s2)) with (String c0 s1 ++ s2).
      now constructor. }
    assert (Hinv : matches (Cat r1 r2) (String c0 s) ->
                   matches (Cat (deriv c0 r1) r2) s \/
                   (matches r1 "" /\ matches r2 (String c0 s))).
    { intros H. apply cat_inv in H as [s1 [s2 [E [H1 H2]]]].
      destruct s1 as [|d s1]; simpl in E.
      - right. subst. auto.
      - injection E as <- ->. left. constructor; [now apply IHr1 | assumption]. }
    destruct (nullable r1) eqn:N.
    + split.
      * intros H. apply alt_inv in H as [H|H]; [now apply Hcat|].
        change (String c0 s) with ("" ++ String c0 s). constructor.
        -- now apply nullable_spec.
        -- now apply IHr2.
      * intros H. apply Hinv in H as [H|[_ H]];
          [now apply m_alt_l | apply m_alt_r; now apply IHr2].
    + split; [exact Hcat|].
      intros H. apply Hinv in H as [H|[H _]]; [assumption|].
      apply nullable_spec in H. congruence.
  - split; intros H; apply alt_inv in H as [H|H];
      solve [apply m_alt_l; now apply IHr1 | apply m_alt_r; now apply IHr2].
  - split.
    + intros H. apply cat_inv in H as [s1 [s2 [-> [H1 H2]]]].
      apply IHr in H1. change (String c0 (s1 ++ s2)) with (String c0 s1 ++ s2).
      now constructor.
    + intros H. destruct (star_cons_inv _ _ H _ _ eq_refl) as [s1 [s2 [-> [H1 H2]]]].
      constructor; [now apply IHr | assumption].
Qed.

(** [match_prefix] finds a match at the start of the text. *)
Lemma match_prefix_spec (s : string) : forall r,
  match_prefix r s = true <-> exists m rest, s = m ++ rest /\ matches r m.
Proof.
  induction s as [|c s IH]; intros r; simpl.
  - rewrite orb_false_r, nullable_spec. split.
    + intros H. now exists "", "".
    + intros [m [rest [E H]]]. symmetry in E.
      apply append_eq_nil in E as [-> _]. assumption.
  - rewrite orb_true_iff, nullable_spec, IH. split.
    + intros [H | [m [rest [-> H]]]].
      * now exists "", (String c s).
      * exists (String c m), rest. split; [reflexivity | now apply deriv_spec].
    + intros [[|d m] [rest [E H]]]; simpl in E.
      * now left.
      * injection E as <- ->. right. exists m, rest.
        split; [reflexivity | now apply deriv_spec].
Qed.

(** [search] finds a match anywhere in the text. *)
Lemma search_spec (r : re) (s : string) :
  search r s = true <-> exists pre m post, s = pre ++ m ++ post /\ matches r m.
Proof.
  induction s as [|c s IH]; cbn [search].
  - rewrite orb_false_r, match_prefix_spec. split.
    + intros [m [rest [E H]]]. now exists "", m, rest.
    + intros [pre [m [post [E H]]]]. symmetry in E.
      apply append_eq_nil in E as [-> E]. now exists m, post.
  - rewrite orb_true_iff, match_prefix_spec, IH. split.
    + intros [[m [rest [E H]]] | [pre [m [post [E H]]]]].
      * now exists "", m, rest.
      * exists (String c pre), m, post. simpl. now rewrite E.
    + intros [[|d pre] [m [post [E H]]]]; simpl in E.
      * left. now exists m, post.
      * injection E as _ E. right. now exists pre, m, post.
Qed.

End RegexFacts.

(** ** The variant letter ([Utils.validate_part_number]) *)

Section VariantLetter.

Import Regex Spec.

Lemma matches_str (t s : string) : matches (Str t) s <-> s = t.
Proof.
  revert s; induction t as [|c t IH]; intros s; simpl.
  - split; [inversion 1; reflexivity | intros ->; constructor].
  - split.
    + intros H. apply cat_inv in H as [s1 [s2 [-> [H1 H2]]]].
      inversion H1; subst. apply IH in H2. now subst.
    + intros ->. change (String c t) with (String c "" ++ t).
      constructor; [constructor | now apply IH].
Qed.

Lemma matches_star_digit (s : string) :
  matches (Star Digit) s <-> all_digits s = true.
Proof.
  split.
  - intros H. remember (Star Digit) as q eqn:Eq.
    induction H as [| | | | | | | r0 | r0 s1 s2 H1 IH1 H2 IH2];
      try discriminate Eq; injection Eq as ->.
    + reflexivity.
    + apply digit_inv in H1 as [c [-> Hc]]. simpl. rewrite Hc. now apply IH2.
  - induction s as [|c s IH]; simpl; [constructor|].
    rewrite andb_true_iff. intros [Hc Hs].
    change (String c s) with (String c "" ++ s).
    constructor; [now constructor | auto].
Qed.

Lemma matches_plus_digit (s : string) :
  matches (Plus Digit) s <-> digit_run s.
Proof.
  unfold Plus, digit_run. split.
  - intros H. apply cat_inv in H as [s1 [s2 [-> [H1 H2]]]].
    apply digit_inv in H1 as [c [-> Hc]]. apply matches_star_digit in H2. simpl.
    split; [discriminate | now rewrite Hc].
  - intros [Hne H]. destruct s as [|c s]; [congruence|].
    simpl in H. apply andb_true_iff in H as [Hc Hs].
    change (String c s) with (String c "" ++ s).
    constructor; [now constructor | now apply matches_star_digit].
Qed.

Lemma search_letter_pattern (letter pn : string) :
  search (letter_pattern letter) pn = true <-> letter_in_pattern letter pn.
Proof.
  rewrite search_spec. unfold letter_in_pattern, letter_pattern. split.
  - intros [pre [m [post [-> H]]]].
    apply cat_inv in H as [d1 [m' [-> [H1 H]]]].
    apply cat_inv in H as [l [d2 [-> [Hl H2]]]].
    apply matches_str in Hl as ->.
    apply matches_plus_digit in H1, H2.
    exists pre, d1, d2, post. rewrite !append_assoc. auto.
  - intros [pre [d1 [d2 [post [-> [H1 H2]]]]]].
    exists pre, (d1 ++ letter ++ d2), post. rewrite !append_assoc. split; [reflexivity|].
    constructor; [now apply matches_plus_digit|].
    constructor; [now apply matches_str | now apply matches_plus_digit].
Qed.

Lemma matches_variant_letter (s : string) :
  matches (Alt (OneOf "XRN") (Str "SC")) s <-> In s variant_letters.
Proof.
  split.
  - intros H. apply alt_inv in H as [H|H].
    + apply oneof_inv in H as [c [-> Hc]]. simpl in Hc.
      repeat (apply orb_true_iff in Hc as [Hc|Hc];
              [apply Ascii.eqb_eq in Hc; subst; simpl; tauto|]).
      discriminate.
    + apply matches_str in H as ->. simpl. tauto.
  - unfold variant_letters. cbn [In]. intros [<-|[<-|[<-|[<-|[]]]]].
    + apply m_alt_l. now constructor.
    + apply m_alt_l. now constructor.
    + apply m_alt_l. now constructor.
    + apply m_alt_r. now apply matches_str.
Qed.

(** The pattern of the source finds exactly the pattern of the
    specification. *)
Lemma search_part_number_pattern (pn : string) :
  search Utils.part_number_pattern pn = true <-> has_variant_pattern pn.
Proof.
  rewrite search_spec. unfold has_variant_pattern, letter_in_pattern,
    Utils.part_number_pattern. split.
  - intros [pre [m [post [-> H]]]].
    apply cat_inv in H as [d1 [m' [-> [H1 H]]]].
    apply cat_inv in H as [l [d2 [-> [Hl H2]]]].
    apply matches_variant_letter in Hl.
    apply matches_plus_digit in H1, H2.
    exists l. split; [assumption|].
    exists pre, d1, d2, post. rewrite !append_assoc. auto.
  - intros [l [Hl [pre [d1 [d2 [post [-> [H1 H2]]]]]]]].
    exists pre, (d1 ++ l ++ d2), post. rewrite !append_assoc. split; [reflexivity|].
    constructor; [now apply matches_plus_digit|].
    constructor; [now apply matches_variant_letter | now apply matches_plus_digit].
Qed.

Lemma search_str (t s : string) : search (Str t) s = true <-> occurs t s.
Proof.
  rewrite search_spec. unfold occurs. split.
  - intros [pre [m [post [-> H]]]]. apply matches_str in H as ->. eauto.
  - intros [pre [post ->]]. exists pre, t, post. split; [reflexivity | now apply matches_str].
Qed.

(** [first_letter] over the patterns of literal names returns the first
    name that occurs. *)
Lemma first_letter_spec (names : list string) (pn l : string) :
  Utils.first_letter (map (fun n => (n, Str n)) names) pn = Some l
  <-> first_occurring names pn l.
Proof.
  unfold first_occurring. induction names as [|n names IH]; simpl.
  - split; [discriminate|]. intros [[|b before] [after [E _]]]; discriminate.
  - destruct (search (Str n) pn) eqn:S.
    + apply search_str in S. split.
      * intros [= <-]. exists [], names. simpl. auto.
      * intros [[|b before] [after [E [Hb Hl]]]]; simpl in E; injection E as -> ->.
        -- reflexivity.
        -- exfalso. apply (Hb b); [now left | assumption].
    + assert (Hn : ~ occurs n pn).
      { intros H. apply search_str in H. congruence. }
      rewrite IH. split.
      * intros [before [after [-> [Hb Hl]]]]. exists (n :: before), after.
        simpl. split; [reflexivity|]. split; [|assumption].
        intros x [<-|Hx]; auto.
      * intros [[|b before] [after [E [Hb Hl]]]]; simpl in E; injection E as -> ->.
        -- contradiction.
        -- exists before, after. split; [reflexivity|]. split; [|assumption].
           intros x Hx. apply Hb. now right.
Qed.

Lemma first_letter_none (names : list string) (pn : string) :
  Utils.first_letter (map (fun n => (n, Str n)) names) pn = None
  <-> forall n, In n names -> ~ occurs n pn.
Proof.
  induction names as [|n names IH]; simpl.
  - split; [intros _ n [] | reflexivity].
  - destruct (search (Str n) pn) eqn:S.
    + apply search_str in S. split; [discriminate|].
      intros H. exfalso. apply (H n); auto.
    + rewrite IH. split.
      * intros H x [<-|Hx]; [|auto]. intros Hn. apply search_str in Hn. congruence.
      * intros H x Hx. apply H. now right.
Qed.

(** A letter that stands in the pattern occurs in the identifier. *)
Lemma letter_in_pattern_occurs (l pn : string) :
  letter_in_pattern l pn -> occurs l pn.
Proof.
  intros [pre [d1 [d2 [post [-> _]]]]].
  exists (pre ++ d1), (d2 ++ post). now rewrite !append_assoc.
Qed.

(** C1 (as corrected).  [validate_part_number] returns a letter exactly
    when the identifier holds the pattern "digits, one of X R N SC, digits";
    the letter returned is the first of R, X, N, SC, in this order, that
    occurs anywhere in the identifier.  Without the pattern the result is
    [None]. *)
Theorem validate_part_number_first_occurring (part_number : string) :
  (forall l, Utils.validate_part_number part_number = Some l
             <-> has_variant_pattern part_number
                 /\ first_occurring ["R"; "X"; "N"; "SC"] part_number l)
  /\ (Utils.validate_part_number part_number = None
      <-> ~ has_variant_pattern part_number).
Proof.
  unfold Utils.validate_part_number.
  change Utils.letter_patterns
    with (map (fun n => (n, Str n)) ["R"; "X"; "N"; "SC"]).
  destruct (search Utils.part_number_pattern part_number) eqn:S.
  - apply search_part_number_pattern in S. split.
    + intros l. rewrite first_letter_spec. tauto.
    + rewrite first_letter_none. split; [|tauto].
      intros H. exfalso. destruct S as [l [Hl Hp]].
      apply (H l); [|now apply letter_in_pattern_occurs].
      unfold variant_letters in Hl. simpl in *. tauto.
  - assert (Hn : ~ has_variant_pattern part_number).
    { intros H. apply search_part_number_pattern in H. congruence. }
    split; [|tauto]. intros l. split; [discriminate | tauto].
Qed.

(** C1 (as stated) fails: in [R1X2] the pattern holds the letter X only,
    and the letter returned is R. *)
Lemma validate_part_number_R1X2 :
  Utils.validate_part_number "R1X2" = Some "R"
  /\ letter_in_pattern "X" "R1X2"
  /\ ~ letter_in_pattern "R" "R1X2".
Proof.
  split; [reflexivity|]. split.
  - apply search_letter_pattern. reflexivity.
  - intros H. apply search_letter_pattern in H. discriminate H.
Qed.

End VariantLetter.

(** ** Counting names in the list of missing elements *)

Section Counting.

Import Spec.

Lemma count_In (x : string) (l : list string) : In x l <-> (0 < count x l)%nat.
Proof. unfold count. apply count_occ_In. Qed.

Lemma count_not_In (x : string) (l : list string) : ~ In x l <-> count x l = 0%nat.
Proof. unfold count. apply count_occ_not_In. Qed.

Lemma count_app (x : string) (l1 l2 : list string) :
  count x (l1 ++ l2) = (count x l1 + count x l2)%nat.
Proof. unfold count. apply count_occ_app. Qed.

Lemma count_snoc_other (x y : string) (l : list string) :
  x <> y -> count x (l ++ [y]) = count x l.
Proof.
  intros H. rewrite count_app. unfold count at 2. simpl.
  destruct (string_dec y x); [congruence | lia].
Qed.

Lemma count_snoc_same (x : string) (l : list string) :
  count x (l ++ [x]) = S (count x l).
Proof.
  rewrite count_app. unfold count at 2. simpl.
  destruct (string_dec x x); [lia | congruence].
Qed.

Lemma count_remove_same (x : string) (l : list string) :
  count x (Py.remove x l) = pred (count x l).
Proof.
  unfold count. induction l as [|z l IH]; simpl; [reflexivity|].
  destruct (String.eqb_spec x z) as [->|Hne].
  - destruct (string_dec z z); [reflexivity | congruence].
  - simpl. destruct (string_dec z x); [congruence | assumption].
Qed.

Lemma count_remove_other (x y : string) (l : list string) :
  x <> y -> count x (Py.remove y l) = count x l.
Proof.
  intros Hxy. unfold count. induction l as [|z l IH]; simpl; [reflexivity|].
  destruct (String.eqb_spec y z) as [->|Hne].
  - destruct (string_dec z x); [congruence | reflexivity].
  - simpl. destruct (string_dec z x); now rewrite IH.
Qed.

Lemma count_remove_le (x y : string) (l : list string) :
  (count x (Py.remove y l) <= count x l)%nat.
Proof.
  destruct (string_dec x y) as [->|Hne].
  - rewrite count_remove_same. lia.
  - rewrite count_remove_other by assumption. lia.
Qed.

Lemma count_replace_first (x a b : string) (l : list string) :
  x <> a -> x <> b -> count x (Py.replace_first a b l) = count x l.
Proof.
  intros Ha Hb. unfold count. induction l as [|z l IH]; simpl; [reflexivity|].
  destruct (String.eqb_spec a z) as [->|Hne]; simpl.
  - destruct (string_dec b x), (string_dec z x); congruence.
  - destruct (string_dec z x); now rewrite IH.
Qed.

Lemma count_filter_le (x : string) (f : string -> bool) (l : list string) :
  (count x (filter f l) <= count x l)%nat.
Proof.
  unfold count. induction l as [|z l IH]; simpl; [lia|].
  destruct (f z); simpl; destruct (string_dec z x); lia.
Qed.

Lemma count_NoDup (x : string) (l : list string) :
  NoDup l -> (count x l <= 1)%nat.
Proof. unfold count. intros H. now apply NoDup_count_occ. Qed.

Lemma count_filter_In (x : string) (f : string -> bool) (l : list string) :
  f x = true -> count x (filter f l) = count x l.
Proof.
  intros Hf. unfold count. induction l as [|z l IH]; simpl; [reflexivity|].
  destruct (string_dec z x) as [->|Hne].
  - rewrite Hf. simpl. destruct (string_dec x x); [now rewrite IH | congruence].
  - destruct (f z); simpl; [|assumption].
    destruct (string_dec z x); [congruence | assumption].
Qed.

End Counting.

(** ** The corrections of the list of missing elements *)

Section Corrections.

Import Spec Fusion3.

Lemma initialized_inv (self : t) :
  initialized self ->
  (element_name self = "Bracket"
   /\ type_in (type_dropdown self) [FLR_25_BRACKET; FLC_25_BRACKET] = true
   /\ bracket_in_title self = true)
  \/ (element_name self = "Cover"
      /\ type_dropdown self = FLC_25_COVER /\ cover_in_title self = true)
  \/ (element_name self = "Radar"
      /\ type_in (type_dropdown self) [FLR_25_BRACKET; FLC_25_BRACKET; FLC_25_COVER] = false
      /\ radar_in_title self = true)
  \/ (element_name self = "Camera"
      /\ type_in (type_dropdown self) [FLR_25_BRACKET; FLC_25_BRACKET; FLC_25_COVER] = false
      /\ radar_in_title self = false /\ camera_in_title self = true).
Proof.
  intros [is_am [pn [ti [le [b [r [ty H]]]]]]].
  unfold initialize_main_params in H.
  destruct (Py.str_in "radar" (Py.lower ti)) eqn:Hr,
           (Py.str_in "camera" (Py.lower ti)) eqn:Hc,
           (Py.str_in "bracket assembly" (Py.lower ti)) eqn:Hb,
           (Py.str_in "cover" (Py.lower ti)) eqn:Hv;
    destruct ty; simpl in H; try discriminate H; injection H as <-; simpl; tauto.
Qed.

Lemma count_first_pass_le (x : string) (required : list string) (titles : list bom_row) :
  (count x (first_pass required titles) <= count x required)%nat.
Proof. apply count_filter_le. Qed.

Lemma count_dataset_inference_le (x : string) (titles : list bom_row) (m : list string) :
  (count x (dataset_inference titles m) <= count x m)%nat.
Proof.
  unfold dataset_inference.
  destruct (Py.mem "Dataset" m); [|lia].
  destruct (_ && _); [apply count_remove_le | lia].
Qed.

Lemma count_dataset_inference_other (x : string) (titles : list bom_row) (m : list string) :
  x <> "Dataset" -> count x (dataset_inference titles m) = count x m.
Proof.
  intros H. unfold dataset_inference.
  destruct (Py.mem "Dataset" m); [|reflexivity].
  destruct (_ && _); [now apply count_remove_other | reflexivity].
Qed.

Lemma count_boot_other (x : string) (found : bool) (m : list string) :
  x <> "Boot Software" -> count x (boot_software_check found m) = count x m.
Proof.
  intros H. unfold boot_software_check. destruct found; simpl.
  - destruct (Py.mem "Boot Software" m); [now apply count_remove_other | reflexivity].
  - now apply count_snoc_other.
Qed.

Lemma count_software_other (x : string) (p : Regex.re) (titles : list bom_row)
    (m : list string) :
  x <> "Software" -> count x (software_version_check p titles m) = count x m.
Proof.
  intros H. unfold software_version_check.
  destruct (_ && _); [now apply count_snoc_other | reflexivity].
Qed.

Lemma count_can_generic (found : bool) (generic qualified : string) (m : list string) :
  generic <> qualified ->
  count generic (can_termination_check found generic qualified m) = pred (count generic m).
Proof.
  intros H. unfold can_termination_check.
  assert (E : count generic (if Py.mem generic m then Py.remove generic m else m)
              = pred (count generic m)).
  { destruct (Py.mem generic m) eqn:M; [apply count_remove_same|].
    apply mem_false, count_not_In in M. now rewrite M. }
  destruct found; simpl; [assumption|].
  now rewrite count_snoc_other.
Qed.

Lemma count_can_other (x : string) (found : bool) (generic qualified : string)
    (m : list string) :
  x <> generic -> x <> qualified ->
  count x (can_termination_check found generic qualified m) = count x m.
Proof.
  intros Hg Hq. unfold can_termination_check.
  assert (E : count x (if Py.mem generic m then Py.remove generic m else m) = count x m).
  { destruct (Py.mem generic m); [now apply count_remove_other | reflexivity]. }
  destruct found; simpl; [assumption|].
  now rewrite count_snoc_other.
Qed.

Lemma count_can_qualified (found : bool) (generic qualified : string) (m : list string) :
  generic <> qualified ->
  count qualified (can_termination_check found generic qualified m)
  = ((if found then 0 else 1) + count qualified m)%nat.
Proof.
  intros H. unfold can_termination_check.
  assert (E : count qualified (if Py.mem generic m then Py.remove generic m else m)
              = count qualified m).
  { destruct (Py.mem generic m); [|reflexivity].
    apply count_remove_other. congruence. }
  destruct found; simpl; [assumption|].
  rewrite count_snoc_same. now rewrite E.
Qed.

(** The camera block leaves the count of a name that it does not write. *)
Lemma count_camera_other (x : string) (self : t) (titles : list bom_row) (m : list string) :
  x <> "Camera" -> x <> "Camera (K188332H000)" -> x <> "Dataset" ->
  x <> "Boot Software" -> x <> "Software" ->
  count x (camera_corrections self titles m) = count x m.
Proof.
  intros H1 H2 H3 H4 H5. unfold camera_corrections.
  destruct (_ && _); [|reflexivity].
  rewrite count_software_other, count_boot_other, count_dataset_inference_other
    by assumption.
  destruct (negb _); [|reflexivity].
  destruct (Py.mem "Camera" m).
  - now apply count_replace_first.
  - now apply count_snoc_other.
Qed.

Lemma count_bracket_other (x : string) (self : t) (titles : list bom_row) (m : list string) :
  x <> "Bracket" -> count x (bracket_corrections self titles m) = count x m.
Proof.
  intros H. unfold bracket_corrections.
  destruct (_ && _); [|reflexivity].
  destruct (_ && _); [now apply count_snoc_other | reflexivity].
Qed.

(** No block adds the name [Dataset]. *)
Lemma count_dataset_radar_le (self : t) (titles : list bom_row) (m : list string) :
  (count "Dataset" (radar_corrections self titles m) <= count "Dataset" m)%nat.
Proof.
  unfold radar_corrections. destruct (_ && _); [|lia].
  destruct (chbx_resistor self);
    rewrite count_can_other, count_software_other, count_boot_other by discriminate;
    apply count_dataset_inference_le.
Qed.

Lemma count_dataset_camera_le (self : t) (titles : list bom_row) (m : list string) :
  (count "Dataset" (camera_corrections self titles m) <= count "Dataset" m)%nat.
Proof.
  unfold camera_corrections. destruct (_ && _); [|lia].
  rewrite count_software_other, count_boot_other by discriminate.
  etransitivity; [apply count_dataset_inference_le|].
  destruct (negb _); [|lia].
  destruct (Py.mem "Camera" m).
  - rewrite count_replace_first by discriminate. lia.
  - rewrite count_snoc_other by discriminate. lia.
Qed.

End Corrections.

(** ** The CAN termination names *)

Section CanTermination.

Import Spec Fusion3.

Lemma required_radar (self : t) :
  In (letter_identifier self) ["R"; "SC"; "X"] ->
  get_required_elements self "Radar"
  = (["Dataset"; "Software"; "Boot Software"]
     ++ (if String.eqb (letter_identifier self) "R" && chbx_bracket self
         then ["Screw"; "Bracket"; "Nut"] else [])
     ++ [if chbx_resistor self then "with CAN termination" else "wo CAN termination"])%list.
Proof.
  intros H. unfold get_required_elements.
  destruct H as [E|[E|[E|[]]]]; rewrite <- E; cbn;
    destruct (chbx_resistor self), (chbx_bracket self); reflexivity.
Qed.

Lemma missing_elements_get_bom (self : t) (titles : list bom_row) (rep : bom_report)
    (m : list string) :
  get_bom_in_content self titles = Ok rep -> msg rep = Missing m ->
  m = missing_elements self titles.
Proof.
  unfold get_bom_in_content. intros H Hm.
  destruct (tabulate self _ titles); cbn [bind] in H; [|discriminate H].
  destruct (missing_elements self titles) as [|x l].
  - destruct (Py.mem _ _); injection H as <-; simpl in Hm; discriminate Hm.
  - injection H as <-. simpl in Hm. now injection Hm as <-.
Qed.

(** C10.  For a radar with the letter R, SC or X the required list holds
    the generic name that the resistor option selects and never the other
    one; the corrected list of missing elements, and so the list that a
    report names, holds neither generic name; when no row has the radar
    title, the description keyword and the reference identifier, the list
    holds the entry that names the identifier. *)
Theorem can_termination_generic_never_missing (self : t) (titles : list bom_row) :
  initialized self ->
  element_name self = "Radar" ->
  In (letter_identifier self) ["R"; "SC"; "X"] ->
  let required := get_required_elements self (element_name self) in
  let missing := missing_elements self titles in
  In (if chbx_resistor self then "with CAN termination" else "wo CAN termination")
     required
  /\ ~ In (if chbx_resistor self then "wo CAN termination" else "with CAN termination")
          required
  /\ ~ In "with CAN termination" missing
  /\ ~ In "wo CAN termination" missing
  /\ (existsb (fun r =>
                 Py.str_in "radar" (Py.lower (title r))
                 && (if chbx_resistor self
                     then Py.str_in "with can termination" (Py.lower (description r))
                          && String.eqb (Py.upper (id_ r)) "K218450H002"
                     else Py.str_in "wo can termination" (Py.lower (description r))
                          && String.eqb (Py.upper (id_ r)) "K188333H002"))
              titles = false ->
      In (if chbx_resistor self
          then "Radar with CAN termination (K218450H002)"
          else "Radar without CAN termination (K188333H002)") missing)
  /\ (forall rep m, get_bom_in_content self titles = Ok rep -> msg rep = Missing m ->
        ~ In "with CAN termination" m /\ ~ In "wo CAN termination" m).
Proof.
  intros Hinit Hname Hletter required missing.
  assert (Hradar : radar_in_title self = true).
  { destruct (initialized_inv self Hinit) as [[E _]|[[E _]|[[_ [_ E]]|[E _]]]];
      try assumption; rewrite Hname in E; discriminate E. }
  assert (Hreq : required
                 = (["Dataset"; "Software"; "Boot Software"]
                    ++ (if String.eqb (letter_identifier self) "R" && chbx_bracket self
                        then ["Screw"; "Bracket"; "Nut"] else [])
                    ++ [if chbx_resistor self
                        then "with CAN termination" else "wo CAN termination"])%list).
  { unfold required. rewrite Hname. now apply required_radar. }
  assert (Hnodup : NoDup required).
  { rewrite Hreq. destruct (_ && _), (chbx_resistor self); simpl;
      repeat constructor; simpl; intuition discriminate. }
  assert (Hother : ~ In (if chbx_resistor self
                         then "wo CAN termination" else "with CAN termination") required).
  { rewrite Hreq. destruct (_ && _), (chbx_resistor self); simpl; intuition discriminate. }
  assert (Hqual : forall q, q = "Radar with CAN termination (K218450H002)"
                            \/ q = "Radar without CAN termination (K188333H002)" ->
                            ~ In q required).
  { intros q Hq. rewrite Hreq.
    destruct Hq as [-> | ->]; destruct (_ && _), (chbx_resistor self); simpl;
      intuition discriminate. }
  assert (HX : letter_R_SC_X self = true) by (now apply mem_In).
  assert (Hmiss : missing
                  = bracket_corrections self titles
                      (camera_corrections self titles
                         (radar_corrections self titles (first_pass required titles))))
    by reflexivity.
  assert (Hgen : forall g, g = "with CAN termination" \/ g = "wo CAN termination" ->
                           count g missing = 0%nat).
  { intros g Hg. rewrite Hmiss.
    rewrite count_bracket_other, count_camera_other
      by (destruct Hg as [-> | ->]; discriminate).
    unfold radar_corrections. rewrite Hradar, HX. cbn [andb].
    pose proof (count_first_pass_le g required titles) as Hfp.
    pose proof (count_dataset_inference_le g titles (first_pass required titles)) as Hds.
    pose proof (count_NoDup g required Hnodup) as H1.
    destruct (chbx_resistor self) eqn:R; destruct Hg as [-> | ->];
      first [ rewrite count_can_generic by discriminate
            | rewrite count_can_other by discriminate ];
      rewrite count_software_other, count_boot_other by discriminate;
      try lia;
      apply count_not_In in Hother; lia. }
  split; [|split; [exact Hother|split; [|split; [|split]]]].
  - rewrite Hreq. rewrite !in_app_iff. right. right. now left.
  - apply count_not_In, Hgen. now left.
  - apply count_not_In, Hgen. now right.
  - intros Hnone. apply count_In. rewrite Hmiss.
    rewrite count_bracket_other, count_camera_other
      by (destruct (chbx_resistor self); discriminate).
    unfold radar_corrections. rewrite Hradar, HX. cbn [andb].
    revert Hnone. destruct (chbx_resistor self) eqn:R; intros Hnone;
      rewrite count_can_qualified by discriminate;
      rewrite (existsb_ext _ _ _ (fun r => eq_sym (andb_assoc _ _ _))), Hnone;
      simpl; lia.
  - intros rep m Hrep Hm.
    rewrite (missing_elements_get_bom self titles rep m Hrep Hm).
    split; apply count_not_In, Hgen; [now left | now right].
Qed.

End CanTermination.

(** ** The inference of the dataset *)

Section Dataset.

Import Spec Fusion3.

Lemma required_NoDup (self : t) (e : string) : NoDup (get_required_elements self e).
Proof.
  unfold get_required_elements.
  set (l := letter_identifier self).
  destruct (String.eqb e "Cover" && _); [repeat constructor; simpl; tauto|].
  destruct (String.eqb e "Bracket" && DropdownType_eqb _ FLC_25_BRACKET);
    [repeat constructor; simpl; intuition discriminate|].
  destruct (String.eqb e "Bracket" && _);
    [destruct (is_am_bracket self); repeat constructor; simpl; intuition discriminate|].
  destruct (String.eqb e "Camera"), (String.eqb e "Radar"), (Py.mem l ["X"; "SC"]),
    (String.eqb l "X"), (String.eqb l "R"), (String.eqb l "SC"),
    (chbx_resistor self), (chbx_bracket self);
    repeat constructor; simpl; intuition discriminate.
Qed.

Lemma filter_length_le {A : Type} (f g : A -> bool) (l : list A) :
  (forall a, f a = true -> g a = true) ->
  (List.length (filter f l) <= List.length (filter g l))%nat.
Proof.
  intros H. induction l as [|a l IH]; simpl; [lia|].
  destruct (f a) eqn:F.
  - rewrite (H a F). simpl. lia.
  - destruct (g a); simpl; lia.
Qed.

Lemma software_title_is_software (r : bom_row) :
  Py.str_in "Software" (title r) = true -> is_software r = true.
Proof. intros H. apply str_in_lower in H. exact H. Qed.

Lemma dataset_inference_removes (titles : list bom_row) (m : list string) :
  bundled_dataset titles ->
  count "Dataset" (dataset_inference titles m) = pred (count "Dataset" m).
Proof.
  intros [Hcount Hdesc]. unfold dataset_inference.
  destruct (Py.mem "Dataset" m) eqn:M.
  - assert (C : (2 <=? List.length (filter is_software titles))%nat = true).
    { apply Nat.leb_le. etransitivity; [exact Hcount|].
      apply filter_length_le. intros r. apply software_title_is_software. }
    assert (D : existsb (fun r => Py.str_in "DATASET" (Py.upper (description r))
                                  || Py.str_in "DATA SET" (Py.upper (description r)))
                        (filter is_software titles) = true).
    { apply existsb_exists in Hdesc as [r [Hr Hd]].
      apply andb_true_iff in Hd as [Hs Hd].
      apply existsb_exists. exists r. split; [|exact Hd].
      apply filter_In. split; [exact Hr | now apply software_title_is_software]. }
    rewrite C, D. apply count_remove_same.
  - apply mem_false, count_not_In in M. now rewrite M.
Qed.

(** Without the radar and the camera block the profile does not require a
    dataset. *)
Lemma dataset_not_required (self : t) :
  initialized self ->
  radar_in_title self && letter_R_SC_X self = false ->
  camera_in_title self && letter_R_SC_X self = false ->
  ~ In "Dataset" (get_required_elements self (element_name self)).
Proof.
  intros Hinit Hr Hc.
  unfold letter_R_SC_X, Py.mem in Hr, Hc. cbn [existsb] in Hr, Hc.
  destruct (initialized_inv self Hinit)
    as [[E [Ht _]]|[[E [Ht _]]|[[E [Ht Hrt]]|[E [Ht [_ Hct]]]]]];
    rewrite E; unfold get_required_elements; unfold Py.mem; cbn [existsb].
  - destruct (type_dropdown self); try discriminate Ht; cbn;
      destruct (is_am_bracket self); simpl; intuition discriminate.
  - rewrite Ht. cbn. intuition discriminate.
  - rewrite Hrt in Hr. cbn [andb] in Hr.
    destruct (String.eqb (letter_identifier self) "R"),
             (String.eqb (letter_identifier self) "SC"),
             (String.eqb (letter_identifier self) "X"); try discriminate Hr.
    destruct (type_dropdown self); try discriminate Ht; cbn; tauto.
  - rewrite Hct in Hc. cbn [andb] in Hc.
    destruct (String.eqb (letter_identifier self) "R"),
             (String.eqb (letter_identifier self) "SC"),
             (String.eqb (letter_identifier self) "X"); try discriminate Hc.
    destruct (type_dropdown self); try discriminate Ht; cbn; tauto.
Qed.

(** C7.  When two rows at least have a title that contains "Software" and
    the description of one of them contains "DATASET" or "DATA SET" in any
    letter case, and no title contains "Dataset": a required "Dataset" is
    missing after the first pass, and the corrected list of missing elements
    does not hold it. *)
Theorem dataset_requirement_satisfied (self : t) (titles : list bom_row) :
  initialized self ->
  bundled_dataset titles ->
  forallb (fun r => negb (Py.str_in "Dataset" (title r))) titles = true ->
  let required := get_required_elements self (element_name self) in
  (In "Dataset" required -> In "Dataset" (first_pass required titles))
  /\ ~ In "Dataset" (missing_elements self titles).
Proof.
  intros Hinit Hb Hno required. split.
  - intros Hreq. unfold first_pass. apply filter_In. split; [exact Hreq|].
    apply negb_true_iff. apply not_true_is_false. intros H.
    apply existsb_exists in H as [r [Hr Hd]].
    rewrite forallb_forall in Hno. specialize (Hno r Hr).
    rewrite Hd in Hno. discriminate Hno.
  - apply count_not_In. unfold missing_elements. fold required.
    rewrite count_bracket_other by discriminate.
    pose proof (count_first_pass_le "Dataset" required titles) as Hfp.
    pose proof (count_NoDup "Dataset" required (required_NoDup self _)) as Hnd.
    destruct (radar_in_title self && letter_R_SC_X self) eqn:R.
    + pose proof (count_dataset_camera_le self titles
                    (radar_corrections self titles (first_pass required titles))) as Hc.
      assert (Hr : count "Dataset" (radar_corrections self titles (first_pass required titles))
                   = 0%nat).
      { unfold radar_corrections. rewrite R.
        destruct (chbx_resistor self);
          rewrite count_can_other, count_software_other, count_boot_other by discriminate;
          rewrite dataset_inference_removes by assumption; lia. }
      lia.
    + assert (Hr : radar_corrections self titles (first_pass required titles)
                   = first_pass required titles).
      { unfold radar_corrections. now rewrite R. }
      rewrite Hr.
      destruct (camera_in_title self && letter_R_SC_X self) eqn:C.
      * unfold camera_corrections. rewrite C.
        rewrite count_software_other, count_boot_other by discriminate.
        rewrite dataset_inference_removes by assumption.
        destruct (negb _).
        -- destruct (Py.mem "Camera" _).
           ++ rewrite count_replace_first by discriminate. lia.
           ++ rewrite count_snoc_other by discriminate. lia.
        -- lia.
      * unfold camera_corrections. rewrite C.
        pose proof (dataset_not_required self Hinit R C) as Hn.
        apply count_not_In in Hn. fold required in Hn. lia.
Qed.

End Dataset.

(** ** Quantities *)

Section Quantities.

Import Spec Fusion3.

Lemma is_ok_tabulate_element (self : t) (element : string) (expected_value : Z)
    (titles : list bom_row) :
  is_ok (tabulate_element self element expected_value titles) = quantities_parse titles.
Proof.
  induction titles as [|r rest IH]; simpl; [reflexivity|].
  destruct (PyFloat.int_float (quantity r)); simpl; [|reflexivity].
  rewrite <- IH. destruct (tabulate_element self element expected_value rest); reflexivity.
Qed.

Lemma is_ok_tabulate_required (self : t) (required : list string) (titles : list bom_row) :
  is_ok (tabulate_required self required titles)
  = match required with [] => true | _ :: _ => quantities_parse titles end.
Proof.
  induction required as [|e rest IH]; [reflexivity|].
  cbn [tabulate_required].
  pose proof (is_ok_tabulate_element self e
                (if Py.mem e ["Nut"; "Screw"] then 3%Z else 1%Z) titles) as He.
  destruct (tabulate_element self e _ titles); simpl in He |- *; [|exact He].
  destruct (tabulate_required self rest titles); simpl in IH |- *; [exact He|].
  destruct rest; [discriminate IH | exact IH].
Qed.

Lemma is_ok_tabulate_other_can (required : list string) (titles : list bom_row) :
  quantities_parse titles = true ->
  is_ok (tabulate_other_can required titles) = true.
Proof.
  induction titles as [|r rest IH]; simpl; [reflexivity|].
  rewrite andb_true_iff. intros [Hr Hrest]. specialize (IH Hrest).
  destruct (_ || _); [|exact IH].
  destruct (PyFloat.int_float (quantity r)); [|discriminate Hr]. simpl.
  destruct (tabulate_other_can required rest); [reflexivity | discriminate IH].
Qed.

Lemma is_ok_tabulate_first_screw (titles : list bom_row) :
  quantities_parse titles = true ->
  is_ok (tabulate_first_screw titles) = true.
Proof.
  induction titles as [|r rest IH]; simpl; [reflexivity|].
  rewrite andb_true_iff. intros [Hr Hrest].
  destruct (Py.str_in "screw" _); [|auto].
  destruct (PyFloat.int_float (quantity r)); [reflexivity | discriminate Hr].
Qed.

Lemma is_ok_get_bom (self : t) (titles : list bom_row) :
  is_ok (get_bom_in_content self titles)
  = is_ok (tabulate self (get_required_elements self (element_name self)) titles).
Proof.
  unfold get_bom_in_content.
  destruct (tabulate self _ titles); cbn [bind]; [|reflexivity].
  destruct (missing_elements self titles); [|reflexivity].
  destruct (Py.mem _ _); reflexivity.
Qed.

(** C2 (as corrected).  A run returns a report when every quantity
    converts; with one required element at least, it returns a report only
    then: a quantity that does not convert makes the run raise. *)
Theorem get_bom_returns_iff_quantities_parse (self : t) (titles : list bom_row) :
  (quantities_parse titles = true -> is_ok (get_bom_in_content self titles) = true)
  /\ (get_required_elements self (element_name self) <> [] ->
      is_ok (get_bom_in_content self titles) = quantities_parse titles).
Proof.
  rewrite is_ok_get_bom. unfold tabulate.
  set (required := get_required_elements self (element_name self)).
  pose proof (is_ok_tabulate_required self required titles) as H1.
  split.
  - intros Hq.
    pose proof (is_ok_tabulate_other_can required titles Hq) as H2.
    pose proof (is_ok_tabulate_first_screw titles Hq) as H3.
    destruct (tabulate_required self required titles); simpl in H1 |- *.
    + destruct (tabulate_other_can required titles); [|discriminate H2]. simpl.
      destruct (_ && _); [|reflexivity].
      destruct (tabulate_first_screw titles); [reflexivity | discriminate H3].
    + destruct required; congruence.
  - intros Hne. destruct required as [|e rest]; [congruence|].
    destruct (tabulate_required self (e :: rest) titles); simpl in H1 |- *; [|exact H1].
    symmetry in H1.
    pose proof (is_ok_tabulate_other_can (e :: rest) titles H1) as H2.
    pose proof (is_ok_tabulate_first_screw titles H1) as H3.
    rewrite H1.
    destruct (tabulate_other_can (e :: rest) titles); [|discriminate H2]. simpl.
    destruct (_ && _); [|reflexivity].
    destruct (tabulate_first_screw titles); [reflexivity | discriminate H3].
Qed.

(** The rule at a run whose quantities convert. *)
Lemma get_bom_returns_witness :
  quantities_parse Samples.bom_quantity_2 = true
  /\ get_required_elements Samples.radar_x (element_name Samples.radar_x) <> []
  /\ is_ok (get_bom_in_content Samples.radar_x Samples.bom_quantity_2) = true.
Proof.
  assert (Hq : quantities_parse Samples.bom_quantity_2 = true) by reflexivity.
  split; [exact Hq|]. split; [discriminate|].
  exact (proj1 (get_bom_returns_iff_quantities_parse
                  Samples.radar_x Samples.bom_quantity_2) Hq).
Defined.

(** C2 (as stated) fails: a row whose quantity is "n/a" is not taken as
    quantity zero; the run raises. *)
Lemma unparseable_quantity_raises :
  initialized Samples.radar_x
  /\ PyFloat.int_float (quantity (Samples.r_software "n/a"))
     = Raise (ValueError "could not convert string to float")
  /\ get_bom_in_content Samples.radar_x Samples.bom_bad_quantity
     = Raise (ValueError "could not convert string to float").
Proof.
  split; [|split; reflexivity].
  exists false, "K015123X000", "Radar Sensor", "X", false, false, FLR_25. reflexivity.
Qed.

(** C4 (as corrected).  A row of the table is shown as a mismatch exactly
    when its quantity differs from the expected one.  The report says
    SUCCESSFUL exactly when the corrected list of missing elements is empty
    and the letter is one of R, X, SC, B, Cover; it names the missing
    elements exactly when that list is not empty.  The quantities play no
    part in the verdict. *)
Theorem verdict_ignores_quantities (self : t) (titles : list bom_row) (rep : bom_report) :
  get_bom_in_content self titles = Ok rep ->
  (forall d, highlight_mismatched_values d = Utils.Red <-> Quantity d <> Expected_value d)
  /\ (reported_successful rep = true
      <-> missing_elements self titles = []
          /\ In (letter_identifier self) ["R"; "X"; "SC"; "B"; "Cover"])
  /\ (forall m, msg rep = Missing m <-> m = missing_elements self titles /\ m <> []).
Proof.
  intros H. split; [|split].
  - intros d. unfold highlight_mismatched_values.
    destruct (Z.eqb_spec (Quantity d) (Expected_value d)); simpl;
      split; congruence.
  - unfold get_bom_in_content in H.
    destruct (tabulate self _ titles); cbn [bind] in H; [|discriminate H].
    destruct (missing_elements self titles) as [|x l].
    + destruct (Py.mem _ _) eqn:M; injection H as <-;
        unfold reported_successful; cbn [msg].
      * apply mem_In in M. tauto.
      * apply mem_false in M. split; [discriminate | tauto].
    + injection H as <-. unfold reported_successful; cbn [msg].
      split; [discriminate | intros [E _]; discriminate E].
  - intros m. split.
    + intros Hm. pose proof (missing_elements_get_bom self titles rep m H Hm) as E.
      split; [exact E|]. subst m. unfold get_bom_in_content in H.
      destruct (tabulate self _ titles); cbn [bind] in H; [|discriminate H].
      destruct (missing_elements self titles) as [|x l]; [|discriminate].
      destruct (Py.mem _ _); injection H as <-; discriminate Hm.
    + intros [-> Hne]. unfold get_bom_in_content in H.
      destruct (tabulate self _ titles); cbn [bind] in H; [|discriminate H].
      destruct (missing_elements self titles) as [|x l]; [congruence|].
      now injection H as <-.
Qed.

(** C4 (as stated) fails: nothing is missing, the software row has
    quantity 2 where 1 is expected, and the report says SUCCESSFUL. *)
Lemma successful_despite_mismatch :
  exists rep d,
    get_bom_in_content Samples.radar_x Samples.bom_quantity_2 = Ok rep
    /\ missing_elements Samples.radar_x Samples.bom_quantity_2 = []
    /\ In d (df rep)
    /\ Quantity d = 2%Z /\ Expected_value d = 1%Z
    /\ highlight_mismatched_values d = Utils.Red
    /\ reported_successful rep = true.
Proof.
  eexists. eexists. split; [reflexivity|]. split; [reflexivity|].
  split; [right; left; reflexivity|]. repeat split.
Qed.

(** The rule at the run with the quantity 2. *)
Lemma verdict_ignores_quantities_witness :
  exists rep,
    get_bom_in_content Samples.radar_x Samples.bom_quantity_2 = Ok rep
    /\ (reported_successful rep = true
        <-> missing_elements Samples.radar_x Samples.bom_quantity_2 = []
            /\ In (letter_identifier Samples.radar_x) ["R"; "X"; "SC"; "B"; "Cover"]).
Proof.
  eexists. split; [reflexivity|].
  exact (proj1 (proj2 (verdict_ignores_quantities
                         Samples.radar_x Samples.bom_quantity_2 _ eq_refl))).
Defined.

End Quantities.

(** ** The list of missing elements names a requirement once *)

Section BootSoftware.

Import Spec Fusion3.

(** C3 fails on the code.  The boot software is absent: the first pass
    puts "Boot Software" in the list and the correction appends it again. *)
Theorem boot_software_listed_twice :
  initialized Samples.radar_x
  /\ missing_elements Samples.radar_x Samples.bom_no_boot
     = ["Boot Software"; "Boot Software"]
  /\ count "Boot Software" (missing_elements Samples.radar_x Samples.bom_no_boot) = 2%nat
  /\ get_bom_in_content Samples.radar_x Samples.bom_no_boot
     = Ok {| msg := Missing ["Boot Software"; "Boot Software"];
             df := [mk_data Samples.r_dataset 1 1;
                    mk_data (Samples.r_software "1") 1 1;
                    mk_data Samples.r_radar 1 1] |}.
Proof.
  split; [|repeat split].
  exists false, "K015123X000", "Radar Sensor", "X", false, false, FLR_25. reflexivity.
Qed.

(** The other appends of the corrections test the list first: a second
    "Software" is never written. *)
Lemma software_version_check_guarded (p : Regex.re) (titles : list bom_row)
    (m : list string) :
  (count "Software" m <= 1 -> count "Software" (software_version_check p titles m) <= 1)%nat.
Proof.
  unfold software_version_check. intros H.
  destruct (negb _ && negb (Py.mem "Software" m)) eqn:E; [|exact H].
  apply andb_true_iff in E as [_ E]. apply negb_true_iff in E.
  apply mem_false, count_not_In in E. rewrite count_snoc_same. lia.
Qed.

(** The duplicate is systematic: for a radar with the letter R, SC or X,
    whenever no title contains "Boot Software" and no software row has a
    boot description, the name stands twice in the list. *)
Lemma boot_software_twice_when_absent (self : t) (titles : list bom_row) :
  initialized self ->
  element_name self = "Radar" ->
  camera_in_title self = false ->
  In (letter_identifier self) ["R"; "SC"; "X"] ->
  existsb (fun r => Py.str_in "Boot Software" (title r)) titles = false ->
  existsb (fun r => is_software r
                    && Py.str_in "boot software" (Py.lower (description r)))
          titles = false ->
  count "Boot Software" (missing_elements self titles) = 2%nat.
Proof.
  intros Hinit Hname Hcam Hletter Htitle Hboot.
  assert (Hradar : radar_in_title self = true).
  { destruct (initialized_inv self Hinit) as [[E _]|[[E _]|[[_ [_ E]]|[E _]]]];
      try assumption; rewrite Hname in E; discriminate E. }
  assert (HX : letter_R_SC_X self = true) by (now apply mem_In).
  unfold missing_elements. rewrite Hname.
  rewrite count_bracket_other by discriminate.
  unfold camera_corrections. rewrite Hcam. cbn [andb].
  unfold radar_corrections. rewrite Hradar, HX, Hboot. cbn [andb].
  assert (Hfp : count "Boot Software"
                  (first_pass (get_required_elements self "Radar") titles) = 1%nat).
  { unfold first_pass. rewrite count_filter_In by (now rewrite Htitle).
    rewrite (required_radar self Hletter).
    destruct (_ && _), (chbx_resistor self); reflexivity. }
  destruct (chbx_resistor self);
    rewrite count_can_other, count_software_other by discriminate;
    unfold boot_software_check; cbn [negb];
    rewrite count_snoc_same, count_dataset_inference_other by discriminate;
    now rewrite Hfp.
Qed.

End BootSoftware.

(** ** The element kind ([initialize_main_params]) *)

Section Classification.

Import Spec Fusion3.

(** C5 (as corrected).  For a family that is neither a bracket nor the
    cover family the classification succeeds exactly when the title
    contains "radar" or "camera" in any letter case; with "radar" the kind
    is Radar, also when "camera" occurs too, else it is Camera; with neither
    word a [ValueError] is raised. *)
Theorem classification_by_title
    (is_am : bool) (pn title letter : string) (b r : bool) (ty : DropdownType) :
  type_in ty [FLR_25_BRACKET; FLC_25_BRACKET; FLC_25_COVER] = false ->
  let radar := Py.str_in "radar" (Py.lower title) in
  let camera := Py.str_in "camera" (Py.lower title) in
  match initialize_main_params is_am pn title letter b r ty with
  | Ok self =>
      radar || camera = true
      /\ element_name self = (if radar then "Radar" else "Camera")
  | Raise e =>
      radar = false /\ camera = false
      /\ e = ValueError "No specific required element defined for Camera or Radar."
  end.
Proof.
  intros Hty radar camera. unfold initialize_main_params.
  fold radar camera.
  destruct ty; try discriminate Hty; cbn [type_in existsb DropdownType_eqb orb];
    destruct radar, camera; simpl; auto.
Qed.

(** The rule at the title "Front Assembly": the run is refused. *)
Lemma classification_by_title_witness :
  type_in FLR_25 [FLR_25_BRACKET; FLC_25_BRACKET; FLC_25_COVER] = false
  /\ initialize_main_params false "K015123X000" "Front Assembly" "X" false false FLR_25
     = Raise (ValueError "No specific required element defined for Camera or Radar.").
Proof.
  split; [reflexivity|].
  pose proof (classification_by_title false "K015123X000" "Front Assembly" "X"
                false false FLR_25 eq_refl) as H.
  cbv zeta in H.
  destruct (initialize_main_params false "K015123X000" "Front Assembly" "X"
              false false FLR_25) as [self|e].
  - destruct H as [H _]. discriminate H.
  - destruct H as [_ [_ ->]]. reflexivity.
Defined.

(** C5 (as stated) fails: a title with both words resolves, to Radar. *)
Lemma both_keywords_resolve :
  Py.str_in "radar" (Py.lower "Radar Camera Kit") = true
  /\ Py.str_in "camera" (Py.lower "Radar Camera Kit") = true
  /\ exists self,
       initialize_main_params false "K015123X000" "Radar Camera Kit" "X"
         false false FLR_25 = Ok self
       /\ element_name self = "Radar".
Proof.
  split; [reflexivity|]. split; [reflexivity|].
  eexists. split; reflexivity.
Qed.

End Classification.

(** ** Documents *)

Section Documents.

Import Spec Fusion3.

Lemma scan_rows_spec (doc_type : string) (rows : list document) :
  forall (doc_exists : bool) (st : docs_state),
    let '(ex, st') := scan_rows doc_type rows doc_exists st in
    ex = doc_exists || existsb (fun d => String.eqb (document_kind d) doc_type) rows
    /\ missing_docs st' = missing_docs st
    /\ us_missing st'
       = us_missing st
         && negb (String.eqb doc_type "Service Data"
                  && existsb (fun d => String.eqb (document_kind d) doc_type
                                       && names_us_or_en d) rows).
Proof.
  induction rows as [|row rest IH]; intros ex st; cbn [scan_rows existsb].
  - rewrite orb_false_r, andb_false_r, andb_true_r. auto.
  - destruct (String.eqb (document_kind row) doc_type) eqn:K; cbn [andb orb].
    + match goal with |- context [scan_rows doc_type rest true ?s] =>
        specialize (IH true s) end.
      destruct (scan_rows doc_type rest true _) as [ex' st'].
      destruct IH as [-> [-> ->]]. cbn [missing_docs us_missing].
      split; [now rewrite orb_true_r|]. split; [reflexivity|].
      unfold names_us_or_en.
      destruct (String.eqb doc_type "Service Data"); cbn [andb negb].
      * destruct (Py.mem "US" _), (Py.mem "EN" _), (us_missing st);
          cbn [andb orb negb]; try reflexivity;
          destruct (existsb _ rest); reflexivity.
      * now rewrite andb_true_r.
    + specialize (IH ex st).
      destruct (scan_rows doc_type rest ex st) as [ex' st']. exact IH.
Qed.

Lemma check_doc_type_spec (rd : list document) (st : docs_state) (doc_type : string) :
  missing_docs (check_doc_type rd st doc_type)
  = (missing_docs st ++ contribution rd doc_type)%list
  /\ us_missing (check_doc_type rd st doc_type)
     = us_missing st && negb (covers rd doc_type).
Proof.
  unfold check_doc_type, contribution, covers.
  pose proof (scan_rows_spec doc_type rd false st) as H.
  destruct (scan_rows doc_type rd false st) as [ex st'].
  destruct H as [-> [Hm Hu]]. cbn [orb].
  destruct (String.eqb doc_type "Assembly Drawing") eqn:A.
  - destruct (filter _ rd) as [|a l]; cbn [missing_docs us_missing negb].
    + rewrite Hm. auto.
    + rewrite Hm. split; [|exact Hu].
      destruct (negb (existsb has_schedule (a :: l))), (forallb has_schedule (a :: l));
        rewrite <- ?app_assoc; cbn [app]; rewrite ?app_nil_r; reflexivity.
  - cbn [missing_docs us_missing]. rewrite Hm. split; [|exact Hu]. clear Hu.
    destruct (existsb _ rd); cbn [negb]; [now rewrite app_nil_r | reflexivity].
Qed.

Lemma fold_check_doc_type_spec (rd : list document) (required_docs : list string) :
  forall st,
    missing_docs (fold_left (check_doc_type rd) required_docs st)
    = (missing_docs st ++ flat_map (contribution rd) required_docs)%list
    /\ us_missing (fold_left (check_doc_type rd) required_docs st)
       = us_missing st && negb (existsb (covers rd) required_docs).
Proof.
  induction required_docs as [|dt rest IH]; intros st; cbn [fold_left flat_map existsb].
  - rewrite app_nil_r, andb_true_r. auto.
  - destruct (IH (check_doc_type rd st dt)) as [-> ->].
    destruct (check_doc_type_spec rd st dt) as [-> ->].
    rewrite <- app_assoc. split; [reflexivity|].
    rewrite negb_orb. now rewrite andb_assoc.
Qed.

(** The profiles of the documents, for an object that
    [initialize_main_params] produced. *)
Lemma docs_profile (self : t) :
  initialized self ->
  exists req opt note,
    required_and_optional_docs self = (Some req, opt, note)
    /\ NoDup req
    /\ ~ In "Assembly Drawing Schedule" req
    /\ ~ In "Assembly Drawing CAD" req
    /\ (type_in (type_dropdown self) [FLR_25_BRACKET; FLC_25_BRACKET] = true ->
        opt <> None)
    /\ (type_in (type_dropdown self) [FLC_20; FLR_21; FLC_25; FLR_25] = true ->
        In "Service Data" req).
Proof.
  intros Hinit.
  destruct (initialized_inv self Hinit)
    as [[E [Ht _]]|[[E [Ht _]]|[[E [Ht _]]|[E [Ht _]]]]];
    unfold required_and_optional_docs; rewrite E; cbn [String.eqb Ascii.eqb Bool.eqb andb].
  - destruct (type_dropdown self); try discriminate Ht; cbn;
      destruct (is_am_bracket self); do 3 eexists;
      (split; [reflexivity|]);
      (split; [repeat constructor; simpl; intuition discriminate|]);
      simpl; repeat split; try intuition discriminate.
  - rewrite Ht. cbn. destruct (is_am_bracket self); do 3 eexists;
      (split; [reflexivity|]);
      (split; [repeat constructor; simpl; intuition discriminate|]);
      simpl; repeat split; try intuition discriminate.
  - destruct (String.eqb (letter_identifier self) "R"); do 3 eexists;
      (split; [reflexivity|]);
      (split; [repeat constructor; simpl; intuition discriminate|]);
      (split; [simpl; intuition discriminate|]);
      (split; [simpl; intuition discriminate|]);
      (split; [destruct (type_dropdown self); simpl in *; congruence|]);
      simpl; tauto.
  - destruct (String.eqb (letter_identifier self) "R"); do 3 eexists;
      (split; [reflexivity|]);
      (split; [repeat constructor; simpl; intuition discriminate|]);
      (split; [simpl; intuition discriminate|]);
      (split; [simpl; intuition discriminate|]);
      (split; [destruct (type_dropdown self); simpl in *; congruence|]);
      simpl; tauto.
Qed.

(** [validate_required_docs] returns a report for every dict that is not
    empty, and the report lists [final_missing]. *)
Lemma validate_required_docs_returns (self : t) (d : document) (docs : list document) :
  initialized self ->
  exists rep req opt note,
    required_and_optional_docs self = (Some req, opt, note)
    /\ validate_required_docs self (d :: docs) = Ok rep
    /\ reported_missing rep = final_missing self req (d :: docs).
Proof.
  intros Hinit.
  destruct (docs_profile self Hinit) as [req [opt [note [Hp [_ [_ [_ [Hopt _]]]]]]]].
  unfold validate_required_docs. rewrite Hp.
  set (rd := filter _ (d :: docs)).
  destruct (fold_check_doc_type_spec rd req
              {| present_docs_list := []; missing_docs := []; us_missing := true |})
    as [Hm Hu].
  cbn [missing_docs us_missing app andb] in Hm, Hu.
  cbv zeta. rewrite Hm, Hu.
  remember (final_missing self req (d :: docs)) as fm eqn:Hf.
  unfold final_missing in Hf. fold rd in Hf. cbv zeta in Hf. rewrite <- Hf.
  clear Hm Hu.
  assert (Hfm : final_missing self req (d :: docs) = fm).
  { unfold final_missing. fold rd. cbv zeta. now rewrite <- Hf. }
  clear Hf. destruct fm as [|x l].
  - do 4 eexists. split; [reflexivity|]. split; [reflexivity|]. now rewrite Hfm.
  - destruct (type_in (type_dropdown self) [FLR_25_BRACKET; FLC_25_BRACKET]) eqn:B.
    + destruct opt as [optional_docs|]; [|now destruct (Hopt eq_refl)].
      cbn [bind]. do 4 eexists. split; [reflexivity|]. split; [reflexivity|].
      now rewrite Hfm.
    + cbn [bind]. do 4 eexists. split; [reflexivity|]. split; [reflexivity|].
      now rewrite Hfm.
Qed.

Lemma In_rename_other (x : string) (l : list string) :
  x <> "Process Data Sheet" -> x <> "Process Data Sheet (BWs)" ->
  In x (map (fun item => if negb (String.eqb item "Process Data Sheet")
                         then item else "Process Data Sheet (BWs)") l)
  <-> In x l.
Proof.
  intros H1 H2. rewrite in_map_iff. split.
  - intros [y [E Hy]]. destruct (String.eqb_spec y "Process Data Sheet"); simpl in E;
      congruence.
  - intros H. exists x. split; [|exact H].
    destruct (String.eqb_spec x "Process Data Sheet"); simpl; congruence.
Qed.

(** The later steps leave the entries for the assembly drawing alone. *)
Lemma In_final_missing (self : t) (req : list string) (documents : list document)
    (x : string) :
  x <> "Service Data" -> x <> "Service Data - US" ->
  x <> "Process Data Sheet" -> x <> "Process Data Sheet (BWs)" ->
  In x (final_missing self req documents)
  <-> In x (flat_map (contribution
                        (filter (fun d => Py.mem (document_kind d) req
                                          && Py.mem (lifecycle_state d) required_states)
                                documents)) req).
Proof.
  intros H1 H2 H3 H4. unfold final_missing.
  set (m := flat_map _ req).
  assert (Hl : In x (if type_in (type_dropdown self) [FLC_20; FLR_21; FLC_25; FLR_25]
                        && negb (existsb (covers (filter
                             (fun d => Py.mem (document_kind d) req
                                       && Py.mem (lifecycle_state d) required_states)
                             documents)) req)
                     then ((if Py.mem "Service Data" m
                            then Py.remove "Service Data" m else m)
                           ++ ["Service Data - US"])%list
                     else m) <-> In x m).
  { destruct (_ && _); [|tauto]. rewrite In_snoc.
    destruct (Py.mem "Service Data" m).
    - split; [intros [H|H]; [eapply In_remove; eauto | congruence]|].
      intros H. left. now apply In_remove_other.
    - tauto. }
  destruct (type_in (type_dropdown self) [FLC_25_BRACKET]); [|exact Hl].
  now rewrite In_rename_other.
Qed.

Lemma contribution_other (rd : list document) (dt x : string) :
  dt <> "Assembly Drawing" -> In x (contribution rd dt) -> x = dt.
Proof.
  intros Hdt. unfold contribution.
  destruct (String.eqb_spec dt "Assembly Drawing"); [contradiction|].
  destruct (existsb _ rd); simpl; intuition.
Qed.

Lemma accepted_assembly (req : list string) (documents : list document) :
  In "Assembly Drawing" req ->
  filter (fun d => String.eqb (document_kind d) "Assembly Drawing")
         (filter (fun d => Py.mem (document_kind d) req
                           && Py.mem (lifecycle_state d) required_states)
                 documents)
  = accepted_of_kind "Assembly Drawing" documents.
Proof.
  intros Hreq. unfold accepted_of_kind.
  induction documents as [|d l IH]; [reflexivity|]. cbn [filter].
  destruct (String.eqb_spec (document_kind d) "Assembly Drawing") as [E|Hne].
  - rewrite E. apply mem_In in Hreq. rewrite Hreq. cbn [andb].
    destruct (Py.mem (lifecycle_state d) required_states); cbn [filter].
    + rewrite E, String.eqb_refl. now rewrite IH.
    + exact IH.
  - cbn [andb]. destruct (_ && _); cbn [filter]; [|exact IH].
    destruct (String.eqb_spec (document_kind d) "Assembly Drawing"); [contradiction|].
    exact IH.
Qed.

Lemma forallb_existsb_nonempty {A : Type} (f : A -> bool) (l : list A) :
  l <> [] -> forallb f l = true -> existsb f l = true.
Proof.
  destruct l as [|a l]; [congruence|]. simpl. intros _ H.
  apply andb_true_iff in H as [-> _]. reflexivity.
Qed.

(** The two entries for the assembly drawing, in the list of a report. *)
Lemma assembly_drawing_entries (self : t) (req : list string) (documents : list document) :
  In "Assembly Drawing" req ->
  ~ In "Assembly Drawing Schedule" req ->
  ~ In "Assembly Drawing CAD" req ->
  let accepted := accepted_of_kind "Assembly Drawing" documents in
  let missing := final_missing self req documents in
  (In "Assembly Drawing Schedule" missing <-> existsb has_schedule accepted = false)
  /\ (In "Assembly Drawing CAD" missing <-> forallb has_schedule accepted = true)
  /\ ~ In "Assembly Drawing" missing.
Proof.
  intros Hreq Hs Hc accepted missing. unfold missing.
  rewrite !In_final_missing by discriminate.
  set (rd := filter _ documents).
  assert (Hcontr : contribution rd "Assembly Drawing"
                   = match accepted with
                     | [] => ["Assembly Drawing Schedule"; "Assembly Drawing CAD"]
                     | _ :: _ =>
                         ((if negb (existsb has_schedule accepted)
                           then ["Assembly Drawing Schedule"] else [])
                          ++ (if forallb has_schedule accepted
                              then ["Assembly Drawing CAD"] else []))%list
                     end).
  { unfold contribution. cbn [String.eqb Ascii.eqb Bool.eqb andb].
    unfold rd. rewrite (accepted_assembly req documents Hreq). fold accepted.
    destruct accepted; reflexivity. }
  assert (Hflat : forall x, ~ In x req ->
                  (In x (flat_map (contribution rd) req)
                   <-> In x (contribution rd "Assembly Drawing"))).
  { intros x Hx. rewrite in_flat_map. split.
    - intros [dt [Hdt Hin]].
      destruct (string_dec dt "Assembly Drawing") as [->|Hne]; [exact Hin|].
      apply contribution_other in Hin; [|exact Hne]. congruence.
    - intros H. now exists "Assembly Drawing". }
  split; [|split].
  - rewrite (Hflat _ Hs), Hcontr.
    destruct accepted as [|a l]; [simpl; tauto|].
    destruct (existsb has_schedule (a :: l)), (forallb has_schedule (a :: l));
      simpl; intuition discriminate.
  - rewrite (Hflat _ Hc), Hcontr.
    destruct accepted as [|a l]; [simpl; tauto|].
    destruct (existsb has_schedule (a :: l)), (forallb has_schedule (a :: l));
      simpl; intuition discriminate.
  - rewrite in_flat_map. intros [dt [Hdt Hin]].
    destruct (string_dec dt "Assembly Drawing") as [->|Hne].
    + rewrite Hcontr in Hin. destruct accepted as [|a l].
      * simpl in Hin. intuition discriminate.
      * destruct (negb _), (forallb _ _); simpl in Hin; intuition discriminate.
    + apply contribution_other in Hin; [|exact Hne]. congruence.
Qed.

(** C6 (as corrected).  With a dict of documents that is not empty and a
    profile that requires the assembly drawing, the report lists
    "Assembly Drawing Schedule" exactly when no accepted record of the kind
    has "schedule" in its title, and "Assembly Drawing CAD" exactly when
    every accepted record has; so both are listed when no such record
    exists, at most one when a record exists, and the kind itself is never
    listed. *)
Theorem assembly_drawing_subrequirements (self : t) (d : document) (docs : list document) :
  initialized self ->
  requires_doc self "Assembly Drawing" ->
  let accepted := accepted_of_kind "Assembly Drawing" (d :: docs) in
  exists rep,
    validate_required_docs self (d :: docs) = Ok rep
    /\ (In "Assembly Drawing Schedule" (reported_missing rep)
        <-> existsb has_schedule accepted = false)
    /\ (In "Assembly Drawing CAD" (reported_missing rep)
        <-> forallb has_schedule accepted = true)
    /\ ~ In "Assembly Drawing" (reported_missing rep)
    /\ (accepted = [] ->
        In "Assembly Drawing Schedule" (reported_missing rep)
        /\ In "Assembly Drawing CAD" (reported_missing rep))
    /\ (accepted <> [] ->
        ~ (In "Assembly Drawing Schedule" (reported_missing rep)
           /\ In "Assembly Drawing CAD" (reported_missing rep))).
Proof.
  intros Hinit Hreq accepted.
  destruct (validate_required_docs_returns self d docs Hinit)
    as [rep [req [opt [note [Hp [Hv Hm]]]]]].
  destruct (docs_profile self Hinit) as [req' [opt' [note' [Hp' [_ [Hs [Hc _]]]]]]].
  rewrite Hp in Hp'. injection Hp' as <- <- <-.
  unfold requires_doc in Hreq. rewrite Hp in Hreq.
  destruct (assembly_drawing_entries self req (d :: docs) Hreq Hs Hc) as [H1 [H2 H3]].
  fold accepted in H1, H2. rewrite <- Hm in H1, H2, H3.
  exists rep. split; [exact Hv|]. split; [exact H1|]. split; [exact H2|].
  split; [exact H3|]. split.
  - intros E. rewrite H1, H2, E. split; reflexivity.
  - intros Hne [Ha Hb]. apply H1 in Ha. apply H2 in Hb.
    rewrite (forallb_existsb_nonempty _ _ Hne Hb) in Ha. discriminate Ha.
Qed.

(** The rule at a single schedule record: the CAD drawing is missing, the
    schedule is not. *)
Lemma assembly_drawing_subrequirements_witness :
  initialized Samples.radar_x
  /\ requires_doc Samples.radar_x "Assembly Drawing"
  /\ exists rep,
       validate_required_docs Samples.radar_x Samples.docs_schedule = Ok rep
       /\ In "Assembly Drawing CAD" (reported_missing rep)
       /\ ~ In "Assembly Drawing Schedule" (reported_missing rep).
Proof.
  assert (Hi : initialized Samples.radar_x).
  { exists false, "K015123X000", "Radar Sensor", "X", false, false, FLR_25. reflexivity. }
  assert (Hr : requires_doc Samples.radar_x "Assembly Drawing") by (left; reflexivity).
  split; [exact Hi|]. split; [exact Hr|].
  destruct (assembly_drawing_subrequirements Samples.radar_x
              (Samples.doc "Z068947-SCHEDULE, US, American English, 008"
                           "Assembly Drawing" "Released") [] Hi Hr)
    as [rep [Hv [H1 [H2 _]]]].
  exists rep. split; [exact Hv|]. split.
  - apply H2. reflexivity.
  - intros H. apply H1 in H. discriminate H.
Defined.

(** C6 (as stated) fails twice.  With an empty dict no record of the kind
    exists, and the report lists nothing as missing; and when an accepted
    record exists, the two entries are never listed together. *)
Lemma assembly_drawing_not_both :
  (requires_doc Samples.radar_x "Assembly Drawing"
   /\ accepted_of_kind "Assembly Drawing" [] = []
   /\ validate_required_docs Samples.radar_x []
      = Ok {| no_docs_note := false; docs_msg_of := NoDocumentsFound; docs_df := [] |}
   /\ reported_missing {| no_docs_note := false; docs_msg_of := NoDocumentsFound;
                          docs_df := [] |} = [])
  /\ ~ (exists self d docs rep,
          initialized self
          /\ requires_doc self "Assembly Drawing"
          /\ accepted_of_kind "Assembly Drawing" (d :: docs) <> []
          /\ validate_required_docs self (d :: docs) = Ok rep
          /\ In "Assembly Drawing Schedule" (reported_missing rep)
          /\ In "Assembly Drawing CAD" (reported_missing rep)).
Proof.
  split.
  - split; [left; reflexivity|]. repeat split.
  - intros [self [d [docs [rep [Hinit [Hreq [Hne [Hv [Ha Hb]]]]]]]]].
    destruct (validate_required_docs_returns self d docs Hinit)
      as [rep' [req [opt [note [Hp [Hv' Hm]]]]]].
    rewrite Hv in Hv'. injection Hv' as <-.
    destruct (docs_profile self Hinit) as [req' [opt' [note' [Hp' [_ [Hs [Hc _]]]]]]].
    rewrite Hp in Hp'. injection Hp' as <- <- <-.
    unfold requires_doc in Hreq. rewrite Hp in Hreq.
    destruct (assembly_drawing_entries self req (d :: docs) Hreq Hs Hc) as [H1 [H2 _]].
    rewrite <- Hm in H1, H2. apply H1 in Ha. apply H2 in Hb.
    rewrite (forallb_existsb_nonempty _ _ Hne Hb) in Ha. discriminate Ha.
Qed.

Lemma count_contribution_le (rd : list document) (dt x : string) :
  x <> "Assembly Drawing Schedule" -> x <> "Assembly Drawing CAD" ->
  (count x (contribution rd dt) <= count x [dt])%nat.
Proof.
  intros H1 H2. unfold contribution.
  destruct (String.eqb dt "Assembly Drawing").
  - assert (E : forall l, (forall y, In y l -> y = "Assembly Drawing Schedule"
                                              \/ y = "Assembly Drawing CAD") ->
                          count x l = 0%nat).
    { intros l Hl. apply count_not_In. intros H. apply Hl in H as [H|H]; congruence. }
    rewrite E; [lia|]. intros y.
    destruct (filter _ rd); [simpl; intuition auto|].
    destruct (negb _), (forallb _ _); simpl; intuition auto.
  - destruct (existsb _ rd); [cbn; lia | lia].
Qed.

Lemma count_flat_contribution_le (rd : list document) (req : list string) (x : string) :
  x <> "Assembly Drawing Schedule" -> x <> "Assembly Drawing CAD" ->
  (count x (flat_map (contribution rd) req) <= count x req)%nat.
Proof.
  intros H1 H2. induction req as [|dt rest IH]; cbn [flat_map]; [lia|].
  rewrite count_app. change (dt :: rest) with ([dt] ++ rest)%list. rewrite count_app.
  pose proof (count_contribution_le rd dt x H1 H2). lia.
Qed.

(** No accepted record of the service data names US or EN: no record of
    the frame covers the language. *)
Lemma not_covered (req : list string) (documents : list document) :
  existsb names_us_or_en (accepted_of_kind "Service Data" documents) = false ->
  existsb (covers (filter (fun d => Py.mem (document_kind d) req
                                    && Py.mem (lifecycle_state d) required_states)
                          documents)) req = false.
Proof.
  intros H. apply not_true_is_false. intros C.
  apply existsb_exists in C as [dt [_ C]]. unfold covers in C.
  apply andb_true_iff in C as [E C]. apply String.eqb_eq in E. subst dt.
  apply existsb_exists in C as [d [Hd C]].
  apply andb_true_iff in C as [K N].
  apply filter_In in Hd as [Hd S]. apply andb_true_iff in S as [_ S].
  assert (X : existsb names_us_or_en (accepted_of_kind "Service Data" documents) = true).
  { apply existsb_exists. exists d. split; [|exact N].
    unfold accepted_of_kind. apply filter_In. split; [exact Hd|]. now rewrite K, S. }
  congruence.
Qed.

(** C8.  For the families FLC-20, FLR-21, FLC-25 and FLR-25, when no
    accepted record of the service data has US or EN among the language
    tokens of its title, the report lists "Service Data - US" and does not
    list "Service Data". *)
Theorem service_data_language_missing (self : t) (d : document) (docs : list document) :
  initialized self ->
  type_in (type_dropdown self) [FLC_20; FLR_21; FLC_25; FLR_25] = true ->
  existsb names_us_or_en (accepted_of_kind "Service Data" (d :: docs)) = false ->
  requires_doc self "Service Data"
  /\ exists rep,
       validate_required_docs self (d :: docs) = Ok rep
       /\ In "Service Data - US" (reported_missing rep)
       /\ ~ In "Service Data" (reported_missing rep).
Proof.
  intros Hinit Hfam Hlang.
  destruct (validate_required_docs_returns self d docs Hinit)
    as [rep [req [opt [note [Hp [Hv Hm]]]]]].
  destruct (docs_profile self Hinit) as [req' [opt' [note' [Hp' [Hnd [_ [_ [_ Hsd]]]]]]]].
  rewrite Hp in Hp'. injection Hp' as <- <- <-.
  split; [unfold requires_doc; rewrite Hp; exact (Hsd Hfam)|].
  exists rep. split; [exact Hv|]. rewrite Hm. unfold final_missing.
  rewrite Hfam, (not_covered req (d :: docs) Hlang). cbn [andb negb].
  assert (B : type_in (type_dropdown self) [FLC_25_BRACKET] = false)
    by (destruct (type_dropdown self); try discriminate Hfam; reflexivity).
  rewrite B. set (m := flat_map _ req).
  split; [apply In_snoc; now right|].
  rewrite In_snoc. intros [H|H]; [|discriminate H].
  apply count_In in H.
  assert (C : (count "Service Data" m <= 1)%nat).
  { etransitivity; [apply count_flat_contribution_le; discriminate|].
    now apply count_NoDup. }
  destruct (Py.mem "Service Data" m) eqn:M.
  - rewrite count_remove_same in H. lia.
  - apply mem_false, count_not_In in M. lia.
Qed.

(** The rule at the record "DocX, FR". *)
Lemma service_data_language_missing_witness :
  initialized Samples.radar_x
  /\ type_in (type_dropdown Samples.radar_x) [FLC_20; FLR_21; FLC_25; FLR_25] = true
  /\ existsb names_us_or_en (accepted_of_kind "Service Data" Samples.docs_french) = false
  /\ exists rep,
       validate_required_docs Samples.radar_x Samples.docs_french = Ok rep
       /\ In "Service Data - US" (reported_missing rep)
       /\ ~ In "Service Data" (reported_missing rep).
Proof.
  assert (Hi : initialized Samples.radar_x).
  { exists false, "K015123X000", "Radar Sensor", "X", false, false, FLR_25. reflexivity. }
  split; [exact Hi|]. split; [reflexivity|]. split; [reflexivity|].
  exact (proj2 (service_data_language_missing Samples.radar_x
                  (Samples.doc "DocX, FR" "Service Data" "Released") []
                  Hi eq_refl eq_refl)).
Defined.

End Documents.

(** ** The device code ([format_device_code], [highlight_row]) *)

Section DeviceCode.

Import Spec Utils.

Lemma rev_string_rev_string (x b acc : string) :
  Py.rev_string acc (Py.rev_string b x) = Py.rev_string (x ++ acc) b.
Proof.
  revert b acc. induction x as [|c x IH]; intros b acc; simpl; [reflexivity|].
  now rewrite IH.
Qed.

(** Reading a text without a space moves it to the field being read. *)
Lemma split_go_no_space (x cur rest : string) :
  no_space x = true ->
  Py.split_go " or " 0 cur (x ++ rest) = Py.split_go " or " 0 (Py.rev_string cur x) rest.
Proof.
  unfold no_space. revert cur. induction x as [|c x IH]; intros cur H; [reflexivity|].
  cbn [Regex.char_in] in H. apply negb_true_iff, orb_false_iff in H as [Hc Hx].
  cbn [append Py.split_go Py.rev_string Py.startswith].
  rewrite Hc. cbn [andb]. apply IH. now rewrite Hx.
Qed.

(** Splitting the joined alternatives gives the alternatives back. *)
Lemma split_join (alts : list string) :
  alts <> [] -> forallb no_space alts = true ->
  Py.split " or " (Py.join " or " alts) = alts.
Proof.
  unfold Py.split. induction alts as [|x l IH]; [congruence|].
  intros _ H. cbn [forallb] in H. apply andb_true_iff in H as [Hx Hl].
  destruct l as [|y l].
  - cbn [Py.join]. rewrite <- (append_nil_r x) at 1.
    rewrite split_go_no_space by assumption. cbn [Py.split_go].
    rewrite rev_string_rev_string. now rewrite append_nil_r.
  - change (Py.join " or " (x :: y :: l))
      with (x ++ " or " ++ Py.join " or " (y :: l)).
    rewrite split_go_no_space by assumption.
    cbn [append Py.split_go Py.startswith Ascii.eqb Bool.eqb andb String.length Nat.sub].
    rewrite rev_string_rev_string, append_nil_r. cbn [Py.rev_string].
    f_equal. apply IH; [discriminate | assumption].
Qed.

Lemma displayed_device_code (alts : list string) (observed : string) :
  alts <> [] ->
  displayed_row (device_code_row (Alternatives alts) observed)
  = device_code_row (Text (Py.join " or " alts)) observed.
Proof.
  intros H. destruct alts as [|x [|y l]]; [congruence | reflexivity | reflexivity].
Qed.

(** The style of a device-code row whose alternatives hold no space. *)
Lemma device_code_style (alts : list string) (observed : string) :
  alts <> [] -> forallb no_space alts = true ->
  row_style (device_code_row (Alternatives alts) observed)
  = Ok (if Py.mem observed alts then Black else Red).
Proof.
  intros Hne Hsp. unfold row_style. rewrite displayed_device_code by assumption.
  unfold highlight_row, device_code_row; cbn [Parameters Expected_Value Actual_Value].
  cbn [String.eqb Ascii.eqb Bool.eqb andb negb].
  rewrite split_join by assumption. destruct (Py.mem observed alts); reflexivity.
Qed.

(** The rule of a list without spaces.  For a device-code row whose
    reference is a list of alternatives that is not empty and whose
    entries hold no space, the row is shown as conformant exactly when the
    observed value is one of the alternatives, and as non-conformant
    otherwise. *)
Theorem device_code_member_of_alternatives (alts : list string) (observed : string) :
  alts <> [] -> forallb no_space alts = true ->
  (row_style (device_code_row (Alternatives alts) observed) = Ok Black
   <-> In observed alts)
  /\ (row_style (device_code_row (Alternatives alts) observed) = Ok Red
      <-> ~ In observed alts).
Proof.
  intros Hne Hsp. rewrite device_code_style by assumption.
  destruct (Py.mem observed alts) eqn:M.
  - apply mem_In in M. split; split; intros; try discriminate; tauto.
  - apply mem_false in M. split; split; intros; try discriminate; tauto.
Qed.

(** The rule at the list of the scenario: 50017 conforms, 99999 does
    not. *)
Lemma device_code_member_witness :
  ["21024"; "50017"] <> []
  /\ forallb no_space ["21024"; "50017"] = true
  /\ row_style (device_code_row (Alternatives ["21024"; "50017"]) "50017") = Ok Black
  /\ row_style (device_code_row (Alternatives ["21024"; "50017"]) "99999") = Ok Red.
Proof.
  assert (Hne : ["21024"; "50017"] <> []) by discriminate.
  assert (Hsp : forallb no_space ["21024"; "50017"] = true) by reflexivity.
  split; [exact Hne|]. split; [exact Hsp|]. split.
  - apply (proj1 (device_code_member_of_alternatives _ "50017" Hne Hsp)).
    right. left. reflexivity.
  - apply (proj2 (device_code_member_of_alternatives _ "99999" Hne Hsp)).
    simpl. intuition discriminate.
Defined.

(** Every device code of the attribute table falls under the rule. *)
Lemma catalog_device_codes_no_space :
  forall e, In e catalog_device_codes ->
    match e with
    | Alternatives alts => alts <> [] /\ forallb no_space alts = true
    | Text s => no_space s = true
    end.
Proof.
  intros e H. simpl in H.
  destruct H as [<-|[<-|[<-|[<-|[]]]]]; try (split; [discriminate | reflexivity]).
  reflexivity.
Qed.

(** What [highlight_row] does with lists that the attribute table does
    not hold: the alternative "A or B" is split again, so the observed
    value "A", not a member of the list, is shown as conformant, and
    "A or B" itself is not; an empty list makes [highlight_row] raise. *)
Lemma device_code_separator_in_alternative :
  ~ In "A" ["A or B"]
  /\ row_style (device_code_row (Alternatives ["A or B"]) "A") = Ok Black
  /\ In "A or B" ["A or B"]
  /\ row_style (device_code_row (Alternatives ["A or B"]) "A or B") = Ok Red
  /\ row_style (device_code_row (Alternatives []) "50017")
     = Raise (AttributeError "'list' object has no attribute 'split'").
Proof.
  split; [simpl; intuition discriminate|]. split; [reflexivity|].
  split; [now left|]. split; reflexivity.
Qed.

End DeviceCode.

(** ** The rules at concrete runs *)

Section Runs.

Import Spec Fusion3.

Lemma radar_x_initialized : initialized Samples.radar_x.
Proof.
  exists false, "K015123X000", "Radar Sensor", "X", false, false, FLR_25. reflexivity.
Qed.

(** The inference at two software rows of which one bundles the data
    set. *)
Lemma dataset_requirement_satisfied_witness :
  initialized Samples.radar_x
  /\ bundled_dataset Samples.bom_bundled
  /\ forallb (fun r => negb (Py.str_in "Dataset" (title r))) Samples.bom_bundled = true
  /\ In "Dataset" (first_pass (get_required_elements Samples.radar_x
                                 (element_name Samples.radar_x)) Samples.bom_bundled)
  /\ ~ In "Dataset" (missing_elements Samples.radar_x Samples.bom_bundled).
Proof.
  assert (Hb : bundled_dataset Samples.bom_bundled).
  { split; [apply Nat.leb_le; reflexivity | reflexivity]. }
  assert (Hn : forallb (fun r => negb (Py.str_in "Dataset" (title r)))
                       Samples.bom_bundled = true) by reflexivity.
  split; [exact radar_x_initialized|]. split; [exact Hb|]. split; [exact Hn|].
  destruct (dataset_requirement_satisfied Samples.radar_x Samples.bom_bundled
              radar_x_initialized Hb Hn) as [H1 H2].
  split; [|exact H2]. apply H1. left. reflexivity.
Defined.

(** The CAN termination names at the run without boot software. *)
Lemma can_termination_generic_never_missing_witness :
  initialized Samples.radar_x
  /\ element_name Samples.radar_x = "Radar"
  /\ In (letter_identifier Samples.radar_x) ["R"; "SC"; "X"]
  /\ ~ In "with CAN termination" (missing_elements Samples.radar_x Samples.bom_no_boot)
  /\ ~ In "wo CAN termination" (missing_elements Samples.radar_x Samples.bom_no_boot).
Proof.
  assert (Hl : In (letter_identifier Samples.radar_x) ["R"; "SC"; "X"]).
  { right. right. left. reflexivity. }
  split; [exact radar_x_initialized|]. split; [reflexivity|]. split; [exact Hl|].
  destruct (can_termination_generic_never_missing Samples.radar_x Samples.bom_no_boot
              radar_x_initialized eq_refl Hl) as [_ [_ [H1 [H2 _]]]].
  split; [exact H1 | exact H2].
Defined.

End Runs.

(** * Further properties of the code *)

(** ** The table of [get_bom_in_content] *)

Section Table.

Import Spec SpecMore Fusion3.

Lemma tabulate_other_can_nil (titles : list bom_row) :
  tabulate_other_can [] titles = Ok [].
Proof. induction titles as [|r rest IH]; simpl; [reflexivity | exact IH]. Qed.

Lemma from_rows_cons (r : bom_row) (titles : list bom_row) (d : data_row) :
  from_rows titles d -> from_rows (r :: titles) d.
Proof.
  intros [r' [H1 H2]]. exists r'. split; [now right | exact H2].
Qed.

Lemma from_rows_mk (r : bom_row) (titles : list bom_row) (q e : Z) :
  In r titles ->
  PyFloat.int_float (quantity r) = Ok q ->
  (e = 1%Z \/ (e = 3%Z /\ Py.str_in "nut" (Py.lower (title r))
                          || Py.str_in "screw" (Py.lower (title r)) = true)) ->
  from_rows titles (mk_data r q e).
Proof. intros H1 H2 H3. exists r. cbn [mk_data ID Title Description Quantity Expected_value]. repeat split; assumption. Qed.

Lemma tabulate_element_from_rows (self : t) (element : string) (ev : Z)
    (titles : list bom_row) :
  ev = 1%Z \/ (ev = 3%Z /\ (element = "Nut" \/ element = "Screw")) ->
  forall rows,
    tabulate_element self element ev titles = Ok rows ->
    forall d, In d rows -> from_rows titles d.
Proof.
  intros Hev.
  induction titles as [|r rest IH]; intros rows H d Hd; cbn [tabulate_element] in H.
  - injection H as <-. destruct Hd.
  - destruct (PyFloat.int_float (quantity r)) as [q|] eqn:Q; cbn [bind] in H;
      [|discriminate H].
    destruct (tabulate_element self element ev rest) as [more|]; cbn [bind] in H;
      [|discriminate H].
    injection H as <-.
    assert (Hrest : In d more -> from_rows (r :: rest) d).
    { intros Hm. apply from_rows_cons. now apply (IH more). }
    match type of Hd with In _ (if ?c then _ else _) => destruct c eqn:K end;
      [|now apply Hrest].
    destruct Hd as [<-|Hd]; [|now apply Hrest].
    apply from_rows_mk; [now left | exact Q|].
    destruct Hev as [->|[-> E]]; [now left|]. right. split; [reflexivity|].
    assert (S : Py.str_in element (title r) = true).
    { destruct E as [-> | ->]; destruct (DropdownType_eqb _ _); cbn in K;
        now rewrite orb_false_r in K. }
    apply str_in_lower in S.
    destruct E as [-> | ->].
    + change (Py.lower "Nut") with "nut" in S. now rewrite S.
    + change (Py.lower "Screw") with "screw" in S. rewrite S. apply orb_true_r.
Qed.

Lemma tabulate_required_from_rows (self : t) (required : list string)
    (titles : list bom_row) :
  forall rows,
    tabulate_required self required titles = Ok rows ->
    forall d, In d rows -> from_rows titles d.
Proof.
  induction required as [|e rest IH]; intros rows H d Hd; cbn [tabulate_required] in H.
  - injection H as <-. destruct Hd.
  - destruct (tabulate_element self e _ titles) as [r1|] eqn:E; cbn [bind] in H;
      [|discriminate H].
    destruct (tabulate_required self rest titles) as [r2|]; cbn [bind] in H;
      [|discriminate H].
    injection H as <-. apply in_app_or in Hd as [Hd|Hd].
    + refine (tabulate_element_from_rows self e _ titles _ r1 E d Hd).
      destruct (Py.mem e ["Nut"; "Screw"]) eqn:M; [right | now left].
      split; [reflexivity|]. apply mem_In in M. simpl in M. intuition.
    + exact (IH r2 eq_refl d Hd).
Qed.

Lemma tabulate_other_can_from_rows (required : list string) (titles : list bom_row) :
  forall rows,
    tabulate_other_can required titles = Ok rows ->
    forall d, In d rows -> from_rows titles d.
Proof.
  induction titles as [|r rest IH]; intros rows H d Hd; cbn [tabulate_other_can] in H.
  - injection H as <-. destruct Hd.
  - destruct (_ || _).
    + destruct (PyFloat.int_float (quantity r)) as [q|] eqn:Q; cbn [bind] in H;
        [|discriminate H].
      destruct (tabulate_other_can required rest) as [more|]; cbn [bind] in H;
        [|discriminate H].
      injection H as <-. destruct Hd as [<-|Hd].
      * apply from_rows_mk; [now left | exact Q | now left].
      * apply from_rows_cons. now apply (IH more).
    + apply from_rows_cons. now apply (IH rows).
Qed.

Lemma tabulate_first_screw_from_rows (titles : list bom_row) :
  forall rows,
    tabulate_first_screw titles = Ok rows ->
    forall d, In d rows -> from_rows titles d.
Proof.
  induction titles as [|r rest IH]; intros rows H d Hd; cbn [tabulate_first_screw] in H.
  - injection H as <-. destruct Hd.
  - destruct (Py.str_in "screw" (Py.lower (title r))) eqn:S.
    + destruct (PyFloat.int_float (quantity r)) as [q|] eqn:Q; cbn [bind] in H;
        [|discriminate H].
      injection H as <-. destruct Hd as [<-|[]].
      apply from_rows_mk; [now left | exact Q|].
      right. split; [reflexivity|]. rewrite S. apply orb_true_r.
    + apply from_rows_cons. now apply (IH rows).
Qed.

Lemma get_bom_df (self : t) (titles : list bom_row) (rep : bom_report) :
  get_bom_in_content self titles = Ok rep ->
  tabulate self (get_required_elements self (element_name self)) titles = Ok (df rep).
Proof.
  unfold get_bom_in_content. intros H.
  destruct (tabulate self _ titles); cbn [bind] in H; [|discriminate H].
  destruct (missing_elements self titles); [destruct (Py.mem _ _)|];
    injection H as <-; reflexivity.
Qed.

(** X1.  Every row of the table of a report is an observed row: it carries
    that row's identifier, title and description and its converted
    quantity; the expected value is 1 or 3, and 3 only when the title
    contains "nut" or "screw" in some letter case. *)
Theorem table_rows_are_observed_rows (self : t) (titles : list bom_row)
    (rep : bom_report) :
  get_bom_in_content self titles = Ok rep ->
  forall d, In d (df rep) -> from_rows titles d.
Proof.
  intros H d Hd. apply get_bom_df in H. unfold tabulate in H.
  destruct (tabulate_required self _ titles) as [r1|] eqn:E1; cbn [bind] in H;
    [|discriminate H].
  destruct (tabulate_other_can _ titles) as [r2|] eqn:E2; cbn [bind] in H;
    [|discriminate H].
  match type of H with bind ?c _ = _ => destruct c as [r3|] eqn:E3 end;
    cbn [bind] in H; [|discriminate H].
  injection H as H. rewrite <- H in Hd.
  apply in_app_or in Hd as [Hd|Hd];
    [exact (tabulate_required_from_rows self _ titles r1 E1 d Hd)|].
  apply in_app_or in Hd as [Hd|Hd];
    [exact (tabulate_other_can_from_rows _ titles r2 E2 d Hd)|].
  destruct (_ && _).
  - exact (tabulate_first_screw_from_rows titles r3 E3 d Hd).
  - injection E3 as <-. destruct Hd.
Qed.

(** The rule at the run with the quantity 2. *)
Lemma table_rows_are_observed_rows_witness :
  exists rep,
    get_bom_in_content Samples.radar_x Samples.bom_quantity_2 = Ok rep
    /\ forall d, In d (df rep) -> from_rows Samples.bom_quantity_2 d.
Proof.
  eexists. split; [reflexivity|].
  exact (table_rows_are_observed_rows Samples.radar_x Samples.bom_quantity_2 _ eq_refl).
Defined.

End Table.

(** ** Profiles without requirements *)

Section EmptyProfile.

Import Spec SpecMore Fusion3.

Lemma rsx_false_eqb (l : string) :
  ~ In l ["R"; "SC"; "X"] ->
  String.eqb l "R" = false /\ String.eqb l "SC" = false /\ String.eqb l "X" = false.
Proof.
  intros H. repeat split; apply String.eqb_neq; intros ->; apply H; simpl; tauto.
Qed.

(** X2.  A radar or a camera whose letter is none of R, SC, X has no
    required elements: whatever the rows are, also with quantities that do
    not convert, the run returns an empty table and names nothing as
    missing; the message says SUCCESSFUL with an empty list for the letters
    B and Cover and is empty otherwise. *)
Theorem empty_profile_report (self : t) (titles : list bom_row) :
  initialized self ->
  element_name self = "Radar" \/ element_name self = "Camera" ->
  ~ In (letter_identifier self) ["R"; "SC"; "X"] ->
  get_required_elements self (element_name self) = []
  /\ get_bom_in_content self titles
     = Ok {| msg := if Py.mem (letter_identifier self) ["B"; "Cover"]
                    then Successful false [] else NoMessage;
             df := [] |}.
Proof.
  intros Hinit Hname Hletter.
  destruct (rsx_false_eqb _ Hletter) as [HR [HSC HX]].
  assert (Hty : type_in (type_dropdown self)
                  [FLR_25_BRACKET; FLC_25_BRACKET; FLC_25_COVER] = false).
  { destruct (initialized_inv self Hinit) as [[E _]|[[E _]|[[_ [E _]]|[_ [E _]]]]];
      try exact E; destruct Hname as [N|N]; rewrite N in E; discriminate E. }
  assert (Hreq : get_required_elements self (element_name self) = []).
  { unfold get_required_elements, Py.mem. cbn [existsb].
    destruct Hname as [-> | ->]; cbn [String.eqb Ascii.eqb Bool.eqb andb];
      rewrite HR, HSC, HX; reflexivity. }
  split; [exact Hreq|].
  assert (HL : letter_R_SC_X self = false).
  { unfold letter_R_SC_X, Py.mem. cbn [existsb]. now rewrite HR, HSC, HX. }
  assert (Hmiss : missing_elements self titles = []).
  { unfold missing_elements. rewrite Hreq. cbn [first_pass filter].
    unfold radar_corrections, camera_corrections, bracket_corrections.
    rewrite HL, !andb_false_r.
    destruct (type_dropdown self); try discriminate Hty;
      now rewrite andb_false_r. }
  unfold get_bom_in_content. rewrite Hmiss, Hreq. unfold tabulate.
  cbn [tabulate_required bind]. rewrite tabulate_other_can_nil. cbn [bind].
  rewrite HSC. cbn [andb bind app rename map].
  unfold Py.mem. cbn [existsb]. rewrite HR, HX, HSC. cbn [orb].
  destruct (String.eqb (letter_identifier self) "B"),
           (String.eqb (letter_identifier self) "Cover"); reflexivity.
Qed.

(** A radar with the letter N and a row whose quantity does not convert. *)
Lemma empty_profile_report_witness :
  get_required_elements SamplesMore.radar_n "Radar" = []
  /\ get_bom_in_content SamplesMore.radar_n [Samples.r_software "n/a"]
     = Ok {| msg := NoMessage; df := [] |}.
Proof.
  apply (empty_profile_report SamplesMore.radar_n [Samples.r_software "n/a"]).
  - exists false, "K015123N000", "Radar Sensor", "N", false, false, FLR_25. reflexivity.
  - left. reflexivity.
  - simpl. intuition discriminate.
Defined.

End EmptyProfile.

(** ** Names that stand once in the list of missing elements *)

Section Once.

Import Spec SpecMore Fusion3.

Lemma qualified_not_required (self : t) (e x : string) :
  x = "Radar with CAN termination (K218450H002)"
  \/ x = "Radar without CAN termination (K188333H002)"
  \/ x = "Camera (K188332H000)" ->
  ~ In x (get_required_elements self e).
Proof.
  intros Hx. unfold get_required_elements.
  set (l := letter_identifier self).
  destruct (String.eqb e "Cover" && _);
    [destruct Hx as [-> | [-> | ->]]; simpl; intuition discriminate|].
  destruct (String.eqb e "Bracket" && DropdownType_eqb _ FLC_25_BRACKET);
    [destruct Hx as [-> | [-> | ->]]; simpl; intuition discriminate|].
  destruct (String.eqb e "Bracket" && _);
    [destruct (is_am_bracket self); destruct Hx as [-> | [-> | ->]]; simpl;
       intuition discriminate|].
  destruct (String.eqb e "Camera"), (String.eqb e "Radar"), (Py.mem l ["X"; "SC"]),
    (String.eqb l "X"), (String.eqb l "R"), (String.eqb l "SC"),
    (chbx_resistor self), (chbx_bracket self);
    destruct Hx as [-> | [-> | ->]]; simpl; intuition discriminate.
Qed.

Lemma count_replace_first_new (a b : string) (l : list string) :
  (count b (Py.replace_first a b l) <= S (count b l))%nat.
Proof.
  unfold count. induction l as [|z l IH]; simpl; [lia|].
  destruct (String.eqb a z); simpl.
  - destruct (string_dec b b), (string_dec z b); lia.
  - destruct (string_dec z b); lia.
Qed.

Lemma count_replace_first_old (a b : string) (l : list string) :
  a <> b -> (count a (Py.replace_first a b l) <= count a l)%nat.
Proof.
  intros Hab. unfold count. induction l as [|z l IH]; simpl; [lia|].
  destruct (String.eqb_spec a z) as [->|Hne]; simpl.
  - destruct (string_dec b z), (string_dec z z); try congruence; lia.
  - destruct (string_dec z a); lia.
Qed.

Lemma count_software_guarded (p : Regex.re) (titles : list bom_row) (m : list string) :
  (count "Software" m <= 1 -> count "Software" (software_version_check p titles m) <= 1)%nat.
Proof.
  unfold software_version_check. intros H.
  destruct (negb _ && negb (Py.mem "Software" m)) eqn:E; [|exact H].
  apply andb_true_iff in E as [_ E]. apply negb_true_iff in E.
  apply mem_false, count_not_In in E. rewrite count_snoc_same. lia.
Qed.

Lemma count_can_le (x : string) (found : bool) (generic qualified : string)
    (m : list string) :
  x <> qualified ->
  (count x (can_termination_check found generic qualified m) <= count x m)%nat.
Proof.
  intros Hq. unfold can_termination_check.
  assert (E : (count x (if Py.mem generic m then Py.remove generic m else m)
               <= count x m)%nat).
  { destruct (Py.mem generic m); [apply count_remove_le | lia]. }
  destruct found; simpl; [exact E|]. now rewrite count_snoc_other.
Qed.

Lemma count_can_new (found : bool) (generic qualified : string) (m : list string) :
  (count qualified (can_termination_check found generic qualified m)
   <= S (count qualified m))%nat.
Proof.
  unfold can_termination_check.
  assert (E : (count qualified (if Py.mem generic m then Py.remove generic m else m)
               <= count qualified m)%nat).
  { destruct (Py.mem generic m); [apply count_remove_le | lia]. }
  destruct found; simpl; [lia|]. rewrite count_snoc_same. lia.
Qed.

(** The radar block keeps the rule when it starts without its two
    qualified entries. *)
Lemma radar_corrections_once (self : t) (titles : list bom_row) (m : list string) :
  once_but_boot m ->
  count "Radar with CAN termination (K218450H002)" m = 0%nat ->
  count "Radar without CAN termination (K188333H002)" m = 0%nat ->
  once_but_boot (radar_corrections self titles m).
Proof.
  intros Hm Hw Ho x Hx. specialize (Hm x Hx).
  unfold radar_corrections. destruct (_ && _); [|exact Hm].
  set (m1 := dataset_inference titles m).
  set (m2 := boot_software_check _ m1).
  set (m3 := software_version_check radar_version_pattern titles m2).
  assert (H3 : (count x m3 <= 1)%nat).
  { destruct (string_dec x "Software") as [->|Hs].
    - apply count_software_guarded. unfold m2.
      rewrite count_boot_other by discriminate.
      pose proof (count_dataset_inference_le "Software" titles m). fold m1 in H. lia.
    - unfold m3, m2. rewrite count_software_other, count_boot_other by assumption.
      pose proof (count_dataset_inference_le x titles m). fold m1 in H. lia. }
  assert (H0 : forall q, q <> "Software" -> q <> "Boot Software" -> count q m = 0%nat ->
                         count q m3 = 0%nat).
  { intros q Hs Hb Hq. unfold m3, m2.
    rewrite count_software_other, count_boot_other by assumption.
    pose proof (count_dataset_inference_le q titles m). fold m1 in H. lia. }
  destruct (chbx_resistor self).
  - destruct (string_dec x "Radar with CAN termination (K218450H002)") as [->|Hq].
    + pose proof (count_can_new
                    (existsb (fun r => Py.str_in "radar" (Py.lower (title r))
                                       && Py.str_in "with can termination"
                                            (Py.lower (description r))
                                       && String.eqb (Py.upper (id_ r)) "K218450H002")
                             titles)
                    "with CAN termination"
                    "Radar with CAN termination (K218450H002)" m3) as H.
      rewrite H0 in H by (discriminate || exact Hw). exact H.
    + etransitivity; [apply count_can_le; exact Hq | exact H3].
  - destruct (string_dec x "Radar without CAN termination (K188333H002)") as [->|Hq].
    + pose proof (count_can_new
                    (existsb (fun r => Py.str_in "radar" (Py.lower (title r))
                                       && Py.str_in "wo can termination"
                                            (Py.lower (description r))
                                       && String.eqb (Py.upper (id_ r)) "K188333H002")
                             titles)
                    "wo CAN termination"
                    "Radar without CAN termination (K188333H002)" m3) as H.
      rewrite H0 in H by (discriminate || exact Ho). exact H.
    + etransitivity; [apply count_can_le; exact Hq | exact H3].
Qed.

Lemma count_radar_camera_entry (self : t) (titles : list bom_row) (m : list string) :
  count "Camera (K188332H000)" (radar_corrections self titles m)
  = count "Camera (K188332H000)" m.
Proof.
  unfold radar_corrections. destruct (_ && _); [|reflexivity].
  destruct (chbx_resistor self);
    rewrite count_can_other, count_software_other, count_boot_other,
      count_dataset_inference_other by discriminate; reflexivity.
Qed.

(** The camera block keeps the rule when it starts without its qualified
    entry. *)
Lemma camera_corrections_once (self : t) (titles : list bom_row) (m : list string) :
  once_but_boot m ->
  count "Camera (K188332H000)" m = 0%nat ->
  once_but_boot (camera_corrections self titles m).
Proof.
  intros Hm Hc x Hx. specialize (Hm x Hx).
  unfold camera_corrections. destruct (_ && _); [|exact Hm].
  match goal with |- context [dataset_inference titles ?l] => set (m0 := l) end.
  assert (H0 : (count x m0 <= 1)%nat).
  { unfold m0. destruct (negb _); [|exact Hm].
    destruct (Py.mem "Camera" m).
    - destruct (string_dec x "Camera (K188332H000)") as [->|Hq].
      + pose proof (count_replace_first_new "Camera" "Camera (K188332H000)" m). lia.
      + destruct (string_dec x "Camera") as [->|Hk].
        * pose proof (count_replace_first_old "Camera" "Camera (K188332H000)" m
                        ltac:(discriminate)). lia.
        * now rewrite count_replace_first.
    - destruct (string_dec x "Camera (K188332H000)") as [->|Hq].
      + rewrite count_snoc_same. lia.
      + now rewrite count_snoc_other. }
  destruct (string_dec x "Software") as [->|Hs].
  - apply count_software_guarded. rewrite count_boot_other by discriminate.
    pose proof (count_dataset_inference_le "Software" titles m0). lia.
  - rewrite count_software_other, count_boot_other by assumption.
    pose proof (count_dataset_inference_le x titles m0). lia.
Qed.

Lemma bracket_corrections_once (self : t) (titles : list bom_row) (m : list string) :
  once_but_boot m -> once_but_boot (bracket_corrections self titles m).
Proof.
  intros Hm x Hx. specialize (Hm x Hx).
  unfold bracket_corrections. destruct (_ && _); [|exact Hm].
  destruct (negb _ && negb (Py.mem "Bracket" m)) eqn:E; [|exact Hm].
  apply andb_true_iff in E as [_ E]. apply negb_true_iff in E.
  apply mem_false, count_not_In in E.
  destruct (string_dec x "Bracket") as [->|Hb].
  - rewrite count_snoc_same. lia.
  - now rewrite count_snoc_other.
Qed.

(** X3.  In the corrected list of missing elements "Boot Software" is the
    only name that can stand twice: every other name stands once at most,
    for every state of the object and every list of rows. *)
Theorem missing_elements_once_but_boot (self : t) (titles : list bom_row) :
  forall x, x <> "Boot Software" -> (count x (missing_elements self titles) <= 1)%nat.
Proof.
  change (once_but_boot (missing_elements self titles)).
  unfold missing_elements.
  set (required := get_required_elements self (element_name self)).
  assert (Hfp : once_but_boot (first_pass required titles)).
  { intros x _. etransitivity; [apply count_first_pass_le|].
    apply count_NoDup, required_NoDup. }
  assert (Hq : forall q,
             q = "Radar with CAN termination (K218450H002)"
             \/ q = "Radar without CAN termination (K188333H002)"
             \/ q = "Camera (K188332H000)" ->
             count q (first_pass required titles) = 0%nat).
  { intros q Hq. pose proof (count_first_pass_le q required titles) as H.
    pose proof (qualified_not_required self (element_name self) q Hq) as N.
    apply count_not_In in N. fold required in N. lia. }
  apply bracket_corrections_once, camera_corrections_once.
  - apply radar_corrections_once; [exact Hfp | apply Hq; auto | apply Hq; auto].
  - rewrite count_radar_camera_entry. apply Hq. auto.
Qed.

(** The software entry of a radar without rows. *)
Lemma missing_elements_once_but_boot_witness :
  "Software" <> "Boot Software"
  /\ (count "Software" (missing_elements Samples.radar_x []) <= 1)%nat.
Proof.
  split; [discriminate|].
  apply (missing_elements_once_but_boot Samples.radar_x [] "Software"). discriminate.
Defined.

End Once.

(** ** When a run is reported SUCCESSFUL *)

Section Verdict.

Import Spec SpecMore Fusion3 Regex.

Lemma matches_rep_digit (n : nat) : forall d,
  matches (Rep n Digit) d <-> String.length d = n /\ all_digits d = true.
Proof.
  induction n as [|n IH]; intros d; cbn [Rep].
  - split.
    + inversion 1. split; reflexivity.
    + intros [H _]. destruct d; [constructor | discriminate H].
  - split.
    + intros H. apply cat_inv in H as [s1 [s2 [-> [H1 H2]]]].
      apply digit_inv in H1 as [c [-> Hc]]. apply IH in H2 as [L A].
      simpl. rewrite Hc, L. split; [reflexivity | exact A].
    + intros [L A]. destruct d as [|c d]; [discriminate L|].
      simpl in L, A. injection L as L. apply andb_true_iff in A as [Hc A].
      change (String c d) with (String c "" ++ d).
      constructor; [now constructor | apply IH; now split].
Qed.

Lemma search_version (prefix s : string) :
  search (Cat (Str prefix) (Rep 6 Digit)) s = true <-> version_text prefix s.
Proof.
  rewrite search_spec. unfold version_text. split.
  - intros [pre [m [post [-> H]]]].
    apply cat_inv in H as [s1 [s2 [-> [H1 H2]]]].
    apply matches_str in H1 as ->. apply matches_rep_digit in H2 as [L A].
    exists pre, s2, post. now rewrite append_assoc.
  - intros [pre [d [post [-> [L A]]]]].
    exists pre, (prefix ++ d), post. split; [now rewrite append_assoc|].
    constructor; [now apply matches_str | apply matches_rep_digit; now split].
Qed.

Lemma version_found (prefix : string) (titles : list bom_row) :
  existsb (fun r => is_software r
                    && search (Cat (Str prefix) (Rep 6 Digit)) (description r))
          (filter no_boot_description titles) = true
  <-> version_row prefix titles.
Proof.
  rewrite existsb_exists. unfold version_row. split.
  - intros [r [Hr H]]. apply filter_In in Hr as [Hr Hb].
    apply andb_true_iff in H as [Hs Hv]. apply search_version in Hv.
    unfold no_boot_description in Hb. apply negb_true_iff in Hb.
    exists r. auto.
  - intros [r [Hr [Hs [Hb Hv]]]]. exists r. split.
    + apply filter_In. split; [exact Hr|]. unfold no_boot_description. now rewrite Hb.
    + apply search_version in Hv. now rewrite Hs, Hv.
Qed.

Lemma boot_found (kw : string) (titles : list bom_row) :
  existsb (fun r => is_software r && Py.str_in kw (Py.lower (description r))) titles
  = true <-> boot_row kw titles.
Proof.
  rewrite existsb_exists. unfold boot_row. split.
  - intros [r [Hr H]]. apply andb_true_iff in H as [Hs Hk]. exists r. auto.
  - intros [r [Hr [Hs Hk]]]. exists r. now rewrite Hs, Hk.
Qed.

Lemma can_found (kw id : string) (titles : list bom_row) :
  existsb (fun r => Py.str_in "radar" (Py.lower (title r))
                    && Py.str_in kw (Py.lower (description r))
                    && String.eqb (Py.upper (id_ r)) id) titles
  = true <-> can_row kw id titles.
Proof.
  rewrite existsb_exists. unfold can_row. split.
  - intros [r [Hr H]]. apply andb_true_iff in H as [H Hi].
    apply andb_true_iff in H as [Ht Hd]. apply String.eqb_eq in Hi. exists r. auto.
  - intros [r [Hr [Ht [Hd Hi]]]]. exists r. rewrite Ht, Hd.
    split; [exact Hr|]. now apply String.eqb_eq.
Qed.

Lemma camera_found (titles : list bom_row) :
  existsb (fun r => Py.str_in "camera" (Py.lower (title r))
                    && String.eqb (Py.upper (id_ r)) "K188332H000") titles
  = true <-> camera_row titles.
Proof.
  rewrite existsb_exists. unfold camera_row. split.
  - intros [r [Hr H]]. apply andb_true_iff in H as [Ht Hi].
    apply String.eqb_eq in Hi. exists r. auto.
  - intros [r [Hr [Ht Hi]]]. exists r. rewrite Ht.
    split; [exact Hr|]. now apply String.eqb_eq.
Qed.

Lemma dataset_found (titles : list bom_row) :
  (2 <=? List.length (filter is_software titles))%nat
  && existsb (fun r => Py.str_in "DATASET" (Py.upper (description r))
                       || Py.str_in "DATA SET" (Py.upper (description r)))
             (filter is_software titles) = true
  <-> dataset_bundled titles.
Proof.
  rewrite andb_true_iff, Nat.leb_le, existsb_exists. unfold dataset_bundled. split.
  - intros [L [r [Hr H]]]. apply filter_In in Hr as [Hr Hs].
    apply orb_true_iff in H. split; [exact L|]. exists r. auto.
  - intros [L [r [Hr [Hs H]]]]. split; [exact L|]. exists r. split.
    + apply filter_In. auto.
    + now apply orb_true_iff.
Qed.

Lemma first_pass_In (y : string) (required : list string) (titles : list bom_row) :
  In y (first_pass required titles) <-> In y required /\ ~ titled y titles.
Proof.
  unfold first_pass, titled. rewrite filter_In, negb_true_iff.
  split; intros [H N]; (split; [exact H|]).
  - intros E. apply existsb_exists in E. congruence.
  - destruct (existsb _ titles) eqn:E; [|reflexivity].
    exfalso. apply N. now apply existsb_exists.
Qed.

Lemma In_remove_iff (x y : string) (l : list string) :
  NoDup l -> (In y (Py.remove x l) <-> In y l /\ y <> x).
Proof.
  intros H. split.
  - intros Hy. split; [eapply In_remove; eauto|].
    intros ->. now apply (remove_NoDup x l).
  - intros [Hy N]. now apply In_remove_other.
Qed.

Lemma In_remove_if (x y : string) (l : list string) :
  NoDup l ->
  (In y (if Py.mem x l then Py.remove x l else l) <-> In y l /\ y <> x).
Proof.
  intros H. destruct (Py.mem x l) eqn:M; [now apply In_remove_iff|].
  apply mem_false in M. split; [|tauto].
  intros Hy. split; [exact Hy | congruence].
Qed.

Lemma In_dataset_inference (titles : list bom_row) (y : string) (m : list string) :
  NoDup m ->
  (In y (dataset_inference titles m)
   <-> In y m /\ ~ (y = "Dataset" /\ dataset_bundled titles)).
Proof.
  intros H. unfold dataset_inference.
  pose proof (dataset_found titles) as D.
  destruct (_ && _).
  - assert (B : dataset_bundled titles) by (now apply D).
    rewrite (In_remove_if "Dataset" y m H). tauto.
  - assert (B : ~ dataset_bundled titles) by (intros B; apply D in B; discriminate B).
    assert (E : (if Py.mem "Dataset" m then m else m) = m) by (now destruct (Py.mem _ m)).
    rewrite E. tauto.
Qed.

Lemma NoDup_dataset_inference (titles : list bom_row) (m : list string) :
  NoDup m -> NoDup (dataset_inference titles m).
Proof.
  intros H. unfold dataset_inference.
  destruct (Py.mem _ m); [|exact H]. destruct (_ && _); [|exact H].
  now apply NoDup_remove.
Qed.

Lemma In_software_version_check (p : re) (titles : list bom_row) (y : string)
    (m : list string) :
  In y m -> In y (software_version_check p titles m).
Proof.
  intros H. unfold software_version_check. destruct (_ && _); [|exact H].
  apply In_snoc. now left.
Qed.

(** The steps that the radar and the camera block share: the inference of
    the dataset, the boot software, the version of the software.  Every
    name that is left satisfies [P] exactly when both software rows are
    found and the names at the start satisfy [P], are the boot software or
    are the dataset that is inferred. *)
Lemma shared_steps (P : string -> Prop) (kw prefix : string) (titles : list bom_row)
    (m : list string) :
  NoDup m -> ~ P "Boot Software" -> ~ P "Software" ->
  (forall y,
      In y (software_version_check (Cat (Str prefix) (Rep 6 Digit)) titles
              (boot_software_check
                 (existsb (fun r => is_software r
                                    && Py.str_in kw (Py.lower (description r))) titles)
                 (dataset_inference titles m))) -> P y)
  <-> boot_row kw titles /\ version_row prefix titles
      /\ forall y, In y m ->
                   P y \/ y = "Boot Software"
                   \/ (y = "Dataset" /\ dataset_bundled titles).
Proof.
  intros Hm NB NS.
  pose proof (boot_found kw titles) as HB.
  pose proof (version_found prefix titles) as HV.
  pose proof (NoDup_dataset_inference titles m Hm) as H1.
  destruct (existsb _ titles) eqn:EB.
  - assert (B : boot_row kw titles) by (now apply HB).
    unfold boot_software_check. cbn [negb].
    unfold software_version_check at 1.
    destruct (existsb _ (filter no_boot_description titles)) eqn:EV.
    + assert (V : version_row prefix titles) by (now apply HV).
      cbn [negb andb]. split.
      * intros H. split; [exact B|]. split; [exact V|]. intros y Hy.
        destruct (string_dec y "Boot Software") as [->|N1]; [tauto|].
        destruct (string_dec y "Dataset") as [->|N2].
        -- pose proof (dataset_found titles) as D.
           destruct ((2 <=? List.length (filter is_software titles))%nat
                     && existsb (fun r => Py.str_in "DATASET" (Py.upper (description r))
                                          || Py.str_in "DATA SET"
                                               (Py.upper (description r)))
                                (filter is_software titles)) eqn:ED.
           ++ right. right. split; [reflexivity | now apply D].
           ++ left. apply H. apply In_remove_if; [exact H1|]. split; [|exact N1].
              apply In_dataset_inference; [exact Hm|]. split; [exact Hy|].
              intros [_ Bd]. apply D in Bd. discriminate Bd.
        -- left. apply H. apply In_remove_if; [exact H1|]. split; [|exact N1].
           apply In_dataset_inference; [exact Hm|]. split; [exact Hy|]. tauto.
      * intros [_ [_ H]] y Hy. apply In_remove_if in Hy as [Hy N1]; [|exact H1].
        apply In_dataset_inference in Hy as [Hy N2]; [|exact Hm].
        destruct (H y Hy) as [Py|[E|E]]; [exact Py | congruence | tauto].
    + split.
      * intros H. exfalso. apply NS, H.
        cbn [negb andb].
        match goal with |- In _ (if negb ?b then _ else _) =>
          destruct b eqn:M; cbn [negb] end.
        -- now apply mem_In.
        -- apply In_snoc. now right.
      * intros [_ [V _]]. apply HV in V. discriminate V.
  - split.
    + intros H. exfalso. apply NB, H. apply In_software_version_check.
      unfold boot_software_check. cbn [negb]. apply In_snoc. now right.
    + intros [B _]. apply HB in B. discriminate B.
Qed.

Lemma nil_iff_no_element (l : list string) : l = [] <-> forall y, In y l -> False.
Proof.
  split; [intros -> y []|]. destruct l as [|z l]; [reflexivity|].
  intros H. exfalso. apply (H z). now left.
Qed.

Lemma remove_if_nil (g : string) (m : list string) :
  (count g m <= 1)%nat ->
  ((if Py.mem g m then Py.remove g m else m) = [] <-> forall y, In y m -> y = g).
Proof.
  intros C. destruct (Py.mem g m) eqn:M.
  - destruct m as [|z l]; [simpl; split; [intros _ y [] | reflexivity]|].
    simpl. destruct (String.eqb_spec g z) as [->|N].
    + split.
      * intros ->. intros y [<-|[]]. reflexivity.
      * intros H. destruct l as [|w l]; [reflexivity|].
        assert (E : w = z) by (apply H; simpl; auto). subst w.
        unfold count in C. simpl in C.
        destruct (string_dec z z); [lia | congruence].
    + split; [discriminate|]. intros H. exfalso. apply N. symmetry. apply H. now left.
  - apply mem_false in M. split.
    + intros -> y [].
    + intros H. destruct m as [|z l]; [reflexivity|]. exfalso. apply M.
      left. apply H. now left.
Qed.

Lemma can_check_nil (found : bool) (g q : string) (m : list string) :
  (count g m <= 1)%nat ->
  (can_termination_check found g q m = [] <-> found = true /\ forall y, In y m -> y = g).
Proof.
  intros C. unfold can_termination_check. destruct found; cbn [negb].
  - rewrite (remove_if_nil g m C). tauto.
  - split; [|intros [E _]; discriminate E].
    intros E. apply app_eq_nil in E as [_ E]. discriminate E.
Qed.

Lemma reported_successful_iff (self : t) (titles : list bom_row) (rep : bom_report) :
  In (letter_identifier self) ["R"; "SC"; "X"] ->
  get_bom_in_content self titles = Ok rep ->
  (reported_successful rep = true <-> missing_elements self titles = []).
Proof.
  intros Hl H. unfold get_bom_in_content in H.
  destruct (tabulate self _ titles); cbn [bind] in H; [|discriminate H].
  destruct (missing_elements self titles) as [|x l].
  - assert (M : Py.mem (letter_identifier self) ["R"; "X"; "SC"; "B"; "Cover"] = true).
    { apply mem_In. simpl in Hl |- *. tauto. }
    rewrite M in H. injection H as <-. simpl. tauto.
  - injection H as <-. simpl. split; discriminate.
Qed.

(** X4.  The verdict of a radar run.  For a radar with the letter R, SC or
    X whose title does not name a camera, a run that returns is reported
    SUCCESSFUL exactly when: a title contains "Software"; with the letter R
    and the bracket option, titles contain "Screw", "Bracket" and "Nut";
    a title contains "Dataset" or the dataset is bundled with the
    software; a software row has a boot description; a software row
    without boot description holds "VER FU" and six digits; and a radar
    row has the keyword and the identifier of the CAN termination that the
    resistor option selects. *)
Theorem radar_successful_iff (self : t) (titles : list bom_row) (rep : bom_report) :
  initialized self ->
  element_name self = "Radar" ->
  camera_in_title self = false ->
  In (letter_identifier self) ["R"; "SC"; "X"] ->
  get_bom_in_content self titles = Ok rep ->
  (reported_successful rep = true
   <-> titled "Software" titles
       /\ (String.eqb (letter_identifier self) "R" && chbx_bracket self = true ->
           titled "Screw" titles /\ titled "Bracket" titles /\ titled "Nut" titles)
       /\ (titled "Dataset" titles \/ dataset_bundled titles)
       /\ boot_row "boot software" titles
       /\ version_row "VER FU" titles
       /\ (if chbx_resistor self
           then can_row "with can termination" "K218450H002" titles
           else can_row "wo can termination" "K188333H002" titles)).
Proof.
  intros Hinit Hname Hcam Hletter Hrep.
  rewrite (reported_successful_iff self titles rep Hletter Hrep).
  assert (Hradar : radar_in_title self = true
                   /\ type_in (type_dropdown self)
                        [FLR_25_BRACKET; FLC_25_BRACKET; FLC_25_COVER] = false).
  { destruct (initialized_inv self Hinit) as [[E _]|[[E _]|[[_ [T E]]|[E _]]]];
      try (rewrite Hname in E; discriminate E). now split. }
  destruct Hradar as [Hradar Hty].
  assert (HX : letter_R_SC_X self = true) by (now apply mem_In).
  unfold missing_elements. rewrite Hname.
  set (req := get_required_elements self "Radar").
  set (m0 := first_pass req titles).
  assert (Hnd : NoDup m0) by (apply NoDup_filter, required_NoDup).
  assert (Hbr : forall m, bracket_corrections self titles m = m).
  { intros m. unfold bracket_corrections.
    destruct (type_dropdown self); try discriminate Hty; now rewrite andb_false_r. }
  rewrite Hbr. unfold camera_corrections. rewrite Hcam. cbn [andb].
  unfold radar_corrections. rewrite Hradar, HX. cbn [andb].
  set (g := if chbx_resistor self then "with CAN termination" else "wo CAN termination").
  set (m3 := software_version_check radar_version_pattern titles _).
  assert (Hg : (count g m3 <= 1)%nat).
  { unfold m3. rewrite count_software_other, count_boot_other
      by (unfold g; destruct (chbx_resistor self); discriminate).
    etransitivity; [apply count_dataset_inference_le|].
    now apply count_NoDup. }
  assert (Hchain :
            (forall y, In y m3 -> y = g)
            <-> boot_row "boot software" titles /\ version_row "VER FU" titles
                /\ forall y, In y m0 ->
                             y = g \/ y = "Boot Software"
                             \/ (y = "Dataset" /\ dataset_bundled titles)).
  { unfold m3, radar_version_pattern.
    apply (shared_steps (fun y => y = g) "boot software" "VER FU" titles m0 Hnd);
      unfold g; destruct (chbx_resistor self); discriminate. }
  assert (Hfirst :
            (forall y, In y m0 ->
                       y = g \/ y = "Boot Software"
                       \/ (y = "Dataset" /\ dataset_bundled titles))
            <-> titled "Software" titles
                /\ (String.eqb (letter_identifier self) "R" && chbx_bracket self = true ->
                    titled "Screw" titles /\ titled "Bracket" titles
                    /\ titled "Nut" titles)
                /\ (titled "Dataset" titles \/ dataset_bundled titles)).
  { assert (Dec : forall e, titled e titles \/ ~ titled e titles).
    { intros e. unfold titled.
      destruct (existsb (fun r => Py.str_in e (title r)) titles) eqn:E.
      - left. now apply existsb_exists.
      - right. intros T. apply existsb_exists in T. congruence. }
    assert (Hreq : req = (["Dataset"; "Software"; "Boot Software"]
                          ++ (if String.eqb (letter_identifier self) "R"
                                 && chbx_bracket self
                              then ["Screw"; "Bracket"; "Nut"] else [])
                          ++ [g])%list) by (apply required_radar, Hletter).
    split.
    - intros H.
      assert (K : forall e, In e req -> e <> g -> e <> "Boot Software" ->
                            e <> "Dataset" -> titled e titles).
      { intros e He N1 N2 N3. destruct (Dec e) as [T|T]; [exact T|].
        destruct (H e) as [E|[E|[E _]]]; try congruence.
        apply first_pass_In. now split. }
      assert (G : g <> "Software" /\ g <> "Screw" /\ g <> "Bracket" /\ g <> "Nut").
      { unfold g. destruct (chbx_resistor self); repeat split; discriminate. }
      destruct G as [G1 [G2 [G3 G4]]].
      split; [|split].
      + apply K; try discriminate; [|congruence]. rewrite Hreq. simpl. tauto.
      + intros E. rewrite Hreq, E in K.
        repeat split; apply K; try discriminate; try congruence; simpl; tauto.
      + destruct (Dec "Dataset") as [T|T]; [now left|]. right.
        destruct (H "Dataset") as [E|[E|[_ B]]].
        * apply first_pass_In. split; [|exact T]. rewrite Hreq. now left.
        * exfalso. revert E. unfold g. destruct (chbx_resistor self); discriminate.
        * discriminate E.
        * exact B.
    - intros [Hs [Hb Hd]] y Hy. apply first_pass_In in Hy as [Hy T].
      rewrite Hreq in Hy. simpl in Hy.
      destruct Hy as [<-|[<-|[<-|Hy]]].
      + destruct Hd as [Hd|Hd]; [contradiction | auto].
      + contradiction.
      + auto.
      + apply in_app_iff in Hy as [Hy|[<-|[]]]; [|now left].
        destruct (String.eqb (letter_identifier self) "R" && chbx_bracket self);
          [|destruct Hy].
        destruct (Hb eq_refl) as [T1 [T2 T3]].
        destruct Hy as [<-|[<-|[<-|[]]]]; contradiction. }
  destruct (chbx_resistor self) eqn:Hres.
  - change "with CAN termination" with g.
    rewrite (can_check_nil _ g _ m3 Hg), can_found, Hchain, Hfirst. tauto.
  - change "wo CAN termination" with g.
    rewrite (can_check_nil _ g _ m3 Hg), can_found, Hchain, Hfirst. tauto.
Qed.

(** The run of a radar of the family FLR-25 with the letter X over a list
    that holds every required row. *)
Lemma radar_successful_iff_witness :
  exists rep,
    get_bom_in_content Samples.radar_x Samples.bom_quantity_2 = Ok rep
    /\ (reported_successful rep = true
        <-> titled "Software" Samples.bom_quantity_2
            /\ (false = true ->
                titled "Screw" Samples.bom_quantity_2
                /\ titled "Bracket" Samples.bom_quantity_2
                /\ titled "Nut" Samples.bom_quantity_2)
            /\ (titled "Dataset" Samples.bom_quantity_2
                \/ dataset_bundled Samples.bom_quantity_2)
            /\ boot_row "boot software" Samples.bom_quantity_2
            /\ version_row "VER FU" Samples.bom_quantity_2
            /\ can_row "wo can termination" "K188333H002" Samples.bom_quantity_2).
Proof.
  eexists. split; [reflexivity|].
  apply (radar_successful_iff Samples.radar_x Samples.bom_quantity_2 _
           radar_x_initialized eq_refl eq_refl).
  - simpl. tauto.
  - reflexivity.
Defined.

Lemma count_replace_first_pos (a b : string) (l : list string) :
  In a l -> count b (Py.replace_first a b l) <> 0%nat.
Proof.
  unfold count. induction l as [|z l IH]; [intros []|]. simpl.
  destruct (String.eqb_spec a z) as [<-|Nz]; simpl.
  - intros _. destruct (string_dec b b); [lia | congruence].
  - intros [M|M]; [congruence|].
    destruct (string_dec z b); [lia | now apply IH].
Qed.

(** X5.  The verdict of a camera run.  For a camera with the letter R, SC
    or X, a run that returns is reported SUCCESSFUL exactly when: titles
    contain "Software" and "Camera"; a title contains "Dataset" or the
    dataset is bundled with the software; a software row has "boot" in its
    description; a software row without "boot software" in its description
    holds "NA" and six digits; and a camera row has the identifier
    K188332H000. *)
Theorem camera_successful_iff (self : t) (titles : list bom_row) (rep : bom_report) :
  initialized self ->
  element_name self = "Camera" ->
  In (letter_identifier self) ["R"; "SC"; "X"] ->
  get_bom_in_content self titles = Ok rep ->
  (reported_successful rep = true
   <-> titled "Software" titles
       /\ titled "Camera" titles
       /\ (titled "Dataset" titles \/ dataset_bundled titles)
       /\ boot_row "boot" titles
       /\ version_row "NA" titles
       /\ camera_row titles).
Proof.
  intros Hinit Hname Hletter Hrep.
  rewrite (reported_successful_iff self titles rep Hletter Hrep).
  assert (Hcam : radar_in_title self = false /\ camera_in_title self = true
                 /\ type_in (type_dropdown self)
                      [FLR_25_BRACKET; FLC_25_BRACKET; FLC_25_COVER] = false).
  { destruct (initialized_inv self Hinit) as [[E _]|[[E _]|[[E _]|[_ [T [R C]]]]]];
      try (rewrite Hname in E; discriminate E). now repeat split. }
  destruct Hcam as [Hradar [Hcam Hty]].
  assert (HX : letter_R_SC_X self = true) by (now apply mem_In).
  unfold missing_elements. rewrite Hname.
  set (req := get_required_elements self "Camera").
  set (m0 := first_pass req titles).
  assert (Hreq : req = ["Dataset"; "Software"; "Boot Software"; "Camera"]).
  { unfold req, get_required_elements.
    destruct Hletter as [E|[E|[E|[]]]]; rewrite <- E; reflexivity. }
  assert (Hnd : NoDup m0) by (apply NoDup_filter, required_NoDup).
  assert (Hbr : forall m, bracket_corrections self titles m = m).
  { intros m. unfold bracket_corrections.
    destruct (type_dropdown self); try discriminate Hty; now rewrite andb_false_r. }
  rewrite Hbr. unfold radar_corrections. rewrite Hradar. cbn [andb].
  unfold camera_corrections. rewrite Hcam, HX. cbn [andb].
  pose proof (camera_found titles) as HC.
  assert (Dec : forall e, titled e titles \/ ~ titled e titles).
  { intros e. unfold titled.
    destruct (existsb (fun r => Py.str_in e (title r)) titles) eqn:E.
    - left. now apply existsb_exists.
    - right. intros T. apply existsb_exists in T. congruence. }
  destruct (existsb _ titles) eqn:EC; cbn [negb].
  - assert (C : camera_row titles) by (now apply HC).
    rewrite nil_iff_no_element. unfold camera_version_pattern.
    rewrite (shared_steps (fun _ => False) "boot" "NA" titles m0 Hnd) by tauto.
    split.
    + intros [B [V H]].
      assert (K : forall e, In e req -> e <> "Boot Software" -> e <> "Dataset" ->
                            titled e titles).
      { intros e He N1 N2. destruct (Dec e) as [T|T]; [exact T|].
        destruct (H e) as [[]|[E|[E _]]]; try congruence.
        apply first_pass_In. now split. }
      repeat split; try assumption.
      * apply K; try discriminate. rewrite Hreq. simpl. tauto.
      * apply K; try discriminate. rewrite Hreq. simpl. tauto.
      * destruct (Dec "Dataset") as [T|T]; [now left|]. right.
        destruct (H "Dataset") as [[]|[E|[_ D]]]; [|discriminate E | exact D].
        apply first_pass_In. split; [|exact T]. rewrite Hreq. now left.
    + intros [Hs [Hk [Hd [B [V _]]]]]. split; [exact B|]. split; [exact V|].
      intros y Hy. apply first_pass_In in Hy as [Hy T].
      rewrite Hreq in Hy. simpl in Hy.
      destruct Hy as [<-|[<-|[<-|[<-|[]]]]]; try contradiction; [|auto].
      destruct Hd as [Hd|Hd]; [contradiction | auto].
  - split.
    + intros E. exfalso.
      assert (N : count "Camera (K188332H000)"
                    (if Py.mem "Camera" m0
                     then Py.replace_first "Camera" "Camera (K188332H000)" m0
                     else (m0 ++ ["Camera (K188332H000)"])%list) <> 0%nat).
      { destruct (Py.mem "Camera" m0) eqn:M.
        - apply mem_In in M. now apply count_replace_first_pos.
        - rewrite count_snoc_same. lia. }
      apply N. rewrite <- (count_dataset_inference_other _ titles) by discriminate.
      rewrite <- (count_boot_other _
                    (existsb (fun r => is_software r
                                       && Py.str_in "boot" (Py.lower (description r)))
                             titles)) by discriminate.
      rewrite <- (count_software_other _ camera_version_pattern titles) by discriminate.
      rewrite E. reflexivity.
    + intros [_ [_ [_ [_ [_ C]]]]]. apply HC in C. discriminate C.
Qed.

(** The run of a camera with the letter X over a list that holds every
    required row. *)
Lemma camera_successful_iff_witness :
  exists rep,
    get_bom_in_content SamplesMore.camera_x SamplesMore.bom_camera = Ok rep
    /\ (reported_successful rep = true
        <-> titled "Software" SamplesMore.bom_camera
            /\ titled "Camera" SamplesMore.bom_camera
            /\ (titled "Dataset" SamplesMore.bom_camera
                \/ dataset_bundled SamplesMore.bom_camera)
            /\ boot_row "boot" SamplesMore.bom_camera
            /\ version_row "NA" SamplesMore.bom_camera
            /\ camera_row SamplesMore.bom_camera).
Proof.
  eexists. split; [reflexivity|].
  apply (camera_successful_iff SamplesMore.camera_x SamplesMore.bom_camera _).
  - exists false, "K015123X000", "Camera Module", "X", false, false, FLC_25. reflexivity.
  - reflexivity.
  - simpl. tauto.
  - reflexivity.
Defined.

End Verdict.

(** ** The report of the documents *)

Section DocumentReport.

Import Spec SpecMore Fusion3.

Lemma filter_kind_accepted (K : string) (req : list string) (documents : list document) :
  In K req ->
  filter (fun d => String.eqb (document_kind d) K)
         (filter (fun d => Py.mem (document_kind d) req
                           && Py.mem (lifecycle_state d) required_states)
                 documents)
  = accepted_of_kind K documents.
Proof.
  intros Hreq. unfold accepted_of_kind.
  induction documents as [|d l IH]; [reflexivity|]. cbn [filter].
  destruct (String.eqb_spec (document_kind d) K) as [E|Hne].
  - rewrite E. apply mem_In in Hreq. rewrite Hreq. cbn [andb].
    destruct (Py.mem (lifecycle_state d) required_states); cbn [filter].
    + rewrite E, String.eqb_refl. now rewrite IH.
    + exact IH.
  - cbn [andb]. destruct (_ && _); cbn [filter]; [|exact IH].
    destruct (String.eqb_spec (document_kind d) K); [contradiction|].
    exact IH.
Qed.

Lemma existsb_false_filter {A : Type} (f : A -> bool) (l : list A) :
  existsb f l = false <-> filter f l = [].
Proof.
  induction l as [|a l IH]; simpl; [tauto|].
  destruct (f a); simpl; [split; discriminate | exact IH].
Qed.

(** The present documents: the loop over the required kinds collects, kind
    by kind, the records of the filtered frame. *)
Lemma scan_rows_present (doc_type : string) (rows : list document) :
  forall (doc_exists : bool) (st : docs_state),
    present_docs_list (snd (scan_rows doc_type rows doc_exists st))
    = (present_docs_list st
       ++ filter (fun d => String.eqb (document_kind d) doc_type) rows)%list.
Proof.
  induction rows as [|row rest IH]; intros ex st; cbn [scan_rows filter].
  - now rewrite app_nil_r.
  - destruct (String.eqb (document_kind row) doc_type).
    + rewrite IH. cbn [present_docs_list]. now rewrite <- app_assoc.
    + apply IH.
Qed.

Lemma check_doc_type_present (rd : list document) (st : docs_state) (doc_type : string) :
  present_docs_list (check_doc_type rd st doc_type)
  = (present_docs_list st
     ++ filter (fun d => String.eqb (document_kind d) doc_type) rd)%list.
Proof.
  unfold check_doc_type.
  pose proof (scan_rows_present doc_type rd false st) as H.
  destruct (scan_rows doc_type rd false st) as [ex st']. cbn [snd] in H.
  destruct (String.eqb doc_type "Assembly Drawing").
  - destruct (filter _ rd); exact H.
  - exact H.
Qed.

Lemma fold_check_doc_type_present (rd : list document) (required_docs : list string) :
  forall st,
    present_docs_list (fold_left (check_doc_type rd) required_docs st)
    = (present_docs_list st
       ++ flat_map (fun K => filter (fun d => String.eqb (document_kind d) K) rd)
            required_docs)%list.
Proof.
  induction required_docs as [|dt rest IH]; intros st; cbn [fold_left flat_map].
  - now rewrite app_nil_r.
  - rewrite IH, check_doc_type_present. now rewrite <- app_assoc.
Qed.

Lemma flat_map_ext_in {A B : Type} (f g : A -> list B) (l : list A) :
  (forall a, In a l -> f a = g a) -> flat_map f l = flat_map g l.
Proof.
  induction l as [|a l IH]; intros H; [reflexivity|]. cbn [flat_map].
  rewrite (H a) by now left. rewrite IH; [reflexivity|].
  intros b Hb. apply H. now right.
Qed.

(** X6.  The table of the present documents.  Whenever the check of the
    documents returns, the rows that it collected for its table (the
    source then sorts them by lifecycle state) are, kind by kind in the
    order of the required kinds, the records of the kind whose lifecycle
    state is one of Working, Proposed, Rejected, Approved, Released, in
    the order of the dict; no other record is collected. *)
Theorem present_documents_table (self : t) (documents : list document)
    (rep : docs_report) :
  validate_required_docs self documents = Ok rep ->
  docs_df rep
  = flat_map (fun K => accepted_of_kind K documents) (required_docs_of self).
Proof.
  unfold validate_required_docs, required_docs_of.
  destruct documents as [|d docs].
  - intros H. injection H as <-. cbn [docs_df].
    induction (match required_and_optional_docs self with
               | (Some r, _, _) => r | _ => [] end) as [|K l IH];
      [reflexivity | exact IH].
  - destruct (required_and_optional_docs self) as [[[req|] opt] note];
      [|intros H; discriminate H].
    set (rd := filter _ (d :: docs)).
    pose proof (fold_check_doc_type_present rd req
                  {| present_docs_list := []; missing_docs := [];
                     us_missing := true |}) as Hp.
    cbn [present_docs_list app] in Hp.
    assert (Hflat : flat_map (fun K => filter (fun d => String.eqb (document_kind d) K)
                                              rd) req
                    = flat_map (fun K => accepted_of_kind K (d :: docs)) req).
    { apply flat_map_ext_in. intros K HK. now apply filter_kind_accepted. }
    rewrite Hflat in Hp. cbv zeta.
    match goal with
    | |- match ?m with [] => _ | _ :: _ => _ end = _ -> _ => destruct m
    end.
    + intros H. injection H as <-. exact Hp.
    + match goal with
      | |- bind ?c _ = _ -> _ => destruct c as [adv|e]
      end; cbn [bind]; intros H; [|discriminate H].
      injection H as <-. exact Hp.
Qed.

Lemma present_documents_table_witness :
  exists rep,
    validate_required_docs Samples.radar_x Samples.docs_schedule = Ok rep
    /\ docs_df rep
       = flat_map (fun K => accepted_of_kind K Samples.docs_schedule)
           (required_docs_of Samples.radar_x).
Proof.
  eexists. split; [reflexivity|].
  exact (present_documents_table Samples.radar_x Samples.docs_schedule _ eq_refl).
Defined.

Lemma docs_profile_names (self : t) :
  initialized self ->
  exists req opt note,
    required_and_optional_docs self = (Some req, opt, note)
    /\ NoDup req
    /\ (forall x, In x req ->
                  x <> "Assembly Drawing Schedule" /\ x <> "Assembly Drawing CAD"
                  /\ x <> "Service Data - US" /\ x <> "Process Data Sheet (BWs)")
    /\ (In "Service Data" req
        <-> type_in (type_dropdown self) [FLC_20; FLR_21; FLC_25; FLR_25] = true)
    /\ (In "Process Data Sheet" req
        <-> type_in (type_dropdown self) [FLC_25_BRACKET] = true).
Proof.
  intros Hinit.
  destruct (initialized_inv self Hinit)
    as [[E [Ht _]]|[[E [Ht _]]|[[E [Ht _]]|[E [Ht _]]]]];
    unfold required_and_optional_docs; rewrite E; cbn [String.eqb Ascii.eqb Bool.eqb andb].
  - destruct (type_dropdown self); try discriminate Ht; cbn;
      destruct (is_am_bracket self); do 3 eexists;
      (split; [reflexivity|]);
      (split; [repeat constructor; simpl; intuition discriminate|]);
      (split; [intros x Hx; simpl in Hx; repeat split; intros ->;
               intuition discriminate|]);
      simpl; split; split; intuition discriminate.
  - rewrite Ht. cbn. destruct (is_am_bracket self); do 3 eexists;
      (split; [reflexivity|]);
      (split; [repeat constructor; simpl; intuition discriminate|]);
      (split; [intros x Hx; simpl in Hx; repeat split; intros ->;
               intuition discriminate|]);
      simpl; split; split; intuition discriminate.
  - destruct (String.eqb (letter_identifier self) "R"); do 3 eexists;
      (split; [reflexivity|]);
      (split; [repeat constructor; simpl; intuition discriminate|]);
      (split; [intros x Hx; simpl in Hx; repeat split; intros ->;
               intuition discriminate|]);
      destruct (type_dropdown self); try discriminate Ht;
      simpl; split; split; intuition discriminate.
  - destruct (String.eqb (letter_identifier self) "R"); do 3 eexists;
      (split; [reflexivity|]);
      (split; [repeat constructor; simpl; intuition discriminate|]);
      (split; [intros x Hx; simpl in Hx; repeat split; intros ->;
               intuition discriminate|]);
      destruct (type_dropdown self); try discriminate Ht;
      simpl; split; split; intuition discriminate.
Qed.

Lemma In_contribution (req : list string) (documents : list document) (dt y : string) :
  In dt req ->
  (In y (contribution (filter (fun d => Py.mem (document_kind d) req
                                        && Py.mem (lifecycle_state d) required_states)
                              documents) dt)
   <-> (dt <> "Assembly Drawing" /\ y = dt /\ accepted_of_kind dt documents = [])
       \/ (dt = "Assembly Drawing"
           /\ ((y = "Assembly Drawing Schedule"
                /\ existsb has_schedule
                     (accepted_of_kind "Assembly Drawing" documents) = false)
               \/ (y = "Assembly Drawing CAD"
                   /\ forallb has_schedule
                        (accepted_of_kind "Assembly Drawing" documents) = true)))).
Proof.
  intros Hdt. unfold contribution.
  destruct (String.eqb_spec dt "Assembly Drawing") as [->|N].
  - rewrite (filter_kind_accepted _ req documents Hdt).
    destruct (accepted_of_kind "Assembly Drawing" documents) as [|a l].
    + simpl. intuition congruence.
    + destruct (existsb has_schedule (a :: l)), (forallb has_schedule (a :: l));
        simpl; intuition congruence.
  - pose proof (existsb_false_filter
                  (fun d => String.eqb (document_kind d) dt)
                  (filter (fun d => Py.mem (document_kind d) req
                                    && Py.mem (lifecycle_state d) required_states)
                          documents)) as F.
    rewrite (filter_kind_accepted _ req documents Hdt) in F.
    destruct (existsb _ _); simpl.
    + split; [tauto|]. intros [[_ [_ A]]|[E _]]; [|contradiction].
      apply F in A. discriminate A.
    + split.
      * intros [<-|[]]. left. repeat split; [exact N | now apply F].
      * intros [[_ [-> _]]|[E _]]; [now left | contradiction].
Qed.

Lemma In_remove_once (x y : string) (l : list string) :
  (count x l <= 1)%nat ->
  (In y (if Py.mem x l then Py.remove x l else l) <-> In y l /\ y <> x).
Proof.
  intros C. destruct (Py.mem x l) eqn:M.
  - split.
    + intros H. split; [eapply In_remove; eauto|]. intros ->.
      apply count_In in H. rewrite count_remove_same in H. lia.
    + intros [H N]. now apply In_remove_other.
  - apply mem_false in M. split; [|tauto].
    intros H. split; [exact H | congruence].
Qed.

Lemma covered_iff (req : list string) (documents : list document) :
  In "Service Data" req ->
  existsb (covers (filter (fun d => Py.mem (document_kind d) req
                                    && Py.mem (lifecycle_state d) required_states)
                          documents)) req
  = existsb names_us_or_en (accepted_of_kind "Service Data" documents).
Proof.
  intros Hreq.
  destruct (existsb names_us_or_en _) eqn:E.
  - apply existsb_exists in E as [d [Hd N]].
    unfold accepted_of_kind in Hd. apply filter_In in Hd as [Hd K].
    apply andb_true_iff in K as [K S].
    apply existsb_exists. exists "Service Data". split; [exact Hreq|].
    unfold covers. cbn [String.eqb Ascii.eqb Bool.eqb andb].
    apply existsb_exists. exists d. split; [|now rewrite K, N].
    apply filter_In. split; [exact Hd|]. rewrite S, andb_true_r.
    apply String.eqb_eq in K. rewrite K. now apply mem_In.
  - now apply not_covered.
Qed.

(** The rule of the missing documents, for the list that the steps of the
    check compute from the profile. *)
Lemma final_missing_rule (self : t) (req : list string) (opt : option (list string))
    (note : bool) (documents : list document) :
  initialized self ->
  required_and_optional_docs self = (Some req, opt, note) ->
  forall x, In x (final_missing self req documents) <-> missing_rule self documents x.
Proof.
  intros Hinit Hp x.
  destruct (docs_profile_names self Hinit)
    as [req' [opt' [note' [Hp' [Hnd [Hnames [Hsd Hpds]]]]]]].
  rewrite Hp in Hp'. injection Hp' as <- <- <-.
  unfold missing_rule, requires_doc. rewrite Hp.
  unfold final_missing.
  set (rd := filter _ documents).
  set (m := flat_map (contribution rd) req).
  set (fam := type_in (type_dropdown self) [FLC_20; FLR_21; FLC_25; FLR_25]) in *.
  assert (HM : forall y,
             In y m
             <-> (In y req /\ y <> "Assembly Drawing"
                  /\ accepted_of_kind y documents = [])
                 \/ (In "Assembly Drawing" req
                     /\ ((y = "Assembly Drawing Schedule"
                          /\ existsb has_schedule
                               (accepted_of_kind "Assembly Drawing" documents) = false)
                         \/ (y = "Assembly Drawing CAD"
                             /\ forallb has_schedule
                                  (accepted_of_kind "Assembly Drawing" documents)
                                = true)))).
  { intros y. unfold m. rewrite in_flat_map. split.
    - intros [dt [Hdt Hy]]. unfold rd in Hy.
      apply In_contribution in Hy; [|exact Hdt].
      destruct Hy as [[N [-> A]]|[-> Hy]]; [left; auto | right; auto].
    - intros [[Hy [N A]]|[Hy H]].
      + exists y. split; [exact Hy|]. unfold rd. apply In_contribution; auto.
      + exists "Assembly Drawing". split; [exact Hy|].
        unfold rd. apply In_contribution; auto. }
  assert (Hcount : (count "Service Data" m <= 1)%nat).
  { etransitivity; [apply count_flat_contribution_le; discriminate|].
    now apply count_NoDup. }
  set (m' := if fam && negb (existsb (covers rd) req)
             then ((if Py.mem "Service Data" m then Py.remove "Service Data" m else m)
                   ++ ["Service Data - US"])%list
             else m).
  assert (HM' : forall y,
             In y m'
             <-> (In y m /\ y <> "Service Data")
                 \/ (y = "Service Data - US" /\ fam = true
                     /\ existsb names_us_or_en
                          (accepted_of_kind "Service Data" documents) = false)).
  { intros y. unfold m'. destruct fam eqn:F; cbn [andb].
    - assert (S : In "Service Data" req) by (now apply Hsd).
      unfold rd. rewrite (covered_iff req documents S). fold rd.
      destruct (existsb names_us_or_en _) eqn:C; cbn [negb].
      + split; [|intros [[H _]|[_ [_ H]]]; [exact H | discriminate H]].
        intros H. left. split; [exact H|]. intros ->.
        apply HM in H as [[_ [_ A]]|[_ [[E _]|[E _]]]]; try discriminate E.
        rewrite A in C. discriminate C.
      + rewrite In_snoc, (In_remove_once "Service Data" y m Hcount). tauto.
    - split; [|intros [[H _]|[_ [H _]]]; [exact H | discriminate H]].
      intros H. left. split; [exact H|]. intros ->.
      apply HM in H as [[S _]|[_ [[E _]|[E _]]]]; try discriminate E.
      apply Hsd in S. discriminate S. }
  assert (Hno : forall y, In y m' -> y <> "Process Data Sheet (BWs)").
  { intros y Hy ->. apply HM' in Hy as [[Hy _]|[E _]]; [|discriminate E].
    apply HM in Hy as [[Hy _]|[_ [[E _]|[E _]]]]; try discriminate E.
    apply Hnames in Hy. tauto. }
  assert (Hfinal :
            In x (if type_in (type_dropdown self) [FLC_25_BRACKET]
                  then map (fun item => if negb (String.eqb item "Process Data Sheet")
                                        then item else "Process Data Sheet (BWs)") m'
                  else m')
            <-> (In x m' /\ x <> "Process Data Sheet")
                \/ (x = "Process Data Sheet (BWs)" /\ In "Process Data Sheet" m')).
  { destruct (type_in (type_dropdown self) [FLC_25_BRACKET]) eqn:B.
    - rewrite in_map_iff. split.
      + intros [y [E Hy]]. revert E.
        destruct (String.eqb_spec y "Process Data Sheet") as [Ey|N]; cbn [negb];
          intros <-.
        * right. subst y. now split.
        * left. now split.
      + intros [[Hx N]|[-> Hx]].
        * exists x. split; [|exact Hx].
          destruct (String.eqb_spec x "Process Data Sheet"); [contradiction | reflexivity].
        * exists "Process Data Sheet". now split.
    - split.
      + intros Hx. left. split; [exact Hx|]. intros ->.
        apply HM' in Hx as [[Hx _]|[E _]]; [|discriminate E].
        apply HM in Hx as [[Hx _]|[_ [[E _]|[E _]]]]; try discriminate E.
        apply Hpds in Hx. discriminate Hx.
      + intros [[Hx _]|[-> Hx]]; [exact Hx|].
        exfalso.
        apply HM' in Hx as [[Hx _]|[E _]]; [|discriminate E].
        apply HM in Hx as [[Hx _]|[_ [[E _]|[E _]]]]; try discriminate E.
        apply Hpds in Hx. discriminate Hx. }
  rewrite Hfinal. clear Hfinal. split.
  - intros [[Hx N]|[-> Hx]].
    + apply HM' in Hx as [[Hx N2]|Hx]; [|tauto].
      apply HM in Hx as [[Hx [N1 A]]|[Hx [H|H]]]; tauto.
    + apply HM' in Hx as [[Hx _]|[E _]]; [|discriminate E].
      apply HM in Hx as [[Hx [_ A]]|[_ [[E _]|[E _]]]]; try discriminate E.
      tauto.
  - intros [[Hx [N1 [N2 [N3 A]]]]|[[-> [Hx A]]|[[-> [Hx A]]|[[-> [F A]]|[-> [Hx A]]]]]].
    + left. split; [|exact N3]. apply HM'. left. split; [|exact N2].
      apply HM. left. auto.
    + left. split; [|discriminate]. apply HM'. left. split; [|discriminate].
      apply HM. right. auto.
    + left. split; [|discriminate]. apply HM'. left. split; [|discriminate].
      apply HM. right. auto.
    + left. split; [|discriminate]. apply HM'. right. auto.
    + right. split; [reflexivity|]. apply HM'. left. split; [|discriminate].
      apply HM. left. repeat split; [exact Hx | discriminate | exact A].
Qed.

(** X7.  What the report names as missing.  For an object that
    [initialize_main_params] produced and a dict of documents that is not
    empty, a report names [x] as missing exactly in five cases: [x] is a
    required kind other than the assembly drawing, the service data and
    the process data sheet, and no record of the kind is in an accepted
    state; [x] is the schedule or the CAD of a required assembly drawing
    and no, or every, accepted record of the kind has "schedule" in its
    title; [x] is "Service Data - US", the family has the language rule and
    no accepted record of the service data names US or EN; [x] is
    "Process Data Sheet (BWs)" and the required process data sheet has no
    accepted record.  The names "Assembly Drawing", "Service Data" and
    "Process Data Sheet" are never reported. *)
Theorem missing_documents_rule (self : t) (d : document) (docs : list document)
    (rep : docs_report) :
  initialized self ->
  validate_required_docs self (d :: docs) = Ok rep ->
  forall x, In x (reported_missing rep) <-> missing_rule self (d :: docs) x.
Proof.
  intros Hinit Hrep x.
  destruct (validate_required_docs_returns self d docs Hinit)
    as [rep' [req [opt [note [Hp [Hv Hm]]]]]].
  rewrite Hv in Hrep. injection Hrep as <-. rewrite Hm.
  exact (final_missing_rule self req opt note (d :: docs) Hinit Hp x).
Qed.

(** The rule at a radar whose only document is a schedule of the assembly
    drawing. *)
Lemma missing_documents_rule_witness :
  exists rep,
    validate_required_docs Samples.radar_x Samples.docs_schedule = Ok rep
    /\ forall x, In x (reported_missing rep)
                 <-> missing_rule Samples.radar_x Samples.docs_schedule x.
Proof.
  eexists. split; [reflexivity|].
  exact (missing_documents_rule Samples.radar_x
           (Samples.doc "Z068947-SCHEDULE, US, American English, 008"
              "Assembly Drawing" "Released") [] _ radar_x_initialized eq_refl).
Defined.

Lemma docs_names_apart (self : t) :
  initialized self ->
  names_apart ("Service Data" :: optional_docs_of self)
    (required_docs_of self
     ++ ["Assembly Drawing Schedule"; "Assembly Drawing CAD"; "Service Data - US";
         "Process Data Sheet (BWs)"]) = true.
Proof.
  intros Hinit. unfold optional_docs_of, required_docs_of.
  destruct (initialized_inv self Hinit)
    as [[E [Ht _]]|[[E [Ht _]]|[[E [Ht _]]|[E [Ht _]]]]];
    unfold required_and_optional_docs; rewrite E; cbn [String.eqb Ascii.eqb Bool.eqb andb].
  - destruct (type_dropdown self); try discriminate Ht; cbn;
      destruct (is_am_bracket self); vm_compute; reflexivity.
  - rewrite Ht. cbn. destruct (is_am_bracket self); vm_compute; reflexivity.
  - destruct (String.eqb (letter_identifier self) "R"); vm_compute; reflexivity.
  - destruct (String.eqb (letter_identifier self) "R"); vm_compute; reflexivity.
Qed.

Lemma names_apart_spec (es names : list string) (e doc : string) :
  names_apart es names = true -> In e es -> In doc names ->
  Py.str_in e doc = true ->
  doc = e
  \/ (e = "Process Data Sheet" /\ doc = "Process Data Sheet (BWs)")
  \/ (e = "Service Data" /\ doc = "Service Data - US").
Proof.
  unfold names_apart. intros H He Hd Hs.
  rewrite forallb_forall in H. specialize (H e He).
  rewrite forallb_forall in H. specialize (H doc Hd).
  rewrite Hs in H. cbn [implb] in H.
  apply orb_true_iff in H as [H|H]; [apply orb_true_iff in H as [H|H]|].
  - left. now apply String.eqb_eq.
  - apply andb_true_iff in H as [H1 H2]. right. left.
    split; now apply String.eqb_eq.
  - apply andb_true_iff in H as [H1 H2]. right. right.
    split; now apply String.eqb_eq.
Qed.

(** The message of a report, from the list of the missing documents. *)
Lemma validate_required_docs_message (self : t) (d : document) (docs : list document)
    (rep : docs_report) (req : list string) (opt : option (list string)) (note : bool) :
  initialized self ->
  required_and_optional_docs self = (Some req, opt, note) ->
  validate_required_docs self (d :: docs) = Ok rep ->
  let fm := final_missing self req (d :: docs) in
  (fm = [] /\ docs_msg_of rep = DocsSuccessful req)
  \/ (fm <> []
      /\ docs_msg_of rep
         = DocsMissing fm
             ((if type_in (type_dropdown self) [FLC_20; FLR_21; FLC_25; FLR_25]
                  && existsb (Py.str_in "Service Data") fm
               then ["Service Data"] else [])
              ++ (if type_in (type_dropdown self) [FLR_25_BRACKET; FLC_25_BRACKET]
                  then filter (fun element => existsb (Py.str_in element) fm)
                              (optional_docs_of self)
                  else []))%list).
Proof.
  intros Hinit Hp. unfold optional_docs_of, validate_required_docs. rewrite Hp.
  set (rd := filter _ (d :: docs)).
  destruct (fold_check_doc_type_spec rd req
              {| present_docs_list := []; missing_docs := []; us_missing := true |})
    as [Hm Hu].
  cbn [missing_docs us_missing app andb] in Hm, Hu.
  cbv zeta. rewrite Hm, Hu.
  remember (final_missing self req (d :: docs)) as fm eqn:Hf.
  unfold final_missing in Hf. fold rd in Hf. cbv zeta in Hf. rewrite <- Hf.
  clear Hm Hu Hf. destruct fm as [|x l].
  - intros H. injection H as <-. left. split; reflexivity.
  - destruct (type_in (type_dropdown self) [FLR_25_BRACKET; FLC_25_BRACKET]) eqn:B.
    + destruct opt as [optional_docs|]; cbn [bind]; intros H; [|discriminate H].
      injection H as <-. right. split; [discriminate | reflexivity].
    + cbn [bind]. intros H. injection H as <-. right.
      split; [discriminate | reflexivity].
Qed.

(** X8.  The message of the report of the documents.  For an object that
    [initialize_main_params] produced and a dict of documents that is not
    empty: when no name is missing by the rule, the message says
    SUCCESSFUL with the required kinds of the profile; otherwise it lists
    the missing names and asks to validate the document [e] exactly when
    [e] is the service data and "Service Data - US" is missing, or [e] is
    an optional document of a bracket that is missing. *)
Theorem documents_message (self : t) (d : document) (docs : list document)
    (rep : docs_report) :
  initialized self ->
  validate_required_docs self (d :: docs) = Ok rep ->
  ((forall x, ~ missing_rule self (d :: docs) x)
   /\ docs_msg_of rep = DocsSuccessful (required_docs_of self))
  \/ ((exists x, missing_rule self (d :: docs) x)
      /\ exists adv,
           docs_msg_of rep = DocsMissing (reported_missing rep) adv
           /\ forall e, In e adv <-> advisory_rule self (d :: docs) e).
Proof.
  intros Hinit Hrep.
  assert (Hrule : forall x, In x (reported_missing rep)
                            <-> missing_rule self (d :: docs) x).
  { intros x.
    destruct (validate_required_docs_returns self d docs Hinit)
      as [rep' [req [opt [note [Hp [Hv Hm]]]]]].
    rewrite Hv in Hrep. injection Hrep as <-. rewrite Hm.
    exact (final_missing_rule self req opt note (d :: docs) Hinit Hp x). }
  destruct (docs_profile_names self Hinit)
    as [req [opt [note [Hp [Hnd [Hnames [Hsd Hpds]]]]]]].
  pose proof (docs_names_apart self Hinit) as Hapart.
  destruct (validate_required_docs_message self d docs rep req opt note Hinit Hp Hrep)
    as [[Hnil Hmsg]|[Hcons Hmsg]].
  - left. split.
    + intros x Hx. apply Hrule in Hx. unfold reported_missing in Hx.
      rewrite Hmsg in Hx. destruct Hx.
    + rewrite Hmsg. unfold required_docs_of. now rewrite Hp.
  - right.
    assert (Hfm : reported_missing rep = final_missing self req (d :: docs)).
    { unfold reported_missing. now rewrite Hmsg. }
    split.
    + destruct (final_missing self req (d :: docs)) as [|x l] eqn:F; [congruence|].
      exists x. apply Hrule. rewrite Hfm. now left.
    + eexists. split; [rewrite Hfm; exact Hmsg|].
      rewrite <- Hfm.
      assert (Huniv : forall doc, In doc (reported_missing rep) ->
                In doc (required_docs_of self
                        ++ ["Assembly Drawing Schedule"; "Assembly Drawing CAD";
                            "Service Data - US"; "Process Data Sheet (BWs)"])%list).
      { intros doc Hd. apply Hrule in Hd. apply in_app_iff.
        unfold missing_rule, requires_doc, required_docs_of in *. rewrite Hp in *.
        destruct Hd as [[H _]|[[-> _]|[[-> _]|[[-> _]|[-> _]]]]];
          [now left | right; simpl; tauto ..]. }
      assert (Hsub : forall e, In e ("Service Data" :: optional_docs_of self) ->
                (existsb (Py.str_in e) (reported_missing rep) = true
                 <-> In e (reported_missing rep)
                     \/ (e = "Process Data Sheet"
                         /\ In "Process Data Sheet (BWs)" (reported_missing rep))
                     \/ (e = "Service Data"
                         /\ In "Service Data - US" (reported_missing rep)))).
      { intros e He. rewrite existsb_exists. split.
        - intros [doc [Hd Hs]].
          destruct (names_apart_spec _ _ e doc Hapart He (Huniv doc Hd) Hs)
            as [->|[[-> ->]|[-> ->]]]; auto.
        - intros [H|[[-> H]|[-> H]]].
          + exists e. split; [exact H|]. apply str_in_spec.
            exists "", "". simpl. now rewrite append_nil_r.
          + exists "Process Data Sheet (BWs)". split; [exact H | reflexivity].
          + exists "Service Data - US". split; [exact H | reflexivity]. }
      assert (Hnever : ~ In "Service Data" (reported_missing rep)
                       /\ ~ In "Process Data Sheet" (reported_missing rep)).
      { split; intros H; apply Hrule in H; unfold missing_rule in H;
          destruct H as [H|[[E _]|[[E _]|[[E _]|[E _]]]]]; try discriminate E;
          tauto. }
      destruct Hnever as [Hnsd Hnpds].
      intros e. unfold advisory_rule. rewrite <- !Hrule.
      rewrite in_app_iff. split.
      * intros [H|H]; revert H.
        -- destruct (type_in (type_dropdown self) [FLC_20; FLR_21; FLC_25; FLR_25]);
             [|intros []]. cbn [andb].
           destruct (existsb (Py.str_in "Service Data") (reported_missing rep)) eqn:X;
             [|intros []].
           intros [<-|[]]. left. split; [reflexivity|].
           apply Hsub in X; [|now left].
           destruct X as [X|[[E _]|[_ X]]]; [contradiction | discriminate E | exact X].
        -- destruct (type_in (type_dropdown self) [FLR_25_BRACKET; FLC_25_BRACKET])
             eqn:B; [|intros []].
           intros H. apply filter_In in H as [He X]. right. split; [reflexivity|].
           split; [exact He|].
           apply Hsub in X; [|now right].
           destruct X as [X|[[E X]|[E X]]]; [now left | now right; split |].
           subst e. exfalso. apply Hrule in X. unfold missing_rule in X.
           destruct X as [[H _]|[[E _]|[[E _]|[[_ [F _]]|[E _]]]]];
             try discriminate E.
           ++ unfold requires_doc in H. rewrite Hp in H. apply Hnames in H. tauto.
           ++ destruct (type_dropdown self); discriminate.
      * intros [[-> H]|[B [He H]]].
        -- left.
           assert (F : type_in (type_dropdown self) [FLC_20; FLR_21; FLC_25; FLR_25]
                       = true).
           { apply Hrule in H. unfold missing_rule in H.
             destruct H as [[H _]|[[E _]|[[E _]|[[_ [F _]]|[E _]]]]];
               try discriminate E; [|exact F].
             unfold requires_doc in H. rewrite Hp in H. apply Hnames in H. tauto. }
           rewrite F. cbn [andb].
           assert (X : existsb (Py.str_in "Service Data") (reported_missing rep) = true).
           { apply Hsub; [now left|]. right. right. now split. }
           rewrite X. now left.
        -- right. rewrite B. apply filter_In. split; [exact He|].
           apply Hsub; [now right|]. destruct H as [H|[-> H]]; [now left|].
           right. left. now split.
Qed.

(** The message at a radar whose only document is a schedule of the
    assembly drawing. *)
Lemma documents_message_witness :
  exists rep,
    validate_required_docs Samples.radar_x Samples.docs_schedule = Ok rep
    /\ (((forall x, ~ missing_rule Samples.radar_x Samples.docs_schedule x)
         /\ docs_msg_of rep = DocsSuccessful (required_docs_of Samples.radar_x))
        \/ ((exists x, missing_rule Samples.radar_x Samples.docs_schedule x)
            /\ exists adv,
                 docs_msg_of rep = DocsMissing (reported_missing rep) adv
                 /\ forall e, In e adv
                              <-> advisory_rule Samples.radar_x Samples.docs_schedule e)).
Proof.
  eexists. split; [reflexivity|].
  exact (documents_message Samples.radar_x
           (Samples.doc "Z068947-SCHEDULE, US, American English, 008"
              "Assembly Drawing" "Released") [] _ radar_x_initialized eq_refl).
Defined.

End DocumentReport.

(** ** The checks of the part number before a run *)

Section Validators.

Import Spec SpecMore Regex.


Lemma validate_part_number_some (pn l : string) :
  Utils.validate_part_number pn = Some l <->
  has_variant_pattern pn /\ first_occurring ["R"; "X"; "N"; "SC"] pn l.
Proof.
  unfold Utils.validate_part_number.
  pose proof (search_part_number_pattern pn) as Hp.
  pose proof (first_letter_spec ["R"; "X"; "N"; "SC"] pn l) as Hl.
  cbn [map] in Hl. fold Utils.letter_patterns in Hl.
  destruct (search Utils.part_number_pattern pn).
  - rewrite Hl. split; [intros H; split; [now apply Hp | exact H] | tauto].
  - split; [discriminate|]. intros [H _]. apply Hp in H. discriminate H.
Qed.

Lemma first_occurring_cases (pn l : string) :
  first_occurring ["R"; "X"; "N"; "SC"] pn l <->
  (l = "R" /\ occurs "R" pn)
  \/ (l = "X" /\ ~ occurs "R" pn /\ occurs "X" pn)
  \/ (l = "N" /\ ~ occurs "R" pn /\ ~ occurs "X" pn /\ occurs "N" pn)
  \/ (l = "SC" /\ ~ occurs "R" pn /\ ~ occurs "X" pn /\ ~ occurs "N" pn
      /\ occurs "SC" pn).
Proof.
  unfold first_occurring. split.
  - intros [before [after [E [Hb Hl]]]].
    destruct before as [|b1 [|b2 [|b3 [|b4 before]]]]; cbn in E.
    + injection E as <- _. now left.
    + injection E as <- <- _. right. left. repeat split; [|exact Hl].
      apply Hb. simpl. tauto.
    + injection E as <- <- <- _. right. right. left.
      repeat split; [| |exact Hl]; apply Hb; simpl; tauto.
    + injection E as <- <- <- <- _. right. right. right.
      repeat split; [| | |exact Hl]; apply Hb; simpl; tauto.
    + injection E as _ _ _ _ E. destruct before; discriminate E.
  - intros [[-> H]|[[-> [H1 H]]|[[-> [H1 [H2 H]]]|[-> [H1 [H2 [H3 H]]]]]]].
    + exists [], ["X"; "N"; "SC"]. repeat split; [intros x []|exact H].
    + exists ["R"], ["N"; "SC"]. repeat split; [|exact H].
      intros x [<-|[]]. exact H1.
    + exists ["R"; "X"], ["SC"]. repeat split; [|exact H].
      intros x [<-|[<-|[]]]; assumption.
    + exists ["R"; "X"; "N"], []. repeat split; [|exact H].
      intros x [<-|[<-|[<-|[]]]]; assumption.
Qed.

Lemma occurs_dec (t s : string) : occurs t s \/ ~ occurs t s.
Proof.
  destruct (search (Str t) s) eqn:E.
  - left. now apply search_str.
  - right. intros H. apply search_str in H. congruence.
Qed.

(** X9.  The check of the part number for the families FLC-25 and FLR-25.
    The part number is accepted exactly when it holds the pattern "digits,
    one of X R N SC, digits" and either an R or an X occurs in it or no N
    does; the letter that the check leaves is then R, X or SC, never N. *)
Theorem is_valid_part_number_fusion3 (selected_type : DropdownType)
    (part_number : string) (old : option string) :
  type_in selected_type [FLC_25; FLR_25] = true ->
  let '(accepted, letter) :=
    WebAutomation.is_valid_part_number selected_type part_number old in
  (accepted = true
   <-> has_variant_pattern part_number
       /\ (occurs "R" part_number \/ occurs "X" part_number
           \/ ~ occurs "N" part_number))
  /\ (accepted = true -> exists l, letter = Some l /\ In l ["R"; "X"; "SC"]).
Proof.
  intros Hty. unfold WebAutomation.is_valid_part_number. rewrite Hty.
  destruct (Utils.validate_part_number part_number) as [l|] eqn:V.
  - apply validate_part_number_some in V as [Hp Hl].
    apply first_occurring_cases in Hl.
    destruct Hl as [[-> H]|[[-> [H1 H]]|[[-> [H1 [H2 H]]]|[-> [H1 [H2 [H3 H]]]]]]];
      cbn [String.eqb Ascii.eqb Bool.eqb andb]; (split; [split|]).
    + tauto.
    + reflexivity.
    + intros _. exists "R". simpl. auto.
    + tauto.
    + reflexivity.
    + intros _. exists "X". simpl. auto.
    + discriminate.
    + intros [_ [R|[X|N]]]; contradiction.
    + discriminate.
    + tauto.
    + reflexivity.
    + intros _. exists "SC". simpl. auto.
  - split; [split|discriminate]; [discriminate|].
    intros [Hp _]. exfalso.
    assert (E : exists l, first_occurring ["R"; "X"; "N"; "SC"] part_number l).
    { destruct Hp as [l [Hl Hin]]. apply letter_in_pattern_occurs in Hin.
      destruct (occurs_dec "R" part_number) as [R|R];
        [exists "R"; apply first_occurring_cases; tauto|].
      destruct (occurs_dec "X" part_number) as [X|X];
        [exists "X"; apply first_occurring_cases; tauto|].
      destruct (occurs_dec "N" part_number) as [N|N];
        [exists "N"; apply first_occurring_cases; tauto|].
      exists "SC". apply first_occurring_cases.
      unfold variant_letters in Hl. simpl in Hl.
      destruct Hl as [<-|[<-|[<-|[<-|[]]]]]; try contradiction. tauto. }
    destruct E as [l E].
    assert (S : Utils.validate_part_number part_number = Some l)
      by (apply validate_part_number_some; now split).
    congruence.
Qed.

Lemma is_valid_part_number_fusion3_witness :
  type_in FLR_25 [FLC_25; FLR_25] = true
  /\ let '(accepted, letter) :=
       WebAutomation.is_valid_part_number FLR_25 "K015123N000" None in
     (accepted = true
      <-> has_variant_pattern "K015123N000"
          /\ (occurs "R" "K015123N000" \/ occurs "X" "K015123N000"
              \/ ~ occurs "N" "K015123N000"))
     /\ (accepted = true -> exists l, letter = Some l /\ In l ["R"; "X"; "SC"]).
Proof.
  split; [reflexivity|].
  exact (is_valid_part_number_fusion3 FLR_25 "K015123N000" None eq_refl).
Defined.

(** X10.  A part number that [validate_partX_number] accepts is returned as
    it is, and [validate_part_number] accepts it too: with the letter R
    when an R occurs in it, and with the letter X otherwise. *)
Theorem validate_partX_number_letter (part_number p : string) :
  UtilsMore.validate_partX_number part_number = Some p ->
  p = part_number
  /\ Utils.validate_part_number part_number
     = Some (if search (Str "R") part_number then "R" else "X").
Proof.
  unfold UtilsMore.validate_partX_number.
  destruct (search UtilsMore.partX_pattern part_number) eqn:S; [|discriminate].
  intros [= <-]. split; [reflexivity|].
  change UtilsMore.partX_pattern with (letter_pattern "X") in S.
  apply search_letter_pattern in S.
  apply validate_part_number_some. split.
  - exists "X". split; [simpl; tauto | exact S].
  - apply first_occurring_cases.
    pose proof (search_str "R" part_number) as HR.
    destruct (search (Str "R") part_number).
    + left. split; [reflexivity | now apply HR].
    + right. left. split; [reflexivity|]. split.
      * intros H. apply HR in H. discriminate H.
      * now apply letter_in_pattern_occurs.
Qed.

Lemma validate_partX_number_letter_witness :
  UtilsMore.validate_partX_number "K015123X000" = Some "K015123X000"
  /\ "K015123X000" = "K015123X000"
  /\ Utils.validate_part_number "K015123X000"
     = Some (if search (Str "R") "K015123X000" then "R" else "X").
Proof.
  split; [reflexivity|].
  exact (validate_partX_number_letter "K015123X000" "K015123X000" eq_refl).
Defined.



End Validators.

(** ** The report of the aftermarket product *)

Section Aftermarket.

Import Spec SpecMore Fusion3 Fusion3More.

Lemma aftermarket_frame_one (e : string) (docs : list am_document) :
  let '(frame, missing) := aftermarket_frame [e] docs in
  frame = filter (fun d => Py.mem (Lifecycle_State d) required_states
                           && Py.str_in e (Title_ID_value d)) docs
  /\ ((frame = [] /\ missing = [e]) \/ (frame <> [] /\ missing = [])).
Proof.
  unfold aftermarket_frame. destruct docs as [|d0 docs]; [simpl; auto|].
  set (f := fun d => Py.mem (Lifecycle_State d) required_states
                     && existsb (fun e0 => Regex.search (Regex.Str e0) (Title_ID_value d))
                                [e]).
  set (g := fun d => Py.mem (Lifecycle_State d) required_states
                     && Py.str_in e (Title_ID_value d)).
  assert (Hfg : forall d, f d = g d).
  { intros d. unfold f, g. cbn [existsb]. rewrite orb_false_r. f_equal.
    pose proof (search_str e (Title_ID_value d)) as S.
    pose proof (str_in_spec e (Title_ID_value d)) as I. unfold occurs in S.
    destruct (Regex.search _ _), (Py.str_in _ _); try reflexivity.
    - symmetry. apply I, S. reflexivity.
    - apply S, I. reflexivity. }
  assert (E : filter f (d0 :: docs) = filter g (d0 :: docs)).
  { generalize (d0 :: docs). intros l. induction l as [|a l IH]; [reflexivity|].
    cbn [filter]. now rewrite Hfg, IH. }
  rewrite E. split; [reflexivity|].
  destruct (filter g (d0 :: docs)) as [|a l] eqn:F.
  - left. split; reflexivity.
  - right. split; [discriminate|].
    assert (Ha : g a = true).
    { assert (Hin : In a (filter g (d0 :: docs))) by (rewrite F; now left).
      apply filter_In in Hin. tauto. }
    unfold g in Ha. apply andb_true_iff in Ha as [_ Ha].
    apply str_in_lower in Ha. cbn [filter existsb]. now rewrite Ha.
Qed.

(** X12.  The report of the aftermarket product.  For an object that
    [initialize_main_params] produced, with the aftermarket flag only on a
    bracket or a cover, the call returns; the rows of its table are the
    documents read from the page (by the reader that the flag selects)
    whose lifecycle state is accepted and whose title contains the element
    name; and the report either names the element as missing beside an
    empty table, or shows a table that is not empty and names nothing:
    never both, never neither. *)
Theorem aftermarket_report (self : t) (docs docs_for : list am_document) :
  initialized self ->
  (is_am_bracket self = true ->
   type_in (type_dropdown self) [FLC_25_BRACKET; FLR_25_BRACKET; FLC_25_COVER] = true) ->
  exists rep,
    validate_aftermarket_product self docs docs_for = Ok rep
    /\ am_df rep
       = filter (fun d => Py.mem (Lifecycle_State d) required_states
                          && Py.str_in (element_name self) (Title_ID_value d))
                (if is_am_bracket self then docs_for else docs)
    /\ ((am_df rep = [] /\ am_missing rep = [element_name self]
         /\ am_results rep = false)
        \/ (am_df rep <> [] /\ am_missing rep = [] /\ am_results rep = true)).
Proof.
  intros _ Hty. unfold validate_aftermarket_product.
  assert (Hgen : forall chosen,
            exists rep,
              bind (Ok (aftermarket_frame [element_name self] chosen))
                   (fun frame =>
                      let '(aftermarket_df, missing_aftermarket_elements) := frame in
                      Ok {| am_missing := missing_aftermarket_elements;
                            am_results := match aftermarket_df with
                                          | [] => false
                                          | _ :: _ => true
                                          end;
                            am_df := aftermarket_df |}) = Ok rep
              /\ am_df rep
                 = filter (fun d => Py.mem (Lifecycle_State d) required_states
                                    && Py.str_in (element_name self) (Title_ID_value d))
                          chosen
              /\ ((am_df rep = [] /\ am_missing rep = [element_name self]
                   /\ am_results rep = false)
                  \/ (am_df rep <> [] /\ am_missing rep = []
                      /\ am_results rep = true))).
  { intros chosen. cbn [bind].
    pose proof (aftermarket_frame_one (element_name self) chosen) as H.
    destruct (aftermarket_frame [element_name self] chosen) as [frame missing].
    destruct H as [Hf H]. eexists. split; [reflexivity|].
    cbn [am_df am_missing am_results]. split; [exact Hf|].
    destruct H as [[-> ->]|[N ->]].
    - left. auto.
    - right. destruct frame; [congruence | auto]. }
  destruct (is_am_bracket self); cbn [negb].
  - rewrite (Hty eq_refl). apply Hgen.
  - apply Hgen.
Qed.

(** An aftermarket bracket of the family FLR-25 with one released
    document. *)
Lemma aftermarket_report_witness :
  exists rep,
    validate_aftermarket_product SamplesMore.bracket_am [] SamplesMore.docs_am = Ok rep
    /\ am_df rep
       = filter (fun d => Py.mem (Lifecycle_State d) required_states
                          && Py.str_in "Bracket" (Title_ID_value d))
                SamplesMore.docs_am
    /\ ((am_df rep = [] /\ am_missing rep = ["Bracket"] /\ am_results rep = false)
        \/ (am_df rep <> [] /\ am_missing rep = [] /\ am_results rep = true)).
Proof.
  apply (aftermarket_report SamplesMore.bracket_am [] SamplesMore.docs_am).
  - exists true, "K123456", "Bracket Assembly", "B", false, false, FLR_25_BRACKET.
    reflexivity.
  - reflexivity.
Defined.

End Aftermarket.

(** ** The headers and the rows of the content table *)

Section ContentTable.

Import Spec SpecMore Fusion3 UtilsTable.

Lemma dict_set_new {V : Type} (k : string) (v : V) (d : list (string * V)) :
  ~ In k (map fst d) -> dict_set k v d = (d ++ [(k, v)])%list.
Proof.
  induction d as [|[k' v'] d IH]; simpl; [reflexivity|].
  intros H. destruct (String.eqb_spec k k') as [->|N]; [tauto|].
  rewrite IH; [reflexivity | tauto].
Qed.

Lemma sorted_items_sorted (l : list (string * nat)) :
  StronglySorted lt (map snd l) -> sorted_items l = l.
Proof.
  induction l as [|x l IH]; [reflexivity|]. cbn [map]. intros H.
  apply StronglySorted_inv in H as [Hl Hx]. cbn [sorted_items fold_right].
  fold (sorted_items l). rewrite (IH Hl).
  destruct l as [|y l]; [reflexivity|]. cbn [insert_item].
  cbn [map] in Hx. apply Forall_inv in Hx.
  destruct (Nat.leb_spec (snd x) (snd y)); [reflexivity | lia].
Qed.

Lemma sorted_snoc (l : list nat) (n : nat) :
  StronglySorted lt l -> (forall v, In v l -> v < n) -> StronglySorted lt (l ++ [n]).
Proof.
  induction l as [|a l IH]; intros Hs Hb; simpl.
  - constructor; constructor.
  - apply StronglySorted_inv in Hs as [Hl Ha]. constructor.
    + apply IH; [exact Hl|]. intros v Hv. apply Hb. now right.
    + apply Forall_app. split; [exact Ha|]. constructor; [|constructor].
      apply Hb. now left.
Qed.

Lemma remove_nil_NoDup (x : string) (l : list string) :
  NoDup l -> In x l -> Py.remove x l = [] -> l = [x].
Proof.
  intros Hnd Hx Hr. destruct l as [|y l]; [destruct Hx|]. simpl in Hr.
  destruct (String.eqb_spec x y) as [->|N]; [now subst | discriminate Hr].
Qed.

(** The loop keeps, in the order of the page, the first position of every
    header that it was asked for. *)
Lemma headers_loop_spec (page : list string) :
  forall (idx : nat) (headers : list string) (acc : list (string * nat)),
    NoDup headers ->
    (forall k v, In (k, v) acc -> v < idx) ->
    (forall k, In k (map fst acc) -> ~ In k headers) ->
    StronglySorted lt (map snd acc) ->
    StronglySorted lt (map snd (headers_loop idx page headers acc))
    /\ forall h i,
         In (h, i) (headers_loop idx page headers acc)
         <-> In (h, i) acc
             \/ (In h headers
                 /\ exists j, first_index h page = Some j /\ i = idx + j).
Proof.
  induction page as [|header rest IH]; intros idx headers acc Hnd Hlt Hkeys Hs.
  - cbn [headers_loop]. split; [exact Hs|]. intros h i. split; [auto|].
    intros [H|[_ [j [E _]]]]; [exact H | discriminate E].
  - cbn [headers_loop].
    assert (Hshift : forall h, h <> header ->
              forall i, (exists j, first_index h rest = Some j /\ i = S idx + j)
                        <-> (exists j, first_index h (header :: rest) = Some j
                                       /\ i = idx + j)).
    { intros h N i. cbn [first_index].
      destruct (String.eqb_spec h header) as [E|_]; [contradiction|].
      split.
      - intros [j [E ->]]. exists (S j). rewrite E. split; [reflexivity | lia].
      - intros [j [E ->]]. destruct (first_index h rest) as [j'|]; [|discriminate E].
        injection E as <-. exists j'. split; [reflexivity | lia]. }
    destruct (Py.mem header headers) eqn:M.
    + apply mem_In in M.
      assert (Hnew : ~ In header (map fst acc)) by (intros H; now apply (Hkeys header)).
      rewrite (dict_set_new header idx acc Hnew).
      assert (Hs' : StronglySorted lt (map snd (acc ++ [(header, idx)]))).
      { rewrite map_app. apply sorted_snoc; [exact Hs|].
        intros v Hv. apply in_map_iff in Hv as [[k v'] [E Hv]]. simpl in E. subst v'.
        now apply (Hlt k). }
      assert (Hfirst : first_index header (header :: rest) = Some 0).
      { cbn [first_index]. now rewrite String.eqb_refl. }
      destruct (Py.remove header headers) as [|h0 hs] eqn:R.
      * split; [exact Hs'|].
        apply (remove_nil_NoDup header headers Hnd M) in R. subst headers.
        intros h i. rewrite in_app_iff. split.
        -- intros [H|[E|[]]]; [now left|]. injection E as <- <-.
           right. split; [now left|]. exists 0. split; [exact Hfirst | lia].
        -- intros [H|[[<-|[]] [j [E ->]]]]; [now left|].
           rewrite Hfirst in E. injection E as <-. right. left. f_equal. lia.
      * rewrite <- R.
        assert (Hnd' : NoDup (Py.remove header headers)) by (now apply NoDup_remove).
        assert (Hin' : forall h, In h (Py.remove header headers)
                                 <-> In h headers /\ h <> header).
        { intros h. apply In_remove_iff. exact Hnd. }
        destruct (IH (S idx) (Py.remove header headers) (acc ++ [(header, idx)])%list
                     Hnd') as [Hsorted Hin].
        -- intros k v Hkv. apply in_app_iff in Hkv as [Hkv|[E|[]]].
           ++ apply Hlt in Hkv. lia.
           ++ injection E as _ <-. lia.
        -- intros k Hk. rewrite map_app in Hk. apply in_app_iff in Hk as [Hk|[<-|[]]].
           ++ intros H. apply Hin' in H as [H _]. now apply (Hkeys k).
           ++ intros H. apply Hin' in H. tauto.
        -- exact Hs'.
        -- split; [exact Hsorted|]. intros h i. rewrite Hin, in_app_iff. split.
           ++ intros [[H|[E|[]]]|[Hh Hj]].
              ** now left.
              ** injection E as <- <-. right. split; [exact M|].
                 exists 0. split; [exact Hfirst | lia].
              ** apply Hin' in Hh as [Hh N]. right. split; [exact Hh|].
                 now apply Hshift.
           ++ intros [H|[Hh Hj]]; [left; now left|].
              destruct (string_dec h header) as [->|N].
              ** destruct Hj as [j [E ->]]. rewrite Hfirst in E. injection E as <-.
                 left. right. left. f_equal. lia.
              ** right. split; [apply Hin'; now split | now apply Hshift].
    + apply mem_false in M. destruct headers as [|h0 hs] eqn:Eh.
      * split; [exact Hs|]. intros h i. split; [auto|].
        intros [H|[[] _]]. exact H.
      * rewrite <- Eh in *. clear Eh h0 hs.
        destruct (IH (S idx) headers acc Hnd) as [Hsorted Hin].
        -- intros k v Hkv. apply Hlt in Hkv. lia.
        -- exact Hkeys.
        -- exact Hs.
        -- split; [exact Hsorted|]. intros h i. rewrite Hin. split.
           ++ intros [H|[Hh Hj]]; [now left|]. right. split; [exact Hh|].
              apply Hshift; [congruence | exact Hj].
           ++ intros [H|[Hh Hj]]; [now left|]. right. split; [exact Hh|].
              apply Hshift; [congruence | exact Hj].
Qed.

Lemma get_headers_idx_spec (page headers : list string) :
  NoDup headers ->
  StronglySorted lt (map snd (get_headers_idx page headers))
  /\ forall h i,
       In (h, i) (get_headers_idx page headers)
       <-> In h headers /\ first_index h page = Some i.
Proof.
  intros Hnd. unfold get_headers_idx.
  destruct (headers_loop_spec page 0 headers [] Hnd) as [Hs Hin].
  - intros k v [].
  - intros k [].
  - constructor.
  - rewrite (sorted_items_sorted _ Hs). split; [exact Hs|].
    intros h i. rewrite Hin. split.
    + intros [[]|[Hh [j [E ->]]]]. now split.
    + intros [Hh E]. right. split; [exact Hh|]. now exists i.
Qed.

(** X13.  The indices of the headers.  For a list of headers without
    repetition, [get_headers_idx] holds the pair of a header and an index
    exactly when the header was asked for and the index is the position
    of its first occurrence among the header elements of the page; the
    pairs stand by increasing index already before the sort, which so
    leaves the order as the loop built it. *)
Theorem get_headers_idx_first_positions (page headers : list string) :
  NoDup headers ->
  get_headers_idx page headers = headers_loop 0 page headers []
  /\ StronglySorted lt (map snd (get_headers_idx page headers))
  /\ forall h i,
       In (h, i) (get_headers_idx page headers)
       <-> In h headers /\ first_index h page = Some i.
Proof.
  intros Hnd. unfold get_headers_idx.
  destruct (headers_loop_spec page 0 headers [] Hnd) as [Hs Hin].
  - intros k v [].
  - intros k [].
  - constructor.
  - rewrite (sorted_items_sorted _ Hs). split; [reflexivity|]. split; [exact Hs|].
    intros h i. rewrite Hin. split.
    + intros [[]|[Hh [j [E ->]]]]. now split.
    + intros [Hh E]. right. split; [exact Hh|]. now exists i.
Qed.

Lemma get_headers_idx_first_positions_witness :
  NoDup ["Title ID Value"; "Quantity"; "Description"; "ID"]
  /\ get_headers_idx SamplesMore.page_headers
       ["Title ID Value"; "Quantity"; "Description"; "ID"]
     = headers_loop 0 SamplesMore.page_headers
         ["Title ID Value"; "Quantity"; "Description"; "ID"] []
  /\ StronglySorted lt
       (map snd (get_headers_idx SamplesMore.page_headers
                   ["Title ID Value"; "Quantity"; "Description"; "ID"]))
  /\ forall h i,
       In (h, i) (get_headers_idx SamplesMore.page_headers
                    ["Title ID Value"; "Quantity"; "Description"; "ID"])
       <-> In h ["Title ID Value"; "Quantity"; "Description"; "ID"]
           /\ first_index h SamplesMore.page_headers = Some i.
Proof.
  assert (H : NoDup ["Title ID Value"; "Quantity"; "Description"; "ID"]).
  { repeat constructor; simpl; intuition discriminate. }
  split; [exact H|].
  exact (get_headers_idx_first_positions SamplesMore.page_headers _ H).
Defined.

Lemma dict_get_In {V : Type} (k : string) (v : V) (d : list (string * V)) :
  dict_get k d = Some v -> In (k, v) d.
Proof.
  induction d as [|[k' v'] d IH]; simpl; [discriminate|].
  destruct (String.eqb_spec k k') as [->|N].
  - intros [= ->]. now left.
  - intros H. right. now apply IH.
Qed.

Lemma In_dict_get {V : Type} (k : string) (v : V) (d : list (string * V)) :
  In (k, v) d -> dict_get k d <> None.
Proof.
  induction d as [|[k' v'] d IH]; simpl; [tauto|].
  destruct (String.eqb_spec k k') as [->|N]; [discriminate|].
  intros [E|H]; [congruence | now apply IH].
Qed.

Lemma dict_get_map {V W : Type} (f : V -> W) (k : string) (d : list (string * V)) :
  dict_get k (map (fun kv => (fst kv, f (snd kv))) d) = option_map f (dict_get k d).
Proof.
  induction d as [|[k' v'] d IH]; simpl; [reflexivity|].
  destruct (String.eqb k k'); [reflexivity | exact IH].
Qed.

Lemma dict_get_headers_idx (page headers : list string) (h : string) :
  NoDup headers -> In h headers ->
  dict_get h (get_headers_idx page headers) = first_index h page.
Proof.
  intros Hnd Hh.
  destruct (get_headers_idx_spec page headers Hnd) as [_ Hin].
  destruct (dict_get h (get_headers_idx page headers)) as [i|] eqn:G.
  - apply dict_get_In, Hin in G. symmetry. tauto.
  - destruct (first_index h page) as [i|] eqn:F; [|reflexivity].
    exfalso. apply (In_dict_get h i (get_headers_idx page headers)); [|exact G].
    apply Hin. now split.
Qed.

Lemma seq_add_map (init n : nat) : seq init n = map (Nat.add init) (seq 0 n).
Proof.
  induction init as [|init IH]; [now rewrite map_id|].
  rewrite <- seq_shift, IH, map_map. reflexivity.
Qed.

Lemma nth_error_map_seq {A : Type} (g : nat -> A) (init n i : nat) :
  i < n -> nth_error (map g (seq init n)) i = Some (g (init + i)).
Proof.
  intros H. rewrite nth_error_map, nth_error_seq.
  destruct (Nat.ltb_spec i n); [reflexivity | lia].
Qed.

Lemma map_nth_seq {A : Type} (d : A) (c : list A) :
  forall n, n <= List.length c -> map (fun i => nth i c d) (seq 0 n) = firstn n c.
Proof.
  induction c as [|a c IH]; intros n H.
  - simpl in H. assert (n = 0) by lia. now subst.
  - destruct n as [|n]; [reflexivity|]. simpl in H. cbn [seq map nth firstn].
    f_equal. rewrite <- seq_shift, map_map. apply IH. lia.
Qed.

Lemma cell_at_ok (values : list (string * list string)) (h : string)
    (c : list string) (i : nat) :
  dict_get h values = Some c -> i < List.length c ->
  cell_at values h i = inr (nth i c "").
Proof.
  intros G L. unfold cell_at. rewrite G.
  destruct (nth_error c i) as [x|] eqn:E.
  - now rewrite (nth_error_nth c i "" E).
  - apply nth_error_None in E. lia.
Qed.

Lemma title_tuples_ok (values : list (string * list string))
    (cT cQ cD cI : list string) (rows : list nat) :
  dict_get "Title ID Value" values = Some cT ->
  dict_get "Quantity" values = Some cQ ->
  dict_get "Description" values = Some cD ->
  dict_get "ID" values = Some cI ->
  (forall i, In i rows ->
             i < List.length cT /\ i < List.length cQ
             /\ i < List.length cD /\ i < List.length cI) ->
  title_tuples values rows
  = inr (map (fun i => {| title := nth i cT ""; quantity := nth i cQ "";
                          description := nth i cD ""; id_ := nth i cI "" |}) rows).
Proof.
  intros GT GQ GD GI. induction rows as [|i rows IH]; intros H; [reflexivity|].
  cbn [title_tuples map]. unfold title_tuple.
  destruct (H i (or_introl eq_refl)) as [LT [LQ [LD LI]]].
  rewrite (cell_at_ok _ _ _ _ GT LT), (cell_at_ok _ _ _ _ GQ LQ),
    (cell_at_ok _ _ _ _ GD LD), (cell_at_ok _ _ _ _ GI LI).
  rewrite IH; [reflexivity|]. intros j Hj. apply H. now right.
Qed.

(** X14.  The rows from the columns.  When the dict holds the four columns
    "Title ID Value", "Quantity", "Description" and "ID", each as long at
    least as the first column of the dict, [create_title_tuples] returns
    as many rows as the first column has entries, and the four fields of
    the rows, read down the list, are the leading entries of the four
    columns: with columns of equal length, the columns themselves. *)
Theorem create_title_tuples_columns (k0 : string) (c0 : list string)
    (rest : list (string * list string)) (cT cQ cD cI : list string) :
  let values := (k0, c0) :: rest in
  dict_get "Title ID Value" values = Some cT ->
  dict_get "Quantity" values = Some cQ ->
  dict_get "Description" values = Some cD ->
  dict_get "ID" values = Some cI ->
  List.length c0 <= List.length cT -> List.length c0 <= List.length cQ ->
  List.length c0 <= List.length cD -> List.length c0 <= List.length cI ->
  exists titles,
    create_title_tuples values = inr titles
    /\ List.length titles = List.length c0
    /\ map title titles = firstn (List.length c0) cT
    /\ map quantity titles = firstn (List.length c0) cQ
    /\ map description titles = firstn (List.length c0) cD
    /\ map id_ titles = firstn (List.length c0) cI.
Proof.
  intros values GT GQ GD GI LT LQ LD LI.
  unfold create_title_tuples, values. fold values.
  rewrite (title_tuples_ok values cT cQ cD cI _ GT GQ GD GI).
  - eexists. split; [reflexivity|].
    rewrite length_map, length_seq, !map_map. cbn [title quantity description id_].
    rewrite !map_nth_seq by assumption. auto.
  - intros i Hi. apply in_seq in Hi. lia.
Qed.

Lemma create_title_tuples_columns_witness :
  exists titles,
    create_title_tuples SamplesMore.values_table = inr titles
    /\ List.length titles = 2
    /\ map title titles = ["Dataset"; "Software"]
    /\ map quantity titles = ["1"; "2"]
    /\ map description titles = ["Dataset FLR-25"; "Application VER FU123456"]
    /\ map id_ titles = ["K030001D000"; "K030002S000"].
Proof.
  apply (create_title_tuples_columns "ID" ["K030001D000"; "K030002S000"]
           [("Title ID Value", ["Dataset"; "Software"]);
            ("Quantity", ["1"; "2"]);
            ("Description", ["Dataset FLR-25"; "Application VER FU123456"])]
           ["Dataset"; "Software"] ["1"; "2"]
           ["Dataset FLR-25"; "Application VER FU123456"]
           ["K030001D000"; "K030002S000"]);
    (reflexivity || (simpl; lia)).
Defined.

Lemma four_headers_NoDup : NoDup ["Title ID Value"; "Quantity"; "Description"; "ID"].
Proof. repeat constructor; simpl; intuition discriminate. Qed.

Lemma get_titles_values (page : list string) (cell : nat -> nat -> string)
    (n init : nat) (h : string) :
  In h ["Title ID Value"; "Quantity"; "Description"; "ID"] ->
  dict_get h
    (map (fun kv : string * nat =>
            (fst kv,
             map (fun i => Py.strip (cell (i + 1) (snd kv + 2))) (seq init n)))
         (get_headers_idx page ["Title ID Value"; "Quantity"; "Description"; "ID"]))
  = option_map (fun p => map (fun i => Py.strip (cell (i + 1) (p + 2))) (seq init n))
               (first_index h page).
Proof.
  intros Hh.
  rewrite (dict_get_map
             (fun p => map (fun i => Py.strip (cell (i + 1) (p + 2))) (seq init n))).
  now rewrite (dict_get_headers_idx page _ h four_headers_NoDup Hh).
Qed.

(** X15.  The rows of the content table.  When each of the headers
    "Title ID Value", "Quantity", "Description" and "ID" stands among the
    header elements of the page, [get_titles] returns one row for each of
    the elements, in their order: its four fields are the titles of the
    cells of that row (row index plus one) in the columns of the first
    occurrence of the four headers (position plus two), with the white
    space at both ends removed. *)
Theorem get_titles_rows (page : list string) (cell : nat -> nat -> string)
    (num_div init_idx pT pQ pD pI : nat) :
  first_index "Title ID Value" page = Some pT ->
  first_index "Quantity" page = Some pQ ->
  first_index "Description" page = Some pD ->
  first_index "ID" page = Some pI ->
  get_titles page cell num_div init_idx
  = inr (map (fun i => {| title := Py.strip (cell (i + 1) (pT + 2));
                          quantity := Py.strip (cell (i + 1) (pQ + 2));
                          description := Py.strip (cell (i + 1) (pD + 2));
                          id_ := Py.strip (cell (i + 1) (pI + 2)) |})
             (seq init_idx num_div)).
Proof.
  intros FT FQ FD FI. unfold get_titles.
  destruct num_div as [|n]; [reflexivity|].
  set (col := fun p => map (fun i => Py.strip (cell (i + 1) (p + 2)))
                           (seq init_idx (S n))).
  set (values := map _ (get_headers_idx page _)).
  assert (GT : dict_get "Title ID Value" values = Some (col pT)).
  { unfold values. rewrite get_titles_values by (simpl; tauto). now rewrite FT. }
  assert (GQ : dict_get "Quantity" values = Some (col pQ)).
  { unfold values. rewrite get_titles_values by (simpl; tauto). now rewrite FQ. }
  assert (GD : dict_get "Description" values = Some (col pD)).
  { unfold values. rewrite get_titles_values by (simpl; tauto). now rewrite FD. }
  assert (GI : dict_get "ID" values = Some (col pI)).
  { unfold values. rewrite get_titles_values by (simpl; tauto). now rewrite FI. }
  assert (Hlen : forall p, List.length (col p) = S n).
  { intros p. unfold col. now rewrite length_map, length_seq. }
  unfold create_title_tuples.
  destruct values as [|[k0 c0] rest] eqn:V; [discriminate GT|].
  assert (L0 : List.length c0 = S n).
  { assert (Hin : In (k0, c0) values) by (rewrite V; now left).
    unfold values in Hin. apply in_map_iff in Hin as [kv [E _]].
    apply (f_equal snd) in E. cbn [snd] in E. rewrite <- E.
      now rewrite length_map, length_seq. }
  rewrite L0.
  rewrite (title_tuples_ok _ (col pT) (col pQ) (col pD) (col pI) _ GT GQ GD GI)
    by (intros i Hi; apply in_seq in Hi; rewrite !Hlen; lia).
  f_equal. rewrite (seq_add_map init_idx (S n)), map_map.
  apply map_ext_in. intros i Hi. apply in_seq in Hi.
  assert (Hnth : forall p, nth i (col p) "" = Py.strip (cell (init_idx + i + 1) (p + 2))).
  { intros p. apply nth_error_nth. unfold col.
    rewrite (nth_error_map_seq
               (fun j => Py.strip (cell (j + 1) (p + 2))) init_idx (S n) i) by lia.
    reflexivity. }
  now rewrite !Hnth.
Qed.

Lemma get_titles_rows_witness :
  get_titles SamplesMore.page_headers (fun _ _ => " x ") 2 1
  = inr (map (fun i => {| title := Py.strip " x "; quantity := Py.strip " x ";
                          description := Py.strip " x "; id_ := Py.strip " x " |})
             (seq 1 2)).
Proof.
  exact (get_titles_rows SamplesMore.page_headers (fun _ _ => " x ") 2 1 2 4 6 1
           eq_refl eq_refl eq_refl eq_refl).
Defined.

(** X16.  A header that the page does not show.  When the page has
    elements and one of the four headers stands nowhere among the header
    elements, [get_titles] does not return rows.  Either none of the four
    headers is shown, and it raises StopIteration; or one of them at least
    is shown, and it raises a KeyError for the first header that is not
    shown, in the order "Title ID Value", "Quantity", "Description",
    "ID". *)
Theorem get_titles_missing_header (page : list string) (cell : nat -> nat -> string)
    (num_div init_idx : nat) (h : string) :
  0 < num_div ->
  In h ["Title ID Value"; "Quantity"; "Description"; "ID"] ->
  first_index h page = None ->
  ((forall k, In k ["Title ID Value"; "Quantity"; "Description"; "ID"] ->
              first_index k page = None)
   /\ get_titles page cell num_div init_idx = inl StopIteration)
  \/ ((exists k, In k ["Title ID Value"; "Quantity"; "Description"; "ID"]
                 /\ first_index k page <> None)
      /\ exists before k after,
           ["Title ID Value"; "Quantity"; "Description"; "ID"]
           = (before ++ k :: after)%list
           /\ (forall k', In k' before -> first_index k' page <> None)
           /\ first_index k page = None
           /\ get_titles page cell num_div init_idx = inl (KeyError k)).
Proof.
  intros Hn Hh Hnone. unfold get_titles.
  destruct num_div as [|n]; [lia|].
  set (col := fun p => map (fun i => Py.strip (cell (i + 1) (p + 2)))
                           (seq init_idx (S n))).
  set (values := map _ (get_headers_idx page _)).
  assert (G : forall k, In k ["Title ID Value"; "Quantity"; "Description"; "ID"] ->
                        dict_get k values = option_map col (first_index k page)).
  { intros k Hk. unfold values. now rewrite get_titles_values. }
  unfold create_title_tuples.
  destruct values as [|[k0 c0] rest] eqn:V.
  - left. split; [|reflexivity]. intros k Hk. specialize (G k Hk).
    simpl in G. destruct (first_index k page); [discriminate G | reflexivity].
  - right.
    assert (Hin : In (k0, c0) values) by (rewrite V; now left).
    unfold values in Hin. apply in_map_iff in Hin as [[k1 i1] [E Hkv]].
    assert (L0 : List.length c0 = S n).
    { apply (f_equal snd) in E. cbn [snd] in E. rewrite <- E.
      now rewrite length_map, length_seq. }
    assert (Shown : exists k, In k ["Title ID Value"; "Quantity"; "Description"; "ID"]
                              /\ first_index k page <> None).
    { destruct (get_headers_idx_spec page _ four_headers_NoDup) as [_ Hspec].
      apply Hspec in Hkv as [Hk1 F1]. exists k1. split; [exact Hk1|]. congruence. }
    split; [exact Shown|]. clear Shown E Hkv.
    rewrite L0, <- V in *. cbn [seq title_tuples]. unfold title_tuple.
    assert (C : forall k, In k ["Title ID Value"; "Quantity"; "Description"; "ID"] ->
                cell_at values k 0
                = match first_index k page with
                  | None => inl (KeyError k)
                  | Some p => inr (Py.strip (cell (init_idx + 0 + 1) (p + 2)))
                  end).
    { intros k Hk. unfold cell_at. rewrite (G k Hk).
      destruct (first_index k page) as [p|]; [|reflexivity]. cbn [option_map].
      unfold col.
      rewrite (nth_error_map_seq
                 (fun j => Py.strip (cell (j + 1) (p + 2))) init_idx (S n) 0) by lia.
      reflexivity. }
    rewrite !C by (simpl; tauto).
    destruct (first_index "Title ID Value" page) eqn:FT.
    2:{ exists [], "Title ID Value", ["Quantity"; "Description"; "ID"].
        split; [reflexivity|]. split; [intros k' []|]. split; [exact FT | reflexivity]. }
    destruct (first_index "Quantity" page) eqn:FQ.
    2:{ exists ["Title ID Value"], "Quantity", ["Description"; "ID"].
        split; [reflexivity|]. split; [|split; [exact FQ | reflexivity]].
        intros k' [<-|[]]. congruence. }
    destruct (first_index "Description" page) eqn:FD.
    2:{ exists ["Title ID Value"; "Quantity"], "Description", ["ID"].
        split; [reflexivity|]. split; [|split; [exact FD | reflexivity]].
        intros k' [<-|[<-|[]]]; congruence. }
    destruct (first_index "ID" page) eqn:FI.
    2:{ exists ["Title ID Value"; "Quantity"; "Description"], "ID", [].
        split; [reflexivity|]. split; [|split; [exact FI | reflexivity]].
        intros k' [<-|[<-|[<-|[]]]]; congruence. }
    exfalso. simpl in Hh. destruct Hh as [<-|[<-|[<-|[<-|[]]]]]; congruence.
Qed.

Lemma get_titles_missing_header_witness :
  ((forall k, In k ["Title ID Value"; "Quantity"; "Description"; "ID"] ->
              first_index k ["Element"; "ID"] = None)
   /\ get_titles ["Element"; "ID"] (fun _ _ => "x") 1 1 = inl StopIteration)
  \/ ((exists k, In k ["Title ID Value"; "Quantity"; "Description"; "ID"]
                 /\ first_index k ["Element"; "ID"] <> None)
      /\ exists before k after,
           ["Title ID Value"; "Quantity"; "Description"; "ID"]
           = (before ++ k :: after)%list
           /\ (forall k', In k' before -> first_index k' ["Element"; "ID"] <> None)
           /\ first_index k ["Element"; "ID"] = None
           /\ get_titles ["Element"; "ID"] (fun _ _ => "x") 1 1 = inl (KeyError k)).
Proof.
  apply (get_titles_missing_header ["Element"; "ID"] (fun _ _ => "x") 1 1 "Quantity").
  - lia.
  - simpl. tauto.
  - reflexivity.
Defined.

End ContentTable.

(** ** The table of the attributes *)

Section Attributes.

Import Spec SpecMore Utils UtilsAttributes.

Lemma equal_loop_spec (p : page) (fs : list (string * expected)) :
  forall ev,
    Forall2 (raw_rule p) (map (fun ae => (fst ae, Some (snd ae))) fs)
            (fst (equal_loop p fs ev))
    /\ (fs <> [] \/ ev <> None -> snd (equal_loop p fs ev) <> None).
Proof.
  induction fs as [|[attr e] rest IH]; intros ev; cbn [equal_loop map].
  - split; [constructor|]. intros [H|H]; [congruence | exact H].
  - specialize (IH (Some e)).
    destruct (equal_loop p rest (Some e)) as [rows ev'] eqn:E.
    cbn [fst snd] in *. destruct IH as [IH1 IH2]. split.
    + constructor; [|exact IH1]. unfold raw_rule, actual. cbn [fst snd].
      destruct (get_attribute p attr); cbn; auto.
    + intros _. apply IH2. right. discriminate.
Qed.

Lemma no_empty_loop_spec (p : page) (fs : list string) (ev : option expected) :
  ev <> None ->
  exists rows,
    no_empty_loop p fs ev = Ok rows
    /\ Forall2 (raw_rule p) (map (fun a => (a, None)) fs) rows.
Proof.
  intros Hev. induction fs as [|attr rest IH]; cbn [no_empty_loop map].
  - exists []. split; [reflexivity | constructor].
  - destruct IH as [rows [E F]]. rewrite E.
    destruct ev as [e0|]; [|congruence].
    destruct (get_attribute p attr) as [element|] eqn:G; cbn [bind];
      eexists; (split; [reflexivity|]); (constructor; [|exact F]);
      unfold raw_rule, actual; cbn [fst snd]; rewrite G; cbn; auto.
Qed.

Lemma sections_loop_spec (p : page) (attrs : list section) :
  forall ev,
    (ev <> None \/ match attrs with
                   | [] => True
                   | s :: _ => equal_fields s <> []
                   end) ->
    exists rows,
      sections_loop p attrs ev = Ok rows /\ Forall2 (raw_rule p) (fields attrs) rows.
Proof.
  induction attrs as [|s rest IH]; intros ev Hb; cbn [sections_loop fields flat_map].
  - exists []. split; [reflexivity | constructor].
  - destruct (equal_loop_spec p (equal_fields s) ev) as [F1 Hev].
    destruct (equal_loop p (equal_fields s) ev) as [rows1 ev'].
    cbn [fst snd] in *.
    assert (Hev' : ev' <> None) by (apply Hev; tauto).
    destruct (no_empty_loop_spec p (no_empty_fields s) ev' Hev') as [rows2 [E2 F2]].
    destruct (IH ev' (or_introl Hev')) as [rows3 [E3 F3]].
    rewrite E2, E3. cbn [bind]. eexists. split; [reflexivity|].
    rewrite <- app_assoc. apply Forall2_app; [exact F1|].
    apply Forall2_app; [exact F2 | exact F3].
Qed.

Lemma Forall2_In_r {A B : Type} (R : A -> B -> Prop) (l : list A) (l' : list B) (b : B) :
  Forall2 R l l' -> In b l' -> exists a, In a l /\ R a b.
Proof.
  induction 1 as [|x y l l' H F IH]; [intros []|].
  intros [<-|Hb].
  - exists x. split; [now left | exact H].
  - destruct (IH Hb) as [a [Ha Ra]]. exists a. split; [now right | exact Ra].
Qed.

Lemma Forall2_map_fst {A B C : Type} (R : A -> B -> Prop) (f : A -> C) (g : B -> C)
    (l : list A) (l' : list B) :
  Forall2 R l l' -> (forall a b, R a b -> g b = f a) -> map g l' = map f l.
Proof.
  intros F H. induction F as [|x y l l' Hxy F IH]; [reflexivity|].
  cbn [map]. now rewrite (H x y Hxy), IH.
Qed.

Lemma styles_spec (P : attr_row -> style -> Prop) (rows : list attr_row) :
  (forall row, In row rows -> exists s, highlight_row row = Ok s /\ P row s) ->
  exists st, styles rows = Ok st /\ Forall2 P rows st.
Proof.
  induction rows as [|x rest IH]; intros H; cbn [styles].
  - exists []. split; [reflexivity | constructor].
  - destruct (H x (or_introl eq_refl)) as [s [E Ps]].
    destruct IH as [st [Est F]]; [intros row Hr; apply H; now right|].
    rewrite E, Est. cbn [bind]. eexists. split; [reflexivity|]. now constructor.
Qed.

Lemma In_fields_equal (attrs : list section) (a : string) (e : expected) :
  In (a, Some e) (fields attrs) -> In (a, e) (flat_map equal_fields attrs).
Proof.
  unfold fields. rewrite !in_flat_map. intros [s [Hs H]]. exists s.
  split; [exact Hs|]. apply in_app_iff in H as [H|H].
  - apply in_map_iff in H as [[a' e'] [E H]]. cbn in E. now injection E as <- <-.
  - apply in_map_iff in H as [a' [E _]]. discriminate E.
Qed.

(** The colour of one row, from the row that the loops appended. *)
Lemma displayed_row_colour (p : page) (attrs : list section)
    (f : string * option expected) (row : attr_row) :
  In f (fields attrs) -> raw_rule p f row ->
  (forall e, In ("Device Code", e) (flat_map equal_fields attrs) ->
             e <> Alternatives []) ->
  exists s, highlight_row (displayed_row row) = Ok s
            /\ colour_rule p attrs (displayed_row row) s.
Proof.
  intros Hf [HP [HA HE]] Hdc. destruct f as [a oe]. cbn [fst snd] in *.
  unfold colour_rule, displayed_row, highlight_row, modify_expected_value.
  cbn [Parameters Expected_Value Actual_Value Should_be_Equal].
  rewrite HP, HA.
  destruct oe as [e|].
  - destruct HE as [HS HE]. rewrite HS, HE. cbn [negb andb orb].
    apply In_fields_equal in Hf.
    destruct (String.eqb_spec a "Device Code") as [->|Nd].
    + cbn [Py.mem existsb String.eqb Ascii.eqb Bool.eqb orb negb].
      assert (Hne : e <> Alternatives []) by (now apply Hdc).
      destruct e as [t|[|x [|y l]]]; cbn [format_device_code]; try congruence;
        match goal with
        | |- context [if negb ?b then Ok Red else Ok Black] => destruct b
        end; cbn [negb]; eexists; (split; [reflexivity|]);
        (split; [reflexivity|]); (split; [discriminate|]);
        intros _ N; exfalso; apply N; simpl; tauto.
    + cbn [negb].
      destruct (Py.mem a ["Number of S/C"; "Number of C/C"]) eqn:M1.
      * destruct (negb (expected_eqb (actual p a) (Text "(Digit, Not Blank)")));
          eexists; (split; [reflexivity|]); (split; [reflexivity|]);
          (split; [discriminate|]); intros _ N; exfalso; apply N;
          apply mem_In in M1; simpl in M1 |- *; tauto.
      * destruct (String.eqb_spec a "Application") as [->|Na].
        -- destruct (negb (expected_eqb (actual p "Application")
                             (Text "(Type of Application, Not Blank)")));
             eexists; (split; [reflexivity|]); (split; [reflexivity|]);
             (split; [discriminate|]); intros _ N; exfalso; apply N; simpl; tauto.
        -- destruct (expected_eqb (actual p a) e) eqn:X; cbn [negb];
             eexists; (split; [reflexivity|]); (split; [reflexivity|]);
             (split; [discriminate|]); intros _ _; (split; [exact Hf|]);
             split; congruence.
  - rewrite HE. cbn [negb andb orb].
    destruct (String.eqb_spec a "Device Code") as [->|Nd].
    + cbn [Py.mem existsb String.eqb Ascii.eqb Bool.eqb orb negb].
      match goal with
      | |- context [if negb ?b then Ok Red else Ok Black] => destruct b
      end; cbn [negb]; eexists; (split; [reflexivity|]);
      (split; [reflexivity|]); (split; [|discriminate]);
      intros _ N; congruence.
    + cbn [negb]. rewrite andb_false_r. cbn [orb].
      assert (T : In (if Py.mem a ["Number of S/C"; "Number of C/C"]
                      then Text "(Digit, Not Blank)"
                      else if String.eqb a "Application"
                           then Text "(Type of Application, Not Blank)"
                           else Text "(Not Blank)")
                     [Text "(Digit, Not Blank)";
                      Text "(Type of Application, Not Blank)";
                      Text "(Not Blank)"]).
      { destruct (Py.mem a _); [simpl; tauto|].
        destruct (String.eqb a "Application"); simpl; tauto. }
      destruct (String.eqb_spec (actual p a) "") as [E|E];
        eexists; (split; [reflexivity|]); (split; [reflexivity|]);
        (split; [|discriminate]); intros _ _; (split; [exact T|]);
        split; congruence.
Qed.

Lemma displayed_raw_row (p : page) (f : string * option expected) (row : attr_row) :
  raw_rule p f row -> displayed_row row = frame_row p f.
Proof.
  intros [HP [HA HE]]. destruct f as [a oe]. destruct row as [par ex act flag].
  cbn [fst snd Parameters Expected_Value Actual_Value Should_be_Equal] in *.
  subst par act. unfold displayed_row, frame_row, shown_expected, modify_expected_value.
  cbn [fst snd Parameters Expected_Value Actual_Value Should_be_Equal].
  destruct oe as [e|].
  - destruct HE as [-> ->]. cbn [negb].
    destruct (Py.mem a _); [reflexivity|].
    destruct (String.eqb a "Application"); reflexivity.
  - subst flag. cbn [negb].
    destruct (Py.mem a _); [reflexivity|].
    destruct (String.eqb a "Application"); reflexivity.
Qed.

Lemma frame_row_colour (p : page) (f : string * option expected) :
  field_colour p f (highlight_row (frame_row p f)).
Proof.
  unfold field_colour, highlight_row, frame_row.
  cbn [Parameters Expected_Value Actual_Value Should_be_Equal].
  destruct (String.eqb (fst f) "Device Code"); cbn [negb].
  - destruct (shown_expected f) as [t|l].
    + destruct (Py.mem (actual p (fst f)) (Py.split " or " t)) eqn:M; cbn [negb];
        eexists; (split; [reflexivity|]).
      * apply mem_In in M. split; [discriminate | tauto].
      * apply mem_false in M. split; [auto | reflexivity].
    + eexists. reflexivity.
  - destruct (snd f) as [e|].
    + rewrite andb_true_r. cbn [negb andb]. rewrite orb_false_r.
      destruct (expected_eqb (actual p (fst f)) (shown_expected f)); cbn [negb];
        eexists; (split; [reflexivity|]); split; congruence.
    + rewrite andb_false_r. cbn [negb andb orb].
      destruct (String.eqb_spec (actual p (fst f)) "") as [E|E];
        eexists; (split; [reflexivity|]); split; congruence.
Qed.

(** X17.  The table of the attributes.  When the first section of the dict
    of the attributes has a field with an expected value,
    [get_attribute_values] returns the frame, for every page.  The frame
    has one row for each field, in the order of the sections (in a
    section the fields with an expected value first, then the fields that
    must not be blank).  The row of a field shows what the page gives for
    it, the empty text when the element is not there.  As expected value
    it shows "(Digit, Not Blank)" for the names "Number of S/C" and
    "Number of C/C", "(Type of Application, Not Blank)" for "Application",
    and for another name "(Not Blank)" when the field must not be blank,
    whatever the loops stored there, and the expected value of the table
    otherwise, the list of a device code joined with " or ".  A row named
    "Device Code" is red exactly when the value of the page is none of the
    parts of the shown text split at " or "; another row is red exactly
    when it has an expected value and the value of the page is not the
    shown expected text, or it must not be blank and the value of the
    page is empty.  Only for a device code whose expected list is empty
    [highlight_row] raises; when the dict has none, the rendering gives a
    style for every row. *)
Theorem attribute_table (p : page) (s : section) (rest : list section) :
  equal_fields s <> [] ->
  exists df,
    get_attribute_values p (s :: rest) = Ok (df, styles df)
    /\ df = map (frame_row p) (fields (s :: rest))
    /\ (forall f, In f (fields (s :: rest)) ->
                  field_colour p f (highlight_row (frame_row p f)))
    /\ ((forall e, In ("Device Code", e) (flat_map equal_fields (s :: rest)) ->
                   e <> Alternatives []) ->
        exists st,
          styles df = Ok st
          /\ Forall2 (fun row s0 => highlight_row row = Ok s0) df st).
Proof.
  intros Hs. unfold get_attribute_values.
  destruct (sections_loop_spec p (s :: rest) None (or_intror Hs)) as [rows [E F]].
  rewrite E. cbn [bind]. exists (map displayed_row rows).
  split; [reflexivity|]. split; [|split].
  - apply (Forall2_map_fst (raw_rule p)); [exact F|].
    intros f row Rf. now apply displayed_raw_row.
  - intros f _. apply frame_row_colour.
  - intros Hdc.
    apply (styles_spec (fun row s0 => highlight_row row = Ok s0)).
    intros row Hrow. apply in_map_iff in Hrow as [raw [<- Hraw]].
    destruct (Forall2_In_r _ _ _ raw F Hraw) as [f [Hf Rf]].
    destruct (displayed_row_colour p (s :: rest) f raw Hf Rf Hdc) as [s0 [Hs0 _]].
    exists s0. split; exact Hs0.
Qed.

Lemma attribute_table_witness :
  exists df,
    get_attribute_values SamplesMore.page_attributes
      (SamplesMore.section_product :: [SamplesMore.section_special])
    = Ok (df, styles df)
    /\ df = map (frame_row SamplesMore.page_attributes)
              (fields (SamplesMore.section_product :: [SamplesMore.section_special]))
    /\ (forall f,
          In f (fields (SamplesMore.section_product :: [SamplesMore.section_special])) ->
          field_colour SamplesMore.page_attributes f
            (highlight_row (frame_row SamplesMore.page_attributes f)))
    /\ ((forall e,
           In ("Device Code", e)
              (flat_map equal_fields
                 (SamplesMore.section_product :: [SamplesMore.section_special])) ->
           e <> Alternatives []) ->
        exists st,
          styles df = Ok st
          /\ Forall2 (fun row s0 => highlight_row row = Ok s0) df st).
Proof.
  apply (attribute_table SamplesMore.page_attributes SamplesMore.section_product
           [SamplesMore.section_special]).
  discriminate.
Defined.

(** X18.  The variable that is not bound.  When the first section has no
    field with an expected value, and the element of one of its fields
    that must not be blank is not on the page, the [except] branch reads
    [expected_value] before any loop has bound it: the call raises a
    NameError and returns no frame. *)
Theorem attribute_table_unbound (p : page) (s : section) (rest : list section)
    (attr : string) :
  equal_fields s = [] ->
  In attr (no_empty_fields s) ->
  get_attribute p attr = None ->
  get_attribute_values p (s :: rest) = Raise (NameError "expected_value").
Proof.
  intros Hs Hin Hnone. unfold get_attribute_values. cbn [sections_loop].
  rewrite Hs. cbn [equal_loop].
  assert (E : no_empty_loop p (no_empty_fields s) None
              = Raise (NameError "expected_value")).
  { induction (no_empty_fields s) as [|a l IH]; [destruct Hin|].
    cbn [no_empty_loop]. destruct (get_attribute p a) as [element|] eqn:G.
    - cbn [bind]. destruct Hin as [->|Hin]; [congruence|].
      rewrite (IH Hin). reflexivity.
    - reflexivity. }
  rewrite E. reflexivity.
Qed.

Lemma attribute_table_unbound_witness :
  get_attribute_values SamplesMore.page_attributes
    (SamplesMore.section_special :: [SamplesMore.section_product])
  = Raise (NameError "expected_value").
Proof.
  apply (attribute_table_unbound SamplesMore.page_attributes
           SamplesMore.section_special [SamplesMore.section_product] "Number of S/C").
  - reflexivity.
  - simpl. tauto.
  - reflexivity.
Defined.

End Attributes.

(** ** The conversion of a quantity *)

Section QuantityConversion.

Import Spec SpecMore PyFloat.

Lemma digit_char (c : ascii) :
  Py.is_digit c = true ->
  is_c_space c = false
  /\ Ascii.eqb c "_" = false /\ Ascii.eqb c "-" = false /\ Ascii.eqb c "+" = false
  /\ Ascii.eqb c "." = false /\ Ascii.eqb c "i" = false /\ Ascii.eqb c "n" = false
  /\ Py.lower_char c = c
  /\ (0 <= digit_val c <= 9)%Z.
Proof.
  destruct c as [[] [] [] [] [] [] [] []]; intros H; try discriminate H;
    vm_compute; repeat split; congruence.
Qed.

Lemma digits_not_stripped (s : string) :
  all_digits s = true ->
  Py.lstrip_by is_c_space s = s /\ Py.rstrip_by is_c_space s = s.
Proof.
  induction s as [|c s IH]; [auto|]. cbn [all_digits].
  rewrite andb_true_iff. intros [Hc Hs].
  destruct (digit_char c Hc) as [Hsp _]. destruct (IH Hs) as [_ IHr].
  cbn [Py.lstrip_by Py.rstrip_by]. rewrite Hsp, IHr.
  split; [reflexivity|]. destruct s; reflexivity.
Qed.

Lemma digits_no_underscore (s : string) :
  all_digits s = true ->
  forall b, underscores_ok b s = true /\ drop_underscores s = s.
Proof.
  induction s as [|c s IH]; [auto|]. cbn [all_digits].
  rewrite andb_true_iff. intros [Hc Hs] b.
  destruct (digit_char c Hc) as [_ [Hu _]].
  cbn [underscores_ok drop_underscores]. rewrite Hu.
  destruct (IH Hs (Py.is_digit c)) as [-> ->]. auto.
Qed.

Lemma digits_lower (s : string) : all_digits s = true -> Py.lower s = s.
Proof.
  induction s as [|c s IH]; [auto|]. cbn [all_digits].
  rewrite andb_true_iff. intros [Hc Hs].
  destruct (digit_char c Hc) as [_ [_ [_ [_ [_ [_ [_ [Hl _]]]]]]]].
  cbn [Py.lower]. now rewrite Hl, (IH Hs).
Qed.

Lemma read_digits_all (s : string) :
  all_digits s = true ->
  forall acc n,
    read_digits acc n s
    = (decimal_from acc s, (n + Z.of_nat (String.length s))%Z, EmptyString).
Proof.
  induction s as [|c s IH]; intros H acc n.
  - cbn. now rewrite Z.add_0_r.
  - cbn [all_digits] in H. apply andb_true_iff in H as [Hc Hs].
    cbn [read_digits decimal_from String.length]. rewrite Hc, (IH Hs).
    f_equal. f_equal. lia.
Qed.

Lemma decimal_from_nonneg (s : string) :
  all_digits s = true -> forall acc, (0 <= acc -> 0 <= decimal_from acc s)%Z.
Proof.
  induction s as [|c s IH]; intros H acc Hacc; [exact Hacc|].
  cbn [all_digits] in H. apply andb_true_iff in H as [Hc Hs].
  cbn [decimal_from]. apply (IH Hs).
  destruct (digit_char c Hc) as [_ [_ [_ [_ [_ [_ [_ [_ Hd]]]]]]]]. lia.
Qed.

(** A positive integer below [2^53] is a binary64 value: the rounding
    leaves it, and [int] gives it back. *)
Lemma int_round_exact (v : Z) :
  (0 < v < 2 ^ 53)%Z -> int (round_binary64 false v 1) = Ok v.
Proof.
  intros [Hpos Hlt]. unfold round_binary64.
  change (Z.log2 1) with 0%Z. rewrite Z.sub_0_r.
  pose proof (Z.log2_spec v Hpos) as [Hlo Hhi].
  pose proof (Z.log2_nonneg v) as Hl0.
  assert (Hl : (Z.log2 v < 53)%Z) by (apply Z.log2_lt_pow2; lia).
  set (l := Z.log2 v) in *.
  destruct (Z.leb_spec 0 l) as [_|]; [|lia].
  rewrite Z.mul_1_l.
  destruct (Z.leb_spec (2 ^ l) v) as [_|]; [|lia].
  assert (Hp : Z.max (l - 52) (-1074) = (l - 52)%Z) by lia.
  rewrite Hp.
  assert (Hbig : (v * 2 ^ 1074 < 2 ^ (1024 + 1074))%Z).
  { change (2 ^ (1024 + 1074))%Z with (2 ^ 1024 * 2 ^ 1074)%Z.
    apply Z.mul_lt_mono_pos_r; [reflexivity|].
    eapply Z.lt_trans; [exact Hlt | reflexivity]. }
  destruct (Z.leb_spec 0 (l - 52)) as [Hge|Hneg].
  - assert (E : (l - 52 = 0)%Z) by lia. rewrite E.
    change (1 * 2 ^ 0)%Z with 1%Z. rewrite Z.div_1_r, Z.mod_1_r.
    cbn [Z.ltb Z.eqb Z.mul Z.compare andb orb].
    change (0 <=? 971)%Z with true. cbn [andb].
    change (0 + 1074)%Z with 1074%Z.
    destruct (Z.ltb_spec (v * 2 ^ 1074) (2 ^ (1024 + 1074))) as [_|]; [|lia].
    cbn [int]. change (0 <=? 0)%Z with true. cbn. now rewrite Z.mul_1_r.
  - rewrite Z.div_1_r, Z.mod_1_r.
    cbn [Z.ltb Z.eqb Z.mul Z.compare andb orb].
    destruct (Z.leb_spec (l - 52) 971) as [_|]; [|lia]. cbn [andb].
    assert (Hq : (v * 2 ^ (- (l - 52)) * 2 ^ (l - 52 + 1074) = v * 2 ^ 1074)%Z).
    { rewrite <- Z.mul_assoc, <- Z.pow_add_r by lia. f_equal. f_equal. lia. }
    rewrite Hq.
    destruct (Z.ltb_spec (v * 2 ^ 1074) (2 ^ (1024 + 1074))) as [_|]; [|lia].
    cbn [int]. destruct (Z.leb_spec 0 (l - 52)) as [|_]; [lia|].
    rewrite Z.div_mul; [reflexivity|]. apply Z.pow_nonzero; lia.
Qed.

(** X19.  A quantity in plain digits.  For a text of decimal digits, one at
    least, that writes a number below [2^53], [int(float(quantity))] is
    this number: the conversion through the float loses nothing, so the
    table shows the quantity that the row has. *)
Theorem int_float_digits (s : string) :
  s <> "" -> all_digits s = true -> (decimal_value s < 2 ^ 53)%Z ->
  int_float s = Ok (decimal_value s).
Proof.
  intros Hne Hd Hlt. unfold int_float, float.
  destruct (digits_not_stripped s Hd) as [Hl Hr]. rewrite Hl, Hr.
  destruct (digits_no_underscore s Hd false) as [Hu Hdrop]. rewrite Hu, Hdrop.
  cbn [negb].
  destruct s as [|c s]; [congruence|].
  pose proof Hd as Hd'. cbn [all_digits] in Hd'.
  apply andb_true_iff in Hd' as [Hc Hs].
  destruct (digit_char c Hc) as [_ [_ [Hm [Hp [_ [Hi [Hn _]]]]]]].
  assert (Hsign : read_sign (String c s) = (false, String c s)).
  { unfold read_sign.
    destruct c as [[] [] [] [] [] [] [] []]; try reflexivity;
      vm_compute in Hm, Hp; congruence. }
  rewrite Hsign, (digits_lower _ Hd).
  assert (E1 : String.eqb (String c s) "inf" = false)
    by (cbn [String.eqb]; now rewrite Hi).
  assert (E2 : String.eqb (String c s) "infinity" = false)
    by (cbn [String.eqb]; now rewrite Hi).
  assert (E3 : String.eqb (String c s) "nan" = false)
    by (cbn [String.eqb]; now rewrite Hn).
  rewrite E1, E2, E3. cbn [orb].
  unfold read_decimal. rewrite (read_digits_all _ Hd). cbn [read_exponent].
  assert (Hlen : (0 <? 0 + Z.of_nat (String.length (String c s)) + 0)%Z = true).
  { apply Z.ltb_lt. cbn [String.length]. lia. }
  rewrite Hlen. cbn [bind].
  fold (decimal_value (String c s)). set (v := decimal_value (String c s)) in *.
  assert (H0 : (0 <= v)%Z) by (apply decimal_from_nonneg; [exact Hd | lia]).
  unfold float_of_decimal.
  destruct (Z.eqb_spec v 0) as [->|Hnz]; [reflexivity|].
  change (0 - 0)%Z with 0%Z. change (0 <=? 0)%Z with true. cbn [Z.pow].
  change (10 ^ 0)%Z with 1%Z. rewrite Z.mul_1_r.
  apply int_round_exact. lia.
Qed.

Lemma int_float_digits_witness :
  "12" <> "" /\ all_digits "12" = true /\ (decimal_value "12" < 2 ^ 53)%Z
  /\ int_float "12" = Ok (decimal_value "12").
Proof.
  assert (H1 : "12" <> "") by discriminate.
  assert (H2 : all_digits "12" = true) by reflexivity.
  assert (H3 : (decimal_value "12" < 2 ^ 53)%Z) by reflexivity.
  split; [exact H1|]. split; [exact H2|]. split; [exact H3|].
  exact (int_float_digits "12" H1 H2 H3).
Defined.

End QuantityConversion.

(** ** From the check of the part number to the report *)

Section Accepted.

Import Spec SpecMore Fusion3.

Lemma initialize_main_params_fields (is_am : bool) (pn title l : string) (b r : bool)
    (ty : DropdownType) (self : t) :
  initialize_main_params is_am pn title l b r ty = Ok self ->
  letter_identifier self = l /\ type_dropdown self = ty
  /\ is_am_bracket self = is_am /\ chbx_resistor self = r /\ chbx_bracket self = b.
Proof.
  unfold initialize_main_params. intros Hs.
  destruct (type_in ty [FLR_25_BRACKET; FLC_25_BRACKET]);
    [destruct (negb _); [discriminate Hs|]; injection Hs as <-; cbn; auto|].
  destruct (type_in ty [FLC_25_COVER]);
    [destruct (negb _); [discriminate Hs|]; injection Hs as <-; cbn; auto|].
  destruct (negb _); [discriminate Hs|]. injection Hs as <-. cbn. auto.
Qed.

(** X20.  An accepted part number of the families FLC-25 and FLR-25.  When
    [is_valid_part_number] accepts the part number and
    [initialize_main_params] builds the object with the letter that the
    check left, the letter is R, X or SC, the profile requires the
    dataset, the software and the boot software, and every report of
    [get_bom_in_content] carries a message: the missing elements or
    SUCCESSFUL, never the empty text. *)
Theorem accepted_part_report (ty : DropdownType) (pn title l : string)
    (old : option string) (is_am b r : bool) (self : t) :
  type_in ty [FLC_25; FLR_25] = true ->
  WebAutomation.is_valid_part_number ty pn old = (true, Some l) ->
  initialize_main_params is_am pn title l b r ty = Ok self ->
  In l ["R"; "X"; "SC"]
  /\ (forall e, In e ["Dataset"; "Software"; "Boot Software"] ->
                In e (get_required_elements self (element_name self)))
  /\ forall titles rep,
       get_bom_in_content self titles = Ok rep -> msg rep <> NoMessage.
Proof.
  intros Hty Hvalid Hinit.
  assert (Hl : In l ["R"; "X"; "SC"]).
  { unfold WebAutomation.is_valid_part_number in Hvalid. rewrite Hty in Hvalid.
    destruct (Utils.validate_part_number pn) as [l'|] eqn:V; [|discriminate Hvalid].
    destruct (String.eqb l' ""); [discriminate Hvalid|].
    destruct (String.eqb_spec l' "N") as [->|N]; [discriminate Hvalid|].
    injection Hvalid as <-.
    apply validate_part_number_some in V as [_ V].
    apply first_occurring_cases in V.
    destruct V as [[-> _]|[[-> _]|[[-> _]|[-> _]]]]; simpl; tauto. }
  split; [exact Hl|].
  destruct (initialize_main_params_fields _ _ _ _ _ _ _ _ Hinit) as [El [Et _]].
  assert (Hinitd : initialized self) by (now exists is_am, pn, title, l, b, r, ty).
  assert (Hname : element_name self = "Radar" \/ element_name self = "Camera").
  { destruct (initialized_inv self Hinitd) as [[_ [T _]]|[[_ [T _]]|[[E _]|[E _]]]];
      auto; rewrite Et in T; destruct ty; discriminate. }
  split.
  - intros e He. destruct Hname as [-> | ->].
    + rewrite required_radar by (rewrite El; simpl in Hl |- *; tauto).
      apply in_app_iff. left. exact He.
    + unfold get_required_elements. rewrite El.
      destruct Hl as [<-|[<-|[<-|[]]]]; cbn; simpl in He; tauto.
  - intros titles rep Hrep. unfold get_bom_in_content in Hrep.
    destruct (tabulate self _ titles); cbn [bind] in Hrep; [|discriminate Hrep].
    destruct (missing_elements self titles).
    + assert (M : Py.mem (letter_identifier self) ["R"; "X"; "SC"; "B"; "Cover"] = true).
      { apply mem_In. rewrite El. simpl in Hl |- *. tauto. }
      rewrite M in Hrep. injection Hrep as <-. discriminate.
    + injection Hrep as <-. discriminate.
Qed.

Lemma accepted_part_report_witness :
  In "X" ["R"; "X"; "SC"]
  /\ (forall e, In e ["Dataset"; "Software"; "Boot Software"] ->
                In e (get_required_elements Samples.radar_x
                        (element_name Samples.radar_x)))
  /\ forall titles rep,
       get_bom_in_content Samples.radar_x titles = Ok rep -> msg rep <> NoMessage.
Proof.
  exact (accepted_part_report FLR_25 "K015123X000" "Radar Sensor" "X" None
           false false false Samples.radar_x eq_refl eq_refl eq_refl).
Defined.

(** X21.  An aftermarket bracket of the family FLR-25.  When the sales
    channel of the product reads "AM only" (in any letter case, with or
    without white space around it), the bracket requires the screw beside
    the bracket and the nut, and no document: for every dict of documents
    that is not empty the report says SUCCESSFUL with an empty list of
    required kinds, carries the note that no documents are required, and
    its table is empty. *)
Theorem am_bracket_no_documents (sales pn title l : string) (b r : bool) (self : t) :
  Fusion3More.is_AM_bracket sales = true ->
  initialize_main_params (Fusion3More.is_AM_bracket sales) pn title l b r
    FLR_25_BRACKET = Ok self ->
  get_required_elements self (element_name self) = ["Screw"; "Bracket"; "Nut"]
  /\ forall d docs,
       validate_required_docs self (d :: docs)
       = Ok {| no_docs_note := true; docs_msg_of := DocsSuccessful [];
               docs_df := [] |}.
Proof.
  intros Ham Hinit. rewrite Ham in Hinit.
  unfold initialize_main_params in Hinit. cbn [type_in existsb DropdownType_eqb orb] in Hinit.
  destruct (negb _); [discriminate Hinit|]. injection Hinit as <-.
  split; [reflexivity|]. intros d docs.
  unfold validate_required_docs, required_and_optional_docs.
  cbn [element_name type_dropdown is_am_bracket String.eqb Ascii.eqb Bool.eqb
       type_in existsb DropdownType_eqb orb andb].
  cbn [Py.mem existsb andb orb].
  assert (F : forall l0 : list document, filter (fun _ : document => false) l0 = []).
  { induction l0; [reflexivity | assumption]. }
  rewrite F. reflexivity.
Qed.

Lemma am_bracket_no_documents_witness :
  get_required_elements SamplesMore.bracket_am (element_name SamplesMore.bracket_am)
  = ["Screw"; "Bracket"; "Nut"]
  /\ forall d docs,
       validate_required_docs SamplesMore.bracket_am (d :: docs)
       = Ok {| no_docs_note := true; docs_msg_of := DocsSuccessful [];
               docs_df := [] |}.
Proof.
  exact (am_bracket_no_documents " AM Only " "K123456" "Bracket Assembly" "B"
           false false SamplesMore.bracket_am eq_refl eq_refl).
Defined.

End Accepted.

(** ** The table of the attributes of an accepted part number *)

Section Catalog.

Import Spec SpecMore Utils UtilsAttributes UtilsCatalog.

Lemma catalog_ok (part type_value : string) :
  forallb (fun tl => forallb (fun ls => profile_ok (snd ls)) (snd tl))
          (required_attributes part type_value) = true.
Proof. vm_compute. reflexivity. Qed.

Lemma attributes_ok (part : string) (ty : DropdownType) (l : string) :
  attributes part ty l <> [] -> profile_ok (attributes part ty l) = true.
Proof.
  unfold attributes. intros H.
  destruct (UtilsTable.dict_get _ (required_attributes part _)) as [letters|] eqn:G1;
    [|congruence].
  destruct (UtilsTable.dict_get l letters) as [sections|] eqn:G2; [|congruence].
  apply dict_get_In in G1, G2.
  pose proof (catalog_ok part (DropdownType_value ty)) as C.
  rewrite forallb_forall in C. specialize (C _ G1). cbn [snd] in C.
  rewrite forallb_forall in C. exact (C _ G2).
Qed.

Lemma attributes_profile (part : string) (ty : DropdownType) (l : string) :
  type_in ty [FLC_20; FLR_21; FLC_25; FLR_25] = true ->
  In l ["R"; "X"; "SC"] \/ (type_in ty [FLC_20; FLR_21] = true /\ l = "N") ->
  attributes part ty l <> [].
Proof.
  intros Hty Hl.
  destruct ty; try discriminate Hty;
    destruct Hl as [[<-|[<-|[<-|[]]]]|[Ht ->]]; try discriminate Ht;
    vm_compute; discriminate.
Qed.

Lemma expected_beq_eq (a b : expected) : expected_beq a b = true -> a = b.
Proof.
  destruct a as [x|l], b as [y|l']; cbn; try discriminate.
  - intros H. apply String.eqb_eq in H. now subst.
  - destruct (list_eq_dec string_dec l l'); [now subst | discriminate].
Qed.

Lemma expected_in_catalog_In (e : expected) :
  expected_in_catalog e = true -> In e catalog_device_codes.
Proof.
  unfold expected_in_catalog. rewrite existsb_exists.
  intros [c [Hc E]]. apply expected_beq_eq in E. now subst.
Qed.

Lemma profile_ok_facts (sections : list (string * section)) :
  profile_ok sections = true ->
  (exists n s rest, sections = (n, s) :: rest /\ equal_fields s <> [])
  /\ (forall e, In ("Device Code", e) (flat_map equal_fields (map snd sections)) ->
                In e catalog_device_codes)
  /\ ~ In ("Device Code", None) (fields (map snd sections)).
Proof.
  unfold profile_ok. rewrite andb_true_iff. intros [H1 H2].
  rewrite forallb_forall in H2. split; [|split].
  - destruct sections as [|[n s] rest]; [discriminate H1|].
    exists n, s, rest. split; [reflexivity|].
    destruct (equal_fields s); [discriminate H1 | discriminate].
  - intros e He. apply in_flat_map in He as [s [Hs He]].
    apply in_map_iff in Hs as [ns [<- Hns]].
    specialize (H2 ns Hns). apply andb_true_iff in H2 as [H2 _].
    rewrite forallb_forall in H2. specialize (H2 _ He). cbn [fst snd] in H2.
    cbn [String.eqb Ascii.eqb Bool.eqb andb negb orb] in H2.
    now apply expected_in_catalog_In.
  - unfold fields. intros He. apply in_flat_map in He as [s [Hs He]].
    apply in_map_iff in Hs as [ns [<- Hns]].
    specialize (H2 ns Hns). apply andb_true_iff in H2 as [_ H2].
    rewrite forallb_forall in H2.
    apply in_app_iff in He as [He|He].
    + apply in_map_iff in He as [ae [E _]]. discriminate E.
    + apply in_map_iff in He as [a [E Ha]]. injection E as ->.
      specialize (H2 _ Ha). discriminate H2.
Qed.

(** The colour of the row of the device code, for a device code of the
    table. *)
Lemma displayed_device_code_row (p : page) (e : expected) (row : attr_row) :
  In e catalog_device_codes ->
  raw_rule p ("Device Code", Some e) row ->
  exists s, highlight_row (displayed_row row) = Ok s
            /\ (s = Red <-> ~ In (Actual_Value (displayed_row row)) (device_codes e)).
Proof.
  intros He [HP [HA [HS HE]]]. cbn [fst snd] in *.
  destruct row as [par ex act flag]. cbn [Parameters Expected_Value Actual_Value
    Should_be_Equal] in *. subst par ex flag.
  change {| Parameters := "Device Code"; Expected_Value := e; Actual_Value := act;
            Should_be_Equal := true |} with (device_code_row e act).
  assert (Hact : Actual_Value (displayed_row (device_code_row e act)) = act)
    by reflexivity.
  rewrite Hact.
  pose proof (catalog_device_codes_no_space e He) as Hok.
  destruct e as [t|alts].
  - simpl in He. destruct He as [E|[E|[E|[E|[]]]]]; try discriminate E.
    injection E as <-. cbn [device_codes].
    change (highlight_row (displayed_row (device_code_row (Text "50024") act)))
      with (if negb (Py.mem act ["50024"]) then Ok Red else Ok Black).
    destruct (Py.mem act ["50024"]) eqn:M; cbn [negb]; eexists;
      (split; [reflexivity|]).
    + apply mem_In in M. split; [discriminate | tauto].
    + apply mem_false in M. split; [auto | reflexivity].
  - destruct Hok as [Hne Hsp]. cbn [device_codes].
    pose proof (device_code_style alts act Hne Hsp) as St. unfold row_style in St.
    rewrite St. destruct (Py.mem act alts) eqn:M; eexists; (split; [reflexivity|]).
    + apply mem_In in M. split; [discriminate | tauto].
    + apply mem_false in M. split; [auto | reflexivity].
Qed.

Lemma In_fields_name (attrs : list section) (a : string) (oe : option expected) :
  In (a, oe) (fields attrs) ->
  match oe with
  | Some e => In (a, e) (flat_map equal_fields attrs)
  | None => True
  end.
Proof.
  destruct oe as [e|]; [apply In_fields_equal | auto].
Qed.

(** X22.  The attributes of an accepted part number.  For the four
    families, when [is_valid_part_number] accepts the part number and the
    part number starts with its basic part number (K and digits), the
    dict of [attributes] has a profile for the type and the letter that
    the check left, and for every page [get_attribute_values] returns and
    the rendering gives a style for every row: no exception is raised,
    whatever elements the page lacks.  The frame has
    one row for each field of the profile, in its order; the rows follow
    the rule of the colours; and the row of the device code is red
    exactly when the value of the page is none of the codes that the
    profile admits. *)
Theorem accepted_part_attributes (ty : DropdownType) (pn l part : string)
    (old : option string) (p : page) :
  type_in ty [FLC_20; FLR_21; FLC_25; FLR_25] = true ->
  WebAutomation.is_valid_part_number ty pn old = (true, Some l) ->
  basic_part_number pn = Some part ->
  let attrs := map snd (attributes part ty l) in
  attrs <> []
  /\ exists df st,
       get_attribute_values p attrs = Ok (df, Ok st)
       /\ map Parameters df = map fst (fields attrs)
       /\ Forall2 (fun row s => colour_rule p attrs row s /\ device_code_rule attrs row s)
                  df st.
Proof.
  intros Hty Hvalid _ attrs.
  assert (Hl : In l ["R"; "X"; "SC"] \/ (type_in ty [FLC_20; FLR_21] = true /\ l = "N")).
  { unfold WebAutomation.is_valid_part_number in Hvalid.
    assert (Hcases : forall l', Utils.validate_part_number pn = Some l' ->
                                In l' ["R"; "X"; "SC"] \/ l' = "N").
    { intros l' V. apply validate_part_number_some in V as [_ V].
      apply first_occurring_cases in V.
      destruct V as [[-> _]|[[-> _]|[[-> _]|[-> _]]]]; simpl; tauto. }
    destruct (type_in ty [FLC_25; FLR_25]) eqn:T1.
    - destruct (Utils.validate_part_number pn) as [l'|] eqn:V; [|discriminate Hvalid].
      destruct (String.eqb l' ""); [discriminate Hvalid|].
      destruct (String.eqb_spec l' "N") as [->|N]; [discriminate Hvalid|].
      injection Hvalid as <-. destruct (Hcases l' eq_refl); tauto.
    - assert (T2 : type_in ty [FLC_20; FLR_21] = true)
        by (destruct ty; try discriminate Hty; try discriminate T1; reflexivity).
      rewrite T2 in Hvalid.
      destruct (Utils.validate_part_number pn) as [l'|] eqn:V; [|discriminate Hvalid].
      destruct (String.eqb l' ""); [discriminate Hvalid|].
      injection Hvalid as <-. destruct (Hcases l' eq_refl); tauto. }
  pose proof (attributes_profile part ty l Hty Hl) as Hne.
  destruct (profile_ok_facts _ (attributes_ok part ty l Hne))
    as [[n [s [rest [Es Heq]]]] [Hcodes Hnone]].
  fold attrs in Hcodes, Hnone.
  split; [unfold attrs; rewrite Es; discriminate|].
  assert (Hfirst : match attrs with [] => True | s0 :: _ => equal_fields s0 <> [] end).
  { unfold attrs. rewrite Es. exact Heq. }
  unfold get_attribute_values.
  destruct (sections_loop_spec p attrs None (or_intror Hfirst)) as [rows [E F]].
  rewrite E. cbn [bind].
  assert (Hdc : forall e, In ("Device Code", e) (flat_map equal_fields attrs) ->
                          e <> Alternatives []).
  { intros e He ->. apply Hcodes in He. simpl in He.
    destruct He as [E0|[E0|[E0|[E0|[]]]]]; discriminate E0. }
  destruct (styles_spec
              (fun row s => colour_rule p attrs row s /\ device_code_rule attrs row s)
              (map displayed_row rows)) as [st [Est Fst]].
  - intros row Hrow. apply in_map_iff in Hrow as [raw [<- Hraw]].
    destruct (Forall2_In_r _ _ _ raw F Hraw) as [[a oe] [Hf Rf]].
    destruct (displayed_row_colour p attrs (a, oe) raw Hf Rf Hdc) as [s0 [Hs0 Hc]].
    exists s0. split; [exact Hs0|]. split; [exact Hc|].
    intros Hpar. change (Parameters (displayed_row raw)) with (Parameters raw) in Hpar.
    pose proof Rf as [HP _]. cbn [fst] in HP. rewrite Hpar in HP. subst a.
    destruct oe as [e|]; [|contradiction].
    pose proof (In_fields_equal attrs _ e Hf) as He.
    destruct (displayed_device_code_row p e raw (Hcodes e He) Rf) as [s1 [Hs1 Hr]].
    rewrite Hs0 in Hs1. injection Hs1 as <-.
    exists e. split; [exact He | exact Hr].
  - exists (map displayed_row rows), st.
    split; [now rewrite Est|]. split; [|exact Fst].
    rewrite map_map. cbn [displayed_row Parameters].
    apply (Forall2_map_fst (raw_rule p)); [exact F|].
    intros f row [HP _]. exact HP.
Qed.

Lemma accepted_part_attributes_witness :
  let attrs := map snd (attributes "K015123" FLR_25 "X") in
  attrs <> []
  /\ exists df st,
       get_attribute_values SamplesMore.page_attributes attrs = Ok (df, Ok st)
       /\ map Parameters df = map fst (fields attrs)
       /\ Forall2 (fun row s => colour_rule SamplesMore.page_attributes attrs row s
                                /\ device_code_rule attrs row s)
                  df st.
Proof.
  exact (accepted_part_attributes FLR_25 "K015123X000" "X" "K015123" None
           SamplesMore.page_attributes eq_refl eq_refl eq_refl).
Defined.

End Catalog.

(** ** The device code of the attribute table *)

Section CatalogDeviceCode.

Import Spec SpecMore Utils UtilsAttributes UtilsCatalog.

(** The style of a device-code row whose reference is one of the table. *)
Lemma catalog_device_code_style (e : expected) (observed : string) :
  In e catalog_device_codes ->
  row_style (device_code_row e observed)
  = Ok (if Py.mem observed (device_codes e) then Black else Red).
Proof.
  intros He. pose proof (catalog_device_codes_no_space e He) as Hok.
  destruct e as [t|alts]; cbn [device_codes].
  - simpl in He. destruct He as [E|[E|[E|[E|[]]]]]; try discriminate E.
    injection E as <-.
    change (row_style (device_code_row (Text "50024") observed))
      with (if negb (Py.mem observed ["50024"]) then Ok Red else Ok Black).
    destruct (Py.mem observed ["50024"]); reflexivity.
  - destruct Hok as [Hne Hsp]. now apply device_code_style.
Qed.

(** The device codes of a profile of the table are the four of
    [catalog_device_codes]. *)
Lemma attributes_device_code (part : string) (ty : DropdownType) (l : string)
    (e : expected) :
  In ("Device Code", e) (flat_map equal_fields (map snd (attributes part ty l))) ->
  In e catalog_device_codes.
Proof.
  intros He.
  assert (Hne : attributes part ty l <> []).
  { intros N. rewrite N in He. exact He. }
  destruct (profile_ok_facts _ (attributes_ok part ty l Hne)) as [_ [Hcodes _]].
  now apply Hcodes.
Qed.

(** C9.  The device code in the Parameter Comparator.  For every part,
    type and letter, and every expected value that the attribute table
    gives there for the field "Device Code", the row of the field is
    marked equal (black) exactly when the observed value is one of the
    alternatives of the expected value, and non-conformant (red) exactly
    when it is none of them.  The list ["21024"; "50017"] is the expected
    value of the field for the type FLC-20 and the letter R. *)
Theorem device_code_conformance (part : string) (ty : DropdownType) (l : string)
    (e : expected) (observed : string) :
  In ("Device Code", e) (flat_map equal_fields (map snd (attributes part ty l))) ->
  (row_style (device_code_row e observed) = Ok Black
   <-> In observed (device_codes e))
  /\ (row_style (device_code_row e observed) = Ok Red
      <-> ~ In observed (device_codes e)).
Proof.
  intros He. apply attributes_device_code in He.
  rewrite (catalog_device_code_style e observed He).
  destruct (Py.mem observed (device_codes e)) eqn:M.
  - apply mem_In in M. split; split; intros; try discriminate; tauto.
  - apply mem_false in M. split; split; intros; try discriminate; tauto.
Qed.

(** The rule at the list of the type FLC-20 with the letter R: 50017 is
    marked equal, 99999 is not. *)
Lemma device_code_conformance_witness :
  In ("Device Code", Alternatives ["21024"; "50017"])
     (flat_map equal_fields (map snd (attributes "K015123" FLC_20 "R")))
  /\ row_style (device_code_row (Alternatives ["21024"; "50017"]) "50017") = Ok Black
  /\ row_style (device_code_row (Alternatives ["21024"; "50017"]) "99999") = Ok Red.
Proof.
  assert (Hin : In ("Device Code", Alternatives ["21024"; "50017"])
                   (flat_map equal_fields (map snd (attributes "K015123" FLC_20 "R")))).
  { vm_compute. do 7 right. left. reflexivity. }
  split; [exact Hin|]. split.
  - apply (proj1 (device_code_conformance "K015123" FLC_20 "R" _ "50017" Hin)).
    right. left. reflexivity.
  - apply (proj2 (device_code_conformance "K015123" FLC_20 "R" _ "99999" Hin)).
    simpl. intuition discriminate.
Defined.

End CatalogDeviceCode.
